(** * Metris Azure provider: worker pool and cluster intake

    A shallow embedding of [components/metris/internal/provider/azure/azure.go]
    (functions [Run], [clusterHandler], [getMetrics] and [sendMetrics]) and the
    properties of its retry, back-off and removal policy.

    Go pointers to [Instance] are locations of an explicit heap, so that the
    in-place updates of the worker ([instance.retryBackoff = false],
    [instance.retryAttempts++], [instance.lastEvent = eventData]) and the
    pointer that [instanceStorage.Put] stores are the same object, as in the
    source.  Logging is not modelled. *)

From Stdlib Require Import ZArith.
From stdpp Require Import gmap strings list.

Local Open Scope Z_scope.

(** ** Go builtins used by the provider *)

(** [strings.Contains(s, substr)]. *)
Fixpoint Contains (s substr : string) : bool :=
  String.prefix substr s ||
  match s with
  | EmptyString => false
  | String _ s' => Contains s' substr
  end.

(** Modelled from the spec: "RetryAttempts:int" (the field is declared
    outside [azure.go]), as Go's [int] on a 64-bit platform, where [x++]
    wraps around. *)
Definition int_min : Z := - 2 ^ 63.
Definition int_max : Z := 2 ^ 63 - 1.
Definition int_wrap (x : Z) : Z := (x + 2 ^ 63) mod 2 ^ 64 - 2 ^ 63.

(** [net/http] status codes. *)
Definition StatusNotFound : Z := 404.
Definition StatusTooManyRequests : Z := 429.

(** Modelled from the spec: "errors may carry an HTTP-like status code used
    for policy branching (404, 429, etc.)".  Go [error] values as the worker
    tells them apart: an [autorest.DetailedError] (with its [StatusCode] and
    the text of [Original.Error()]), or any other error. *)
Inductive error : Type :=
  | DetailedError (StatusCode : Z) (Original : string)
  | PlainError (msg : string).

(** The error made by [errors.New] in the self-throttling branch of [Run]. *)
Definition errSelfThrottling : error :=
  PlainError "client-side self-throttling, skip fetching metrics".

(** ** Data model *)

(** Modelled from the spec: "Cluster: {TechnicalID (unique key), AccountID,
    SubAccountID, Region, Trial:bool, Deleted:bool}" ([gardener.Cluster],
    declared outside [azure.go], which reads these six fields). *)
Record Cluster : Type := mkCluster {
  TechnicalID : string;
  AccountID : string;
  SubAccountID : string;
  Region : string;
  Trial : bool;
  Deleted : bool
}.

(** Modelled from the spec: the "EventHub" section of an event (the struct
    is declared outside [azure.go]); its fields are the seven counters of the
    literal in [getMetrics], taken as integers. *)
Record EventHub : Type := mkEventHub {
  NumberNamespaces : Z;
  IncomingRequestsPT1M : Z;
  MaxIncomingBytesPT1M : Z;
  MaxOutgoingBytesPT1M : Z;
  IncomingRequestsPT5M : Z;
  MaxIncomingBytesPT5M : Z;
  MaxOutgoingBytesPT5M : Z
}.

(** The value [getMetrics] initialises [EventData.EventHub] with. *)
Definition emptyEventHub : EventHub := mkEventHub 0 0 0 0 0 0 0.

(** [vmCapabilities]: [vmtype][capname]capvalue. *)
Abbreviation vmCapabilities := (gmap string (gmap string string)).

(** An entry of [GetVMResourceSkus]' result: [item.Name], [item.Capabilities]. *)
Record ResourceSku : Type := mkSku {
  skuName : string;
  skuCapabilities : list (string * string)
}.

(** Pointers to [Instance]. *)
Abbreviation loc := positive.

(** What a memory storage holds under a key: Go's [interface{}], which the
    code type-asserts to [*Instance] or [*vmCapabilities]. *)
Inductive obj : Type :=
  | ObjInstance (p : loc)
  | ObjVMCaps (caps : vmCapabilities)
  | ObjOther.

(** Calls made to the Provider Client, in the order they are made. *)
Inductive Call : Type :=
  | CallGetResourceGroup (filter : string)
  | CallGetVMResourceSkus (filter : string)
  | CallComputeMetrics
  | CallNetworkMetrics
  | CallEventHubMetrics.

(** ** The work queue *)

Module workqueue.

(** Modelled from the spec: the delaying work queue
    ([k8s.io/client-go/util/workqueue], imported by [azure.go] and not part of
    src).  "A key-unique delaying queue. Add(key) and AddAfter(key, delay)
    collapse duplicate pending/in-flight keys into one.  Get() blocks until an
    item becomes visible or the queue is shut down.  Done(key) marks
    processing complete and permits the key to be re-added.  ShutDown()
    cancels pending delayed timers."  The fields are the library's: the
    visible FIFO, the dirty and processing sets, and the delayed entries, each
    with the time at which it becomes ready (one entry per key). *)
Record Queue : Type := mkQueue {
  items : list string;
  dirty : gset string;
  processing : gset string;
  waiting : list (string * Z);
  shuttingDown : bool
}.

Definition empty : Queue := mkQueue [] ∅ ∅ [] false.

Definition Add (item : string) (q : Queue) : Queue :=
  if shuttingDown q then q
  else if decide (item ∈ dirty q) then q
  else if decide (item ∈ processing q)
       then mkQueue (items q) ({[item]} ∪ dirty q) (processing q) (waiting q) (shuttingDown q)
       else mkQueue (items q ++ [item]) ({[item]} ∪ dirty q) (processing q) (waiting q) (shuttingDown q).

(** A delayed entry for a key that already waits keeps the earlier time. *)
Fixpoint insertWaiting (item : string) (readyAt : Z) (l : list (string * Z))
  : list (string * Z) :=
  match l with
  | [] => [(item, readyAt)]
  | (i, t) :: l' =>
      if String.eqb i item then (i, Z.min t readyAt) :: l'
      else (i, t) :: insertWaiting item readyAt l'
  end.

(** [AddAfter] at time [now]. *)
Definition AddAfter (item : string) (duration : Z) (now : Z) (q : Queue) : Queue :=
  if shuttingDown q then q
  else if duration <=? 0 then Add item q
  else mkQueue (items q) (dirty q) (processing q)
               (insertWaiting item (now + duration) (waiting q)) (shuttingDown q).

(** The result of [Get]: an item, the shutdown flag, or no return yet. *)
Inductive GetResult : Type :=
  | GetItem (item : string) (q : Queue)
  | GetQuit
  | GetBlocked.

Definition Get (q : Queue) : GetResult :=
  match items q with
  | item :: rest =>
      GetItem item
        (mkQueue rest (dirty q ∖ {[item]}) ({[item]} ∪ processing q) (waiting q) (shuttingDown q))
  | [] => if shuttingDown q then GetQuit else GetBlocked
  end.

Definition Done (item : string) (q : Queue) : Queue :=
  if decide (item ∈ dirty q)
  then mkQueue (items q ++ [item]) (dirty q) (processing q ∖ {[item]}) (waiting q) (shuttingDown q)
  else mkQueue (items q) (dirty q) (processing q ∖ {[item]}) (waiting q) (shuttingDown q).

Definition ShuttingDown (q : Queue) : bool := shuttingDown q.

Definition ShutDown (q : Queue) : Queue :=
  mkQueue (items q) (dirty q) (processing q) [] true.

(** The clock reaches [now]: the delayed entries that are ready are added. *)
Definition advance (now : Z) (q : Queue) : Queue :=
  fold_left (fun q' (e : string * Z) => Add e.1 q')
            (filter (fun e : string * Z => e.2 <= now) (waiting q))
            (mkQueue (items q) (dirty q) (processing q)
                     (filter (fun e : string * Z => ¬ e.2 <= now) (waiting q))
                     (shuttingDown q)).

End workqueue.

Abbreviation Queue := workqueue.Queue.

(** [json.RawMessage]. *)
Abbreviation RawMessage := (list Byte.byte).

(** Modelled from the spec: the "Compute" and "Networking" sections of an
    event and the "Provider Client handle", three types declared outside
    [azure.go] and opaque to it. *)
Class Types : Type := mkTypes {
  ComputeData : Type;
  NetworkData : Type;
  Client : Type
}.

(** ** The provider *)

Section Metris.

Context {types : Types}.

(** Modelled from the spec: "EventData: per-cycle aggregate {resource groups
    involved, Compute, Networking, EventHub}" (declared outside [azure.go]),
    with the field names of the literal in [getMetrics]; [EventHubData] is
    its [EventHub] field. *)
Record EventData : Type := mkEventData {
  ResourceGroups : list string;
  Compute : ComputeData;
  Networking : NetworkData;
  EventHubData : EventHub
}.

(** Modelled from the spec: the "maximum retry attempts before removal" and
    what else [azure.go] uses without declaring it: the package constants
    [maxRetryAttempts], [responseErrCodeResourceGroupNotFound] and
    [tagNameSubAccountID], and [json.Marshal] on an [**EventData] (the bytes,
    or an error).  They are parameters of the development. *)
Class Package : Type := mkPackage {
  maxRetryAttempts : Z;
  responseErrCodeResourceGroupNotFound : string;
  tagNameSubAccountID : string;
  jsonMarshal : EventData -> RawMessage + error
}.

Context {pkg : Package}.

(** Modelled from the spec: "Instance: owns a Cluster snapshot, a Provider
    Client handle, an optional EventHubResourceGroupName, an optional
    LastEvent, RetryAttempts:int, RetryBackoff:bool" (declared outside
    [azure.go], which reads and writes these six fields).  [client] and
    [lastEvent] are nil ([None]) in a fresh [&Instance{cluster: cluster}]. *)
Record Instance : Type := mkInstance {
  cluster : Cluster;
  client : option Client;
  lastEvent : option EventData;
  eventHubResourceGroupName : string;
  retryAttempts : Z;
  retryBackoff : bool
}.

(** Modelled from the spec: the Event Sink "accepts {datatenant: string,
    payload: opaque-serialized}" ([edp.Event], declared outside [azure.go],
    with the two fields [sendMetrics] sets). *)
Record Event : Type := mkEvent {
  Datatenant : string;
  Data : RawMessage
}.

(** Modelled from the spec: "Configuration surface: worker count, poll
    interval, per-cycle fetch timeout" ([provider.Config], declared outside
    [azure.go]); the two channels are part of the provider state below. *)
Record Config : Type := mkConfig {
  Workers : nat;
  PollInterval : Z;
  PollingDuration : Z
}.

(** Modelled from the spec: the Provider Client, a "capability set" of
    "GetResourceGroup", "GetVMResourceSkus", "FetchCompute", "FetchNetwork"
    and "FetchEventHub", each answering a value or an error, together with
    the constructor [newClient] (all declared outside [azure.go]): what they
    answer during one cycle or one notification. *)
Record Env : Type := mkEnv {
  newClient : Cluster -> Client + error;
  GetResourceGroup : Client -> string -> string -> string + error;
  GetVMResourceSkus : Client -> string -> list ResourceSku + error;
  getComputeMetrics : Instance -> vmCapabilities -> ComputeData + error;
  getNetworkMetrics : Instance -> NetworkData + error;
  getEventHubMetrics : Instance -> Z -> EventHub + error
}.

(** [Azure]: the provider, with the Go heap of instances, the events sent on
    [config.EventsChannel], the re-deliveries armed with [time.AfterFunc]
    (each with the time it fires at), the log of Provider Client calls and
    the wall clock. *)
Record Azure : Type := mkAzure {
  config : Config;
  instanceStorage : gmap string obj;
  vmCapsStorage : gmap string obj;
  queue : Queue;
  heap : gmap loc Instance;
  EventsChannel : list Event;
  timers : list (Z * Cluster);
  calls : list Call;
  now : Z
}.

(** [NewAzureProvider]. *)
Definition NewAzureProvider (c : Config) : Azure :=
  mkAzure c ∅ ∅ workqueue.empty ∅ [] [] [] 0.

Definition set_instanceStorage (f : gmap string obj -> gmap string obj) (a : Azure) : Azure :=
  mkAzure (config a) (f (instanceStorage a)) (vmCapsStorage a) (queue a) (heap a)
          (EventsChannel a) (timers a) (calls a) (now a).

Definition set_vmCapsStorage (f : gmap string obj -> gmap string obj) (a : Azure) : Azure :=
  mkAzure (config a) (instanceStorage a) (f (vmCapsStorage a)) (queue a) (heap a)
          (EventsChannel a) (timers a) (calls a) (now a).

Definition set_queue (f : Queue -> Queue) (a : Azure) : Azure :=
  mkAzure (config a) (instanceStorage a) (vmCapsStorage a) (f (queue a)) (heap a)
          (EventsChannel a) (timers a) (calls a) (now a).

Definition set_heap (f : gmap loc Instance -> gmap loc Instance) (a : Azure) : Azure :=
  mkAzure (config a) (instanceStorage a) (vmCapsStorage a) (queue a) (f (heap a))
          (EventsChannel a) (timers a) (calls a) (now a).

Definition set_EventsChannel (f : list Event -> list Event) (a : Azure) : Azure :=
  mkAzure (config a) (instanceStorage a) (vmCapsStorage a) (queue a) (heap a)
          (f (EventsChannel a)) (timers a) (calls a) (now a).

Definition set_timers (f : list (Z * Cluster) -> list (Z * Cluster)) (a : Azure) : Azure :=
  mkAzure (config a) (instanceStorage a) (vmCapsStorage a) (queue a) (heap a)
          (EventsChannel a) (f (timers a)) (calls a) (now a).

Definition set_calls (f : list Call -> list Call) (a : Azure) : Azure :=
  mkAzure (config a) (instanceStorage a) (vmCapsStorage a) (queue a) (heap a)
          (EventsChannel a) (timers a) (f (calls a)) (now a).

Definition set_now (t : Z) (a : Azure) : Azure :=
  mkAzure (config a) (instanceStorage a) (vmCapsStorage a) (queue a) (heap a)
          (EventsChannel a) (timers a) (calls a) t.

(** *** Statements of the provider: a state monad over [Azure]

    [None] is a run-time panic (a nil or dangling pointer dereference). *)
Definition M (A : Type) : Type := Azure -> option (A * Azure).

Definition ret {A} (x : A) : M A := fun a => Some (x, a).

Definition bind {A B} (m : M A) (k : A -> M B) : M B :=
  fun a => match m a with
           | Some (x, a') => k x a'
           | None => None
           end.

Definition gets {A} (f : Azure -> A) : M A := fun a => Some (f a, a).
Definition modify (f : Azure -> Azure) : M unit := fun a => Some (tt, f a).

Notation "'let*' x ':=' m 'in' k" := (bind m (fun x => k))
  (at level 10, x name, m at level 100, k at level 200).
Notation "m ;;; k" := (bind m (fun _ : unit => k))
  (at level 100, right associativity).

(** The final state of a statement, when it does not panic. *)
Definition exec {A} (m : M A) (a : Azure) : option Azure :=
  match m a with
  | Some (_, a') => Some a'
  | None => None
  end.

(** Modelled from the spec: the Stores ([storage.NewMemoryStorage], declared
    outside [azure.go]), "generic concurrent key→value caches; no eviction",
    each with "Get/Put/Delete". *)
Definition instanceStorage_Get (key : string) : M (option obj) :=
  gets (fun a => instanceStorage a !! key).
Definition instanceStorage_Put (key : string) (value : obj) : M unit :=
  modify (set_instanceStorage (insert key value)).
Definition instanceStorage_Delete (key : string) : M unit :=
  modify (set_instanceStorage (delete key)).
Definition vmCapsStorage_Get (key : string) : M (option obj) :=
  gets (fun a => vmCapsStorage a !! key).
Definition vmCapsStorage_Put (key : string) (value : obj) : M unit :=
  modify (set_vmCapsStorage (insert key value)).

(** *** Pointers to instances *)

(** [&Instance{cluster: cluster}]. *)
Definition new_Instance (c : Cluster) : M loc :=
  fun a =>
    let p := fresh (dom (heap a)) in
    Some (p, set_heap (insert p (mkInstance c None None "" 0 false)) a).

(** [*p]. *)
Definition load (p : loc) : M Instance :=
  fun a => match heap a !! p with
           | Some i => Some (i, a)
           | None => None
           end.

(** [p.field = v], as an update of the pointed instance. *)
Definition update (p : loc) (f : Instance -> Instance) : M unit :=
  fun a => match heap a !! p with
           | Some i => Some (tt, set_heap (insert p (f i)) a)
           | None => None
           end.

Definition with_client (c : option Client) (i : Instance) : Instance :=
  mkInstance (cluster i) c (lastEvent i) (eventHubResourceGroupName i)
             (retryAttempts i) (retryBackoff i).
Definition with_lastEvent (e : option EventData) (i : Instance) : Instance :=
  mkInstance (cluster i) (client i) e (eventHubResourceGroupName i)
             (retryAttempts i) (retryBackoff i).
Definition with_eventHubResourceGroupName (s : string) (i : Instance) : Instance :=
  mkInstance (cluster i) (client i) (lastEvent i) s (retryAttempts i) (retryBackoff i).
Definition with_retryAttempts (n : Z) (i : Instance) : Instance :=
  mkInstance (cluster i) (client i) (lastEvent i) (eventHubResourceGroupName i)
             n (retryBackoff i).
Definition with_retryBackoff (b : bool) (i : Instance) : Instance :=
  mkInstance (cluster i) (client i) (lastEvent i) (eventHubResourceGroupName i)
             (retryAttempts i) b.

(** *** Calls out of the provider *)

Definition logCall (c : Call) : M unit := modify (set_calls (fun l => l ++ [c])).

(** [a.config.EventsChannel <- &eventBuffer]. *)
Definition send_EventsChannel (e : Event) : M unit :=
  modify (set_EventsChannel (fun l => l ++ [e])).

(** [time.AfterFunc(d, func() { a.config.ClusterChannel <- cluster })]. *)
Definition AfterFunc_redeliver (d : Z) (c : Cluster) : M unit :=
  modify (fun a => set_timers (fun l => l ++ [(now a + d, c)]) a).

(** [a.queue.Add], [a.queue.AddAfter], [a.queue.Done], [a.queue.ShuttingDown]
    and [a.queue.ShutDown]. *)
Definition queue_Add (item : string) : M unit :=
  modify (set_queue (workqueue.Add item)).
Definition queue_AddAfter (item : string) (d : Z) : M unit :=
  modify (fun a => set_queue (workqueue.AddAfter item d (now a)) a).
Definition queue_Done (item : string) : M unit :=
  modify (set_queue (workqueue.Done item)).
Definition queue_ShuttingDown : M bool :=
  gets (fun a => workqueue.ShuttingDown (queue a)).
Definition queue_ShutDown : M unit :=
  modify (set_queue workqueue.ShutDown).

(** *** [getMetrics]

    The three sub-fetches are methods of [Instance] declared outside
    [azure.go]; each is a logged call answered by [env].  The deadline of
    [context.WithTimeout] shows as an error answer of a sub-fetch. *)
Definition getMetrics (env : Env) (instance : loc) (vmcaps : vmCapabilities)
  : M (EventData + error) :=
  let* i := load instance in
  logCall CallComputeMetrics ;;;
  match getComputeMetrics env i vmcaps with
  | inr err => ret (inr err)
  | inl computeData =>
      logCall CallNetworkMetrics ;;;
      match getNetworkMetrics env i with
      | inr err => ret (inr err)
      | inl networkData =>
          let eventData :=
            mkEventData [TechnicalID (cluster i)] computeData networkData emptyEventHub in
          if (0 <? String.length (eventHubResourceGroupName i))%nat then
            let* c := gets config in
            logCall CallEventHubMetrics ;;;
            match getEventHubMetrics env i (PollInterval c) with
            | inr err => ret (inr err)
            | inl eventhubData =>
                ret (inl (mkEventData
                            (ResourceGroups eventData ++ [eventHubResourceGroupName i])
                            (Compute eventData) (Networking eventData) eventhubData))
            end
          else ret (inl eventData)
      end
  end.

(** *** [sendMetrics] *)
Definition sendMetrics (instance : loc) (eventData : EventData) : M (option error) :=
  match jsonMarshal eventData with
  | inr err => ret (Some err)
  | inl eventDataRaw =>
      (* save a copy of the event data in case of error next time *)
      update instance (with_lastEvent (Some eventData)) ;;;
      let* i := load instance in
      send_EventsChannel (mkEvent (SubAccountID (cluster i)) eventDataRaw) ;;;
      ret None
  end.

(** *** [Run]: the body of a worker's loop

    One iteration, after [a.queue.Get()] has returned [clusterid] with
    [quit = false]. *)

(** The [switch errdetail.StatusCode] of the failure path. *)
Definition classifyError (instance : loc) (err : error) : M unit :=
  match err with
  | DetailedError StatusCode Original =>
      if StatusCode =? StatusNotFound then
        if Contains Original responseErrCodeResourceGroupNotFound then
          update instance (fun i => with_retryAttempts (int_wrap (retryAttempts i + 1)) i) ;;;
          let* i := load instance in
          if retryAttempts i <? maxRetryAttempts
          then instanceStorage_Put (TechnicalID (cluster i)) (ObjInstance instance)
          else instanceStorage_Delete (TechnicalID (cluster i))
        else ret tt
      else if StatusCode =? StatusTooManyRequests then
        (* request is being throttled, skip next call *)
        update instance (with_retryBackoff true)
      else ret tt
  | PlainError _ => ret tt
  end.

(** [vmcaps := make(vmCapabilities)], replaced by the cached capabilities of
    the region when there are some of the right type. *)
Definition capsOf (cached : option obj) : vmCapabilities :=
  match cached with
  | Some (ObjVMCaps caps) => caps
  | _ => ∅
  end.

(** "if last api call was rate limited, we skip this call to release some
    pressure on azure and return last events": the [if instance.retryBackoff]
    around the call of [getMetrics]. *)
Definition fetchOrSkip (env : Env) (instance : loc) (vmcaps : vmCapabilities)
  : M (EventData + error) :=
  let* i := load instance in
  if retryBackoff i then
    update instance (with_retryBackoff false) ;;;
    ret (inr errSelfThrottling)
  else getMetrics env instance vmcaps.

(** The [if err != nil] block: the error is classified, then the cached
    event, if any, becomes the event to send. *)
Definition onFetchError (instance : loc) (err : error) : M (option EventData) :=
  classifyError instance err ;;;
  let* i := load instance in
  ret (lastEvent i).

(** From the lookup of the VM capabilities to "save changes to storage". *)
Definition processInstance (env : Env) (instance : loc) : M unit :=
  let* i := load instance in
  let* cached := vmCapsStorage_Get (Region (cluster i)) in
  let vmcaps := capsOf cached in
  let* fetched := fetchOrSkip env instance vmcaps in
  let* eventData :=
    (match fetched with
     | inl eventData => ret (Some eventData)
     | inr err => onFetchError instance err
     end) in
  (match eventData with
   | Some eventData => let* _ := sendMetrics instance eventData in ret tt
   | None => ret tt
   end) ;;;
  (* save changes to storage *)
  let* i := load instance in
  instanceStorage_Put (TechnicalID (cluster i)) (ObjInstance instance).

(** "requeue item after X duration if client still in storage". *)
Definition requeue (clusterid : string) : M unit :=
  let* down := queue_ShuttingDown in
  if negb down then
    let* c := gets config in
    queue_AddAfter clusterid (PollInterval c)
  else ret tt.

(** From [a.instanceStorage.Get] to the end of the iteration. *)
Definition Run_cycle (env : Env) (clusterid : string) : M unit :=
  let* got := instanceStorage_Get clusterid in
  match got with
  | None =>
      (* cluster not found in storage, must have been deleted *)
      queue_Done clusterid
  | Some (ObjInstance instance) =>
      processInstance env instance ;;;
      queue_Done clusterid ;;;
      requeue clusterid
  | Some _ =>
      (* cluster object is corrupted, removing it from storage *)
      instanceStorage_Delete clusterid ;;;
      queue_Done clusterid
  end.

(** The same iteration cut at its queue operations, for the interleaving of
    several workers: the work up to the acknowledgement, which tells whether
    the iteration goes on to requeue ([false] where the source says
    [continue]). *)
Definition Run_work (env : Env) (clusterid : string) : M bool :=
  let* got := instanceStorage_Get clusterid in
  match got with
  | None => ret false
  | Some (ObjInstance instance) => processInstance env instance ;;; ret true
  | Some _ => instanceStorage_Delete clusterid ;;; ret false
  end.

(** *** [clusterHandler]: one pass of the [select] loop *)

(** The capabilities map built from the SKU list. *)
Definition skusToCaps (skuList : list ResourceSku) : vmCapabilities :=
  fold_left
    (fun (vmcaps : vmCapabilities) item =>
       <[skuName item :=
           fold_left (fun (m : gmap string string) (v : string * string) => <[v.1 := v.2]> m)
                     (skuCapabilities item) ∅]> vmcaps)
    skuList ∅.

(** [fmt.Sprintf("tagname eq '%s' and tagvalue eq '%s'", tagNameSubAccountID,
    cluster.SubAccountID)]. *)
Definition resourceGroupFilter (cl : Cluster) : string :=
  "tagname eq '" +:+ tagNameSubAccountID +:+ "' and tagvalue eq '"
    +:+ SubAccountID cl +:+ "'".

(** [fmt.Sprintf("location eq '%s'", cluster.Region)]. *)
Definition locationFilter (cl : Cluster) : string :=
  "location eq '" +:+ Region cl +:+ "'".

(** [case cluster := <-a.config.ClusterChannel], with [cl] the received
    [cluster]. *)
Definition clusterHandler_receive (env : Env) (cl : Cluster) : M unit :=
  (* if cluster was flag as deleted, remove it from storage and exit *)
  if Deleted cl then instanceStorage_Delete (TechnicalID cl)
  else
    let* instance := new_Instance cl in
    (* recover instance from storage *)
    let* got := instanceStorage_Get (TechnicalID cl) in
    (match got with
     | Some (ObjInstance i) =>
         let* old := load i in
         update instance (with_lastEvent (lastEvent old)) ;;;
         update instance (with_eventHubResourceGroupName (eventHubResourceGroupName old))
     | _ => ret tt
     end) ;;;
    match newClient env cl with
    | inr err => instanceStorage_Delete (TechnicalID cl)
    | inl client =>
        update instance (with_client (Some client)) ;;;
        let* inst := load instance in
        let* proceed :=
          (if String.eqb (eventHubResourceGroupName inst) "" then
             let filter := resourceGroupFilter cl in
             logCall (CallGetResourceGroup filter) ;;;
             match GetResourceGroup env client "" filter with
             | inr err =>
                 if negb (Trial cl) then
                   let* c := gets config in
                   AfterFunc_redeliver (PollInterval c) cl ;;;
                   ret false
                 else ret true
             | inl rgName =>
                 update instance (with_eventHubResourceGroupName rgName) ;;;
                 ret true
             end
           else ret true) in
        if proceed then
          instanceStorage_Put (TechnicalID cl) (ObjInstance instance) ;;;
          (* initialize vm capabilities cache for the cluster region if not already *)
          let* caps := vmCapsStorage_Get (Region cl) in
          (match caps with
           | Some _ => ret tt
           | None =>
               let filter := locationFilter cl in
               logCall (CallGetVMResourceSkus filter) ;;;
               let vmcaps : vmCapabilities :=
                 match GetVMResourceSkus env client filter with
                 | inr err => ∅
                 | inl skuList => skusToCaps skuList
                 end in
               if (0 <? size vmcaps)%nat then
                 let* inst := load instance in
                 vmCapsStorage_Put (Region (cluster inst)) (ObjVMCaps vmcaps)
               else ret tt
           end) ;;;
          queue_Add (TechnicalID cl)
        else ret tt
    end.

(** [case <-parentctx.Done()]. *)
Definition clusterHandler_done : M unit := queue_ShutDown.

(** ** The running provider: intake, workers and timers interleaved *)

(** Where a worker goroutine of [Run] stands in its loop. *)
Inductive Worker : Type :=
  | Idle
  | Working (clusterid : string)
  | Acking (clusterid : string) (again : bool)
  | Requeuing (clusterid : string)
  | Stopped.

(** The provider, its workers, and whether [clusterHandler] still runs. *)
Record System : Type := mkSystem {
  provider : Azure;
  workers : list Worker;
  handling : bool
}.

(** [Run] has started [clusterHandler] and [config.Workers] workers. *)
Definition start (c : Config) : System :=
  mkSystem (NewAzureProvider c) (replicate (Workers c) Idle) true.

(** The key a worker owns between [Get] and [Done]. *)
Definition inflight (w : Worker) : option string :=
  match w with
  | Working k | Acking k _ => Some k
  | _ => None
  end.

(** One atomic step of one goroutine, of a timer or of the clock: the
    handler receives a cluster from the feed or from an expired
    [time.AfterFunc], or sees the cancellation; a worker returns from [Get],
    does the work on the stores, calls [Done], or requeues; time passes and
    the delayed entries that are ready are added. *)
Inductive step (s : System) : System -> Prop :=
  | step_feed env cl a' :
      handling s = true ->
      exec (clusterHandler_receive env cl) (provider s) = Some a' ->
      step s (mkSystem a' (workers s) true)
  | step_redeliver n t cl env a' :
      handling s = true ->
      timers (provider s) !! n = Some (t, cl) ->
      t <= now (provider s) ->
      exec (clusterHandler_receive env cl) (set_timers (delete n) (provider s)) = Some a' ->
      step s (mkSystem a' (workers s) true)
  | step_cancel a' :
      handling s = true ->
      exec clusterHandler_done (provider s) = Some a' ->
      step s (mkSystem a' (workers s) false)
  | step_get w clusterid q' :
      workers s !! w = Some Idle ->
      workqueue.Get (queue (provider s)) = workqueue.GetItem clusterid q' ->
      step s (mkSystem (set_queue (fun _ => q') (provider s))
                       (<[w := Working clusterid]> (workers s)) (handling s))
  | step_quit w :
      workers s !! w = Some Idle ->
      workqueue.Get (queue (provider s)) = workqueue.GetQuit ->
      step s (mkSystem (provider s) (<[w := Stopped]> (workers s)) (handling s))
  | step_work w clusterid env again a' :
      workers s !! w = Some (Working clusterid) ->
      Run_work env clusterid (provider s) = Some (again, a') ->
      step s (mkSystem a' (<[w := Acking clusterid again]> (workers s)) (handling s))
  | step_ack w clusterid again a' :
      workers s !! w = Some (Acking clusterid again) ->
      exec (queue_Done clusterid) (provider s) = Some a' ->
      step s (mkSystem a'
                       (<[w := if again then Requeuing clusterid else Idle]> (workers s))
                       (handling s))
  | step_requeue w clusterid a' :
      workers s !! w = Some (Requeuing clusterid) ->
      exec (requeue clusterid) (provider s) = Some a' ->
      step s (mkSystem a' (<[w := Idle]> (workers s)) (handling s))
  | step_tick t :
      now (provider s) <= t ->
      step s (mkSystem (set_now t (set_queue (workqueue.advance t) (provider s)))
                       (workers s) (handling s)).

(** The states of a provider started with configuration [c]. *)
Definition reachable (c : Config) (s : System) : Prop := rtc step (start c) s.

(** The instance cached under a key, if there is one. *)
Definition instanceAt (a : Azure) (key : string) : option Instance :=
  match instanceStorage a !! key with
  | Some (ObjInstance p) => heap a !! p
  | _ => None
  end.

(** The fetch of a cycle (the call of [getMetrics] in [Run]) fails with [err]. *)
Definition fetchFails (env : Env) (a : Azure) (instance : loc) (i : Instance)
    (err : error) : Prop :=
  exists a1,
    getMetrics env instance (capsOf (vmCapsStorage a !! Region (cluster i))) a
    = Some (inr err, a1).

(** The fetch of a cycle succeeds with [eventData]. *)
Definition fetchSucceeds (env : Env) (a : Azure) (instance : loc) (i : Instance)
    (eventData : EventData) : Prop :=
  exists a1,
    getMetrics env instance (capsOf (vmCapsStorage a !! Region (cluster i))) a
    = Some (inl eventData, a1).

(** Every pointer of the instance storage is allocated. *)
Definition store_closed (a : Azure) : Prop :=
  forall key p, instanceStorage a !! key = Some (ObjInstance p) -> is_Some (heap a !! p).

(** Instances are cached under the technical id of their cluster. *)
Definition store_keyed (a : Azure) : Prop :=
  forall key p i,
    instanceStorage a !! key = Some (ObjInstance p) -> heap a !! p = Some i ->
    TechnicalID (cluster i) = key.

(** Every recorded last event is one that [json.Marshal] accepts. *)
Definition lastEvents_marshal (a : Azure) : Prop :=
  forall p i e,
    heap a !! p = Some i -> lastEvent i = Some e ->
    exists raw, jsonMarshal e = inl raw.

(** What the cache should hold under the technical id of a notification
    once it is handled, from what it held before ([old]) and the answers the
    handling gets: the statement of the intake's upsert/delete to which
    [clusterHandler_receive] is compared. *)
Definition intakeOutcome (env : Env) (cl : Cluster) (old : option Instance)
  : option Instance :=
  if Deleted cl then None
  else
    match newClient env cl with
    | inr _ => None
    | inl c =>
        let carriedEvent := match old with Some i => lastEvent i | None => None end in
        let carriedName :=
          match old with Some i => eventHubResourceGroupName i | None => "" end in
        if String.eqb carriedName "" then
          match GetResourceGroup env c "" (resourceGroupFilter cl) with
          | inl rgName => Some (mkInstance cl (Some c) carriedEvent rgName 0 false)
          | inr _ =>
              if Trial cl then Some (mkInstance cl (Some c) carriedEvent "" 0 false)
              else old
          end
        else Some (mkInstance cl (Some c) carriedEvent carriedName 0 false)
    end.

(** The three invariants of the stores together. *)
Definition stores_ok (a : Azure) : Prop :=
  store_closed a /\ store_keyed a /\ lastEvents_marshal a.

(** The visible items of the queue are distinct, marked dirty, and not being
    processed. *)
Definition queue_ok (q : Queue) : Prop :=
  NoDup (workqueue.items q) /\
  forall k, k ∈ workqueue.items q ->
            k ∈ workqueue.dirty q /\ (k ∉ workqueue.processing q).

(** The processing set is the set of the keys the workers have in flight,
    and no two workers have the same key in flight. *)
Definition owners_ok (ws : list Worker) (proc : gset string) : Prop :=
  (forall k, k ∈ proc <-> exists w wk, ws !! w = Some wk /\ inflight wk = Some k) /\
  (forall w1 w2 wk1 wk2 k,
      ws !! w1 = Some wk1 -> ws !! w2 = Some wk2 ->
      inflight wk1 = Some k -> inflight wk2 = Some k -> w1 = w2).

(** The invariant of the running provider. *)
Definition system_ok (s : System) : Prop :=
  stores_ok (provider s) /\
  queue_ok (queue (provider s)) /\
  owners_ok (workers s) (workqueue.processing (queue (provider s))).

(** The two errors the [switch] of [Run] acts on: a 404 whose text carries
    the resource-group-not-found code, and a 429. *)
Definition countsAsNotFound (err : error) : bool :=
  match err with
  | DetailedError StatusCode Original =>
      (StatusCode =? StatusNotFound)
      && Contains Original responseErrCodeResourceGroupNotFound
  | PlainError _ => false
  end.

Definition isRateLimit (err : error) : bool :=
  match err with
  | DetailedError StatusCode _ => StatusCode =? StatusTooManyRequests
  | PlainError _ => false
  end.

(** Every entry of the VM-capability cache is a capability map, and not an
    empty one. *)
Definition vmCaps_ok (a : Azure) : Prop :=
  forall region o,
    vmCapsStorage a !! region = Some o ->
    exists caps : vmCapabilities, o = ObjVMCaps caps /\ caps <> ∅.

(** The capabilities of one SKU: [vmcaps[*item.Name][*v.Name] = *v.Value] for
    each capability in turn. *)
Definition capabilitiesOf (item : ResourceSku) : gmap string string :=
  fold_left (fun (m : gmap string string) (v : string * string) => <[v.1 := v.2]> m)
            (skuCapabilities item) ∅.

(** Several notifications handled one after the other. *)
Fixpoint clusterHandler_run (feed : list (Env * Cluster)) : M unit :=
  match feed with
  | [] => ret tt
  | (env, cl) :: feed' => clusterHandler_receive env cl ;;; clusterHandler_run feed'
  end.

(** The clock reaches [t]. *)
Definition tick (t : Z) : M unit :=
  modify (fun a => set_now t (set_queue (workqueue.advance t) a)).

(** A whole iteration of a worker's loop: [a.queue.Get()], then the body.
    [None] when [Get] does not return an item. *)
Definition Run_iteration (env : Env) : M unit :=
  fun a =>
    match workqueue.Get (queue a) with
    | workqueue.GetItem clusterid q' => Run_cycle env clusterid (set_queue (fun _ => q') a)
    | _ => None
    end.

(** Consecutive cycles of one key, each with the answers of its time. *)
Fixpoint Run_cycles (envs : list Env) (clusterid : string) : M unit :=
  match envs with
  | [] => ret tt
  | env :: envs' => Run_cycle env clusterid ;;; Run_cycles envs' clusterid
  end.

End Metris.

(** The notations of statements, for what follows. *)
Notation "'let*' x ':=' m 'in' k" := (bind m (fun x => k))
  (at level 10, x name, m at level 100, k at level 200).
Notation "m ;;; k" := (bind m (fun _ : unit => k))
  (at level 100, right associativity).

(** * A concrete provider

    The provider instantiated with integers for the compute and network
    sections and a subscription name for the client handle, with three
    attempts before removal. *)

Section Demo.

(** Integers for the compute and network sections, a subscription name for
    the client handle. *)
Definition demoTypes : Types := mkTypes Z Z string.

#[local] Existing Instance demoTypes.

(** A serialiser that refuses negative compute values, as [json.Marshal]
    refuses NaN. *)
Definition demoMarshal (e : EventData) : RawMessage + error :=
  if Compute e <? 0 then inr (PlainError "json: unsupported value")
  else inl (String.list_byte_of_string (String.concat "," (ResourceGroups e))).

(** Three attempts before removal. *)
Definition demoPackage : Package :=
  mkPackage 3 "ResourceGroupNotFound" "SubAccountID" demoMarshal.

#[local] Existing Instance demoPackage.

(** The SKU catalog of the region. *)
Definition demoSkus : list ResourceSku :=
  [mkSku "Standard_D2" [("vCPUs", "2"); ("MemoryGB", "8")]].

(** Every call answers. *)
Definition envHealthy : Env :=
  mkEnv (fun _ => inl "subscription")
        (fun _ _ _ => inl "rg-eventhub")
        (fun _ _ => inl demoSkus)
        (fun _ _ => inl 4) (fun _ => inl 2)
        (fun _ _ => inl (mkEventHub 1 10 100 100 50 500 500)).

(** The resource group of the cluster is gone. *)
Definition envNotFound : Env :=
  mkEnv (newClient envHealthy) (GetResourceGroup envHealthy)
        (GetVMResourceSkus envHealthy)
        (fun _ _ => inr (DetailedError 404 "resources.GroupsClient#Get: Code=ResourceGroupNotFound"))
        (getNetworkMetrics envHealthy) (getEventHubMetrics envHealthy).

(** The network sub-fetch is rate limited. *)
Definition envThrottled : Env :=
  mkEnv (newClient envHealthy) (GetResourceGroup envHealthy)
        (GetVMResourceSkus envHealthy) (getComputeMetrics envHealthy)
        (fun _ => inr (DetailedError 429 "too many requests"))
        (getEventHubMetrics envHealthy).

(** The client cannot be built. *)
Definition envNoClient : Env :=
  mkEnv (fun _ => inr (PlainError "no credentials"))
        (GetResourceGroup envHealthy) (GetVMResourceSkus envHealthy)
        (getComputeMetrics envHealthy) (getNetworkMetrics envHealthy)
        (getEventHubMetrics envHealthy).

(** No resource group carries the sub-account tag. *)
Definition envNoGroup : Env :=
  mkEnv (newClient envHealthy)
        (fun _ _ _ => inr (PlainError "no resource group"))
        (GetVMResourceSkus envHealthy) (getComputeMetrics envHealthy)
        (getNetworkMetrics envHealthy) (getEventHubMetrics envHealthy).

(** A regular cluster and a trial cluster of the same region. *)
Definition cluster1 : Cluster := mkCluster "c1" "account" "sub1" "eu1" false false.
Definition cluster2 : Cluster := mkCluster "c2" "account" "sub2" "eu1" true false.
Definition demoConfig : Config := mkConfig 2 300 30.

Definition demoStart : Azure := NewAzureProvider demoConfig.

(** The state a statement ends in ([a] itself if it panics). *)
Definition after {A} (m : M A) (a : Azure) : Azure :=
  match exec m a with
  | Some a' => a'
  | None => a
  end.

(** The handler, the body of the worker loop and a whole iteration, for
    this provider. *)
Definition demoReceive (env : Env) (cl : Cluster) : M unit :=
  clusterHandler_receive env cl.
Definition demoCycle (env : Env) (clusterid : string) : M unit :=
  Run_cycle env clusterid.
Definition demoIteration (env : Env) : M unit :=
  Run_iteration env.

(** [cluster1] has been received. *)
Definition demoKnown : Azure := after (demoReceive envHealthy cluster1) demoStart.

(** [cluster1] is received, then a worker runs three iterations a poll
    interval apart, each answered "resource group not found". *)
Definition demoThreeNotFound : M unit :=
  demoReceive envHealthy cluster1 ;;;
  demoIteration envNotFound ;;; tick 300 ;;;
  demoIteration envNotFound ;;; tick 600 ;;;
  demoIteration envNotFound.

(** The instance of [cluster1] as the intake first stores it. *)
Definition demoInstance : Instance :=
  mkInstance cluster1 (Some "subscription") None "rg-eventhub" 0 false.

(** [cluster1] and [cluster2] have been received. *)
Definition demoBoth : Azure := after (demoReceive envHealthy cluster2) demoKnown.

(** The provider once a worker has dequeued the head of the queue. *)
Definition dequeued (a : Azure) : Azure :=
  match workqueue.Get (queue a) with
  | workqueue.GetItem _ q' => set_queue (fun _ => q') a
  | _ => a
  end.

(** A run of the provider: [cluster1] is received, worker 0 dequeues it and
    does the work of a healthy cycle, and stands before the
    acknowledgement. *)
Definition demoSys1 : System := mkSystem demoKnown [Idle; Idle] true.
Definition demoSys2 : System := mkSystem (dequeued demoKnown) [Working "c1"; Idle] true.
Definition demoSys3 : System :=
  mkSystem (after (processInstance envHealthy 1%positive)
                  (dequeued demoKnown))
           [Acking "c1" true; Idle] true.

(** Another run: both clusters are received and each worker dequeues one. *)
Definition demoPair1 : System := mkSystem demoBoth [Idle; Idle] true.
Definition demoPair2 : System := mkSystem (dequeued demoBoth) [Working "c1"; Idle] true.
Definition demoPair3 : System :=
  mkSystem (dequeued (dequeued demoBoth)) [Working "c1"; Working "c2"] true.

(** [cluster1] after a rate-limited cycle, a skipped one and a "not found"
    one: one attempt is counted. *)
Definition demoDegraded : Azure :=
  after (demoCycle envNotFound "c1")
        (after (demoCycle envHealthy "c1")
               (after (demoCycle envThrottled "c1") demoKnown)).

(** The event data of a healthy cycle of [cluster1]. *)
Definition demoEventData : EventData :=
  mkEventData ["c1"; "rg-eventhub"] 4 2 (mkEventHub 1 10 100 100 50 500 500).

(** The compute sub-fetch answers a value that [demoMarshal] refuses. *)
Definition envBadValue : Env :=
  mkEnv (newClient envHealthy) (GetResourceGroup envHealthy)
        (GetVMResourceSkus envHealthy)
        (fun _ _ => inl (-1))
        (getNetworkMetrics envHealthy) (getEventHubMetrics envHealthy).

(** The compute sub-fetch fails with a server error. *)
Definition envServerError : Env :=
  mkEnv (newClient envHealthy) (GetResourceGroup envHealthy)
        (GetVMResourceSkus envHealthy)
        (fun _ _ => inr (DetailedError 500 "internal server error"))
        (getNetworkMetrics envHealthy) (getEventHubMetrics envHealthy).

(** The compute sub-fetch is rate limited. *)
Definition envComputeThrottled : Env :=
  mkEnv (newClient envHealthy) (GetResourceGroup envHealthy)
        (GetVMResourceSkus envHealthy)
        (fun _ _ => inr (DetailedError 429 "too many requests"))
        (getNetworkMetrics envHealthy) (getEventHubMetrics envHealthy).

(** [cluster1] flagged as deleted. *)
Definition cluster1Deleted : Cluster := mkCluster "c1" "account" "sub1" "eu1" false true.

(** The entry of [cluster1] replaced by an object that is not an instance. *)
Definition demoCorrupted : Azure :=
  set_instanceStorage (fun m => <["c1" := ObjOther]> m) demoKnown.

(** [cluster2] once it is no longer a trial cluster. *)
Definition cluster2Regular : Cluster := mkCluster "c2" "account" "sub2" "eu1" false false.

(** [cluster2], a trial cluster, is received while no resource group carries
    its tag, then a "not found" cycle and a rate-limited cycle: one attempt is
    counted and the back-off flag is set. *)
Definition demoTrialDegraded : Azure :=
  after (demoCycle envComputeThrottled "c2")
        (after (demoCycle envNotFound "c2")
               (after (demoReceive envNoGroup cluster2) demoStart)).

End Demo.

(** * Proofs *)

Section MetrisProofs.

Context {types : Types} {pkg : Package}.

(** ** Stepping through statements *)

Lemma bind_Some {A B} (m : M A) (k : A -> M B) a x a' :
  m a = Some (x, a') -> bind m k a = k x a'.
Proof. unfold bind. by intros ->. Qed.

Lemma load_Some a p i : heap a !! p = Some i -> load p a = Some (i, a).
Proof. unfold load. by intros ->. Qed.

Lemma update_Some a p f i :
  heap a !! p = Some i -> update p f a = Some (tt, set_heap (insert p (f i)) a).
Proof. unfold update. by intros ->. Qed.

Lemma exec_Some {A} (m : M A) a x a' : m a = Some (x, a') -> exec m a = Some a'.
Proof. unfold exec. by intros ->. Qed.

(** ** A worker that finds no instance *)

Lemma Run_cycle_absent env clusterid a :
  instanceStorage a !! clusterid = None ->
  Run_cycle env clusterid a = Some (tt, set_queue (workqueue.Done clusterid) a).
Proof.
  intros Habs. unfold Run_cycle, instanceStorage_Get, gets, bind. rewrite Habs. done.
Qed.

Lemma Done_after_Get q clusterid q' :
  workqueue.Get q = workqueue.GetItem clusterid q' ->
  workqueue.items (workqueue.Done clusterid q') = tail (workqueue.items q) /\
  workqueue.waiting (workqueue.Done clusterid q') = workqueue.waiting q /\
  (clusterid ∉ workqueue.processing (workqueue.Done clusterid q')) /\
  (clusterid ∉ workqueue.dirty (workqueue.Done clusterid q')).
Proof.
  unfold workqueue.Get. destruct (workqueue.items q) as [|item rest] eqn:Hitems.
  - by destruct (workqueue.shuttingDown q).
  - intros [= -> <-]. unfold workqueue.Done. simpl.
    destruct (decide (clusterid ∈ workqueue.dirty q ∖ {[clusterid]})) as [Hin|Hnin].
    + rewrite elem_of_difference, elem_of_singleton in Hin. tauto.
    + simpl. repeat split; trivial.
      rewrite elem_of_difference, elem_of_singleton. tauto.
Qed.

(** C6: a worker that dequeues a technical id with no instance in the
    instance cache makes no Provider Client call, emits no event, changes
    neither store (nor any instance), acknowledges the item and does not
    re-admit it: the visible queue is what was behind the item, the delayed
    entries are unchanged, and the item is no longer in processing. *)
Theorem Run_absent_instance_is_inert env a clusterid q' :
  workqueue.Get (queue a) = workqueue.GetItem clusterid q' ->
  instanceStorage a !! clusterid = None ->
  exists a',
    exec (Run_cycle env clusterid) (set_queue (fun _ => q') a) = Some a' /\
    calls a' = calls a /\
    EventsChannel a' = EventsChannel a /\
    instanceStorage a' = instanceStorage a /\
    vmCapsStorage a' = vmCapsStorage a /\
    heap a' = heap a /\
    timers a' = timers a /\
    (clusterid ∉ workqueue.processing (queue a')) /\
    workqueue.items (queue a') = tail (workqueue.items (queue a)) /\
    workqueue.waiting (queue a') = workqueue.waiting (queue a).
Proof.
  intros Hget Habs.
  destruct (Done_after_Get _ _ _ Hget) as (Hitems & Hwait & Hproc & _).
  eexists. split.
  - apply exec_Some with (x := tt). by apply Run_cycle_absent.
  - simpl. repeat split; done.
Qed.


(** ** [getMetrics] *)

Lemma length_pos_nonempty (s : string) :
  (0 <? String.length s)%nat = true <-> s <> "".
Proof. destruct s; simpl; split; try done. Qed.

Lemma length_zero_empty (s : string) :
  (0 <? String.length s)%nat = false <-> s = "".
Proof. destruct s; simpl; split; try done. Qed.

Ltac absurd_elem H :=
  repeat (apply elem_of_cons in H as [H|H]; [discriminate H|]);
  by apply elem_of_nil in H.

(** C7: [getMetrics] calls compute, then network, then event-hub, the last
    one only when an event-hub resource group name is known; the first
    sub-fetch that returns an error ends the fetch with that error and no
    event data; without a known event-hub resource group the event data
    carries the zeroed event-hub section; and the fetch changes nothing of
    the provider but the log of calls. *)
Theorem getMetrics_fail_fast env instance vmcaps a i :
  heap a !! instance = Some i ->
  exists r cs,
    getMetrics env instance vmcaps a = Some (r, set_calls (fun l => l ++ cs) a) /\
    (cs = [CallComputeMetrics] \/
     cs = [CallComputeMetrics; CallNetworkMetrics] \/
     cs = [CallComputeMetrics; CallNetworkMetrics; CallEventHubMetrics]) /\
    (CallEventHubMetrics ∈ cs -> eventHubResourceGroupName i <> "") /\
    (forall err,
        getComputeMetrics env i vmcaps = inr err ->
        r = inr err /\ cs = [CallComputeMetrics]) /\
    (forall cd err,
        getComputeMetrics env i vmcaps = inl cd ->
        getNetworkMetrics env i = inr err ->
        r = inr err /\ cs = [CallComputeMetrics; CallNetworkMetrics]) /\
    (forall cd nd err,
        getComputeMetrics env i vmcaps = inl cd ->
        getNetworkMetrics env i = inl nd ->
        eventHubResourceGroupName i <> "" ->
        getEventHubMetrics env i (PollInterval (config a)) = inr err ->
        r = inr err /\
        cs = [CallComputeMetrics; CallNetworkMetrics; CallEventHubMetrics]) /\
    (forall cd nd,
        getComputeMetrics env i vmcaps = inl cd ->
        getNetworkMetrics env i = inl nd ->
        eventHubResourceGroupName i = "" ->
        r = inl (mkEventData [TechnicalID (cluster i)] cd nd emptyEventHub) /\
        cs = [CallComputeMetrics; CallNetworkMetrics]) /\
    (forall cd nd eh,
        getComputeMetrics env i vmcaps = inl cd ->
        getNetworkMetrics env i = inl nd ->
        eventHubResourceGroupName i <> "" ->
        getEventHubMetrics env i (PollInterval (config a)) = inl eh ->
        r = inl (mkEventData [TechnicalID (cluster i); eventHubResourceGroupName i]
                             cd nd eh) /\
        cs = [CallComputeMetrics; CallNetworkMetrics; CallEventHubMetrics]).
Proof.
  intros Hi. unfold getMetrics.
  rewrite (bind_Some _ _ _ _ _ (load_Some _ _ _ Hi)).
  unfold logCall, modify, gets, bind, ret; simpl.
  destruct (getComputeMetrics env i vmcaps) as [cd|e1] eqn:Hc.
  2:{ exists (inr e1), [CallComputeMetrics].
      repeat split; try done; auto; try congruence.
      intros Hin. apply list_elem_of_singleton in Hin. done. }
  destruct (getNetworkMetrics env i) as [nd|e2] eqn:Hn.
  2:{ exists (inr e2), [CallComputeMetrics; CallNetworkMetrics].
      unfold set_calls; simpl. rewrite <- app_assoc.
      repeat split; try done; auto; try congruence.
      intros Hin. absurd_elem Hin. }
  destruct (0 <? String.length (eventHubResourceGroupName i))%nat eqn:Hrg.
  2:{ apply length_zero_empty in Hrg.
      exists (inl (mkEventData [TechnicalID (cluster i)] cd nd emptyEventHub)),
        [CallComputeMetrics; CallNetworkMetrics].
      unfold set_calls; simpl. rewrite <- app_assoc.
      repeat split; try done; auto; try congruence.
      intros Hin. absurd_elem Hin. }
  apply length_pos_nonempty in Hrg. simpl.
  destruct (getEventHubMetrics env i (PollInterval (config a))) as [eh|e3] eqn:He.
  - exists (inl (mkEventData [TechnicalID (cluster i); eventHubResourceGroupName i] cd nd eh)),
      [CallComputeMetrics; CallNetworkMetrics; CallEventHubMetrics].
    unfold set_calls; simpl. rewrite <- !app_assoc.
    repeat split; try done; auto; congruence.
  - exists (inr e3), [CallComputeMetrics; CallNetworkMetrics; CallEventHubMetrics].
    unfold set_calls; simpl. rewrite <- !app_assoc.
    repeat split; try done; auto; congruence.
Qed.


(** ** Stepping through a worker cycle *)

Lemma getMetrics_frame env instance vmcaps a i :
  heap a !! instance = Some i ->
  exists r cs,
    getMetrics env instance vmcaps a
    = Some (r, set_calls (fun l => l ++ CallComputeMetrics :: cs) a).
Proof.
  intros Hi. unfold getMetrics.
  rewrite (bind_Some _ _ _ _ _ (load_Some _ _ _ Hi)).
  unfold logCall, modify, gets, bind, ret; simpl.
  destruct (getComputeMetrics env i vmcaps); [|by exists (inr e), []].
  destruct (getNetworkMetrics env i);
    [|eexists _, [_]; unfold set_calls; simpl; by rewrite <- app_assoc].
  destruct (0 <? String.length (eventHubResourceGroupName i))%nat; simpl;
    [|eexists _, [_]; unfold set_calls; simpl; by rewrite <- app_assoc].
  destruct (getEventHubMetrics env i (PollInterval (config a)));
    eexists _, [_; _]; unfold set_calls; simpl; by rewrite <- !app_assoc.
Qed.

Ltac munfold :=
  unfold Run_cycle, Run_work, processInstance, fetchOrSkip, onFetchError, classifyError,
    sendMetrics, requeue, instanceStorage_Get, instanceStorage_Put,
    instanceStorage_Delete, vmCapsStorage_Get, vmCapsStorage_Put, queue_Done,
    queue_AddAfter, queue_Add, queue_ShuttingDown, queue_ShutDown, send_EventsChannel,
    logCall, AfterFunc_redeliver, load, update, gets, modify, bind, ret, exec.

Ltac record_simpl :=
  simpl;
  cbn [heap instanceStorage vmCapsStorage queue EventsChannel timers calls now config
       set_heap set_instanceStorage set_vmCapsStorage set_queue set_EventsChannel
       set_timers set_calls set_now].

(** One step of symbolic execution: use what is known of the heap, the
    store and the answers, and compute. *)
Ltac mstep :=
  first
    [ progress record_simpl
    | rewrite lookup_insert_eq
    | rewrite lookup_insert_ne by assumption
    | match goal with
      | H : heap ?a !! ?p = Some _ |- context [heap ?a !! ?p] => rewrite H
      | H : instanceStorage ?a !! ?k = _ |- context [instanceStorage ?a !! ?k] => rewrite H
      | H : getMetrics ?e ?p ?c ?a = _ |- context [getMetrics ?e ?p ?c ?a] => rewrite H
      | H : retryBackoff ?i = _ |- context [retryBackoff ?i] => rewrite H
      | H : Contains ?s ?c = _ |- context [Contains ?s ?c] => rewrite H
      | H : GetResourceGroup ?e ?c ?n ?f = _ |- context [GetResourceGroup ?e ?c ?n ?f] =>
          rewrite H
      | H : newClient ?e ?c = _ |- context [newClient ?e ?c] => rewrite H
      | H : Deleted ?c = _ |- context [Deleted ?c] => rewrite H
      | H : Trial ?c = _ |- context [Trial ?c] => rewrite H
      | H : eventHubResourceGroupName ?i = _ |- context [eventHubResourceGroupName ?i] =>
          rewrite H
      | H : vmCapsStorage ?a !! ?k = _ |- context [vmCapsStorage ?a !! ?k] => rewrite H
      | H : jsonMarshal ?e = _ |- context [jsonMarshal ?e] => rewrite H
      | H : lastEvent ?i = _ |- context [lastEvent ?i] => rewrite H
      | H : (?x <? ?y) = _ |- context [?x <? ?y] => rewrite H
      | H : (?x =? ?y) = _ |- context [?x =? ?y] => rewrite H
      end ].

Ltac mrun := munfold; record_simpl; repeat mstep.

(** Case analysis on what the next statement depends on. *)
Ltac mcase :=
  match goal with
  | |- context [match lastEvent ?i with Some _ => _ | None => _ end] =>
      destruct (lastEvent i) eqn:?
  | |- context [match jsonMarshal ?e with inl _ => _ | inr _ => _ end] =>
      destruct (jsonMarshal e) eqn:?
  | |- context [match newClient ?e ?c with inl _ => _ | inr _ => _ end] =>
      destruct (newClient e c) eqn:?
  | |- context [match GetResourceGroup ?e ?c ?n ?f with inl _ => _ | inr _ => _ end] =>
      destruct (GetResourceGroup e c n f) eqn:?
  | |- context [match GetVMResourceSkus ?e ?c ?f with inl _ => _ | inr _ => _ end] =>
      destruct (GetVMResourceSkus e c f) eqn:?
  | |- context [if ?b then _ else _] => destruct b eqn:?
  end.

(** The key of a cycle still names its instance after a write-back under the
    instance's own technical id. *)
Lemma lookup_put_same (m : gmap string obj) key tid p :
  m !! key = Some (ObjInstance p) ->
  <[tid := ObjInstance p]> m !! key = Some (ObjInstance p).
Proof.
  intros H. destruct (decide (tid = key)) as [->|Hne].
  - apply lookup_insert_eq.
  - by rewrite lookup_insert_ne.
Qed.

Lemma lookup_put_delete_same (m : gmap string obj) key tid p :
  m !! key = Some (ObjInstance p) ->
  <[tid := ObjInstance p]> (delete tid m) !! key = Some (ObjInstance p).
Proof.
  intros H. destruct (decide (tid = key)) as [->|Hne].
  - apply lookup_insert_eq.
  - by rewrite lookup_insert_ne, lookup_delete_ne.
Qed.

Ltac store_lookup :=
  repeat first [apply lookup_put_delete_same | apply lookup_put_same]; assumption.

Lemma Run_cycle_instance env clusterid a instance i :
  instanceStorage a !! clusterid = Some (ObjInstance instance) ->
  heap a !! instance = Some i ->
  exists a' i',
    exec (Run_cycle env clusterid) a = Some a' /\
    instanceStorage a' !! clusterid = Some (ObjInstance instance) /\
    heap a' !! instance = Some i' /\
    cluster i' = cluster i /\
    (retryAttempts i' = retryAttempts i \/
     retryAttempts i' = int_wrap (retryAttempts i + 1)) /\
    vmCapsStorage a' = vmCapsStorage a.
Proof.
  intros Hk Hi.
  destruct (getMetrics_frame env instance
              (capsOf (vmCapsStorage a !! Region (cluster i))) a i Hi) as (r & cs & Hgm).
  destruct (retryBackoff i) eqn:Hbo; [|destruct r as [ed|[code orig|msg]]];
    mrun; repeat (mcase; repeat mstep).
  all: eexists _, _; split; [reflexivity|]; record_simpl.
  all: split; [store_lookup|].
  all: split; [apply lookup_insert_eq || eassumption|].
  all: simpl; auto.
Qed.

(** ** Retry counter *)

Lemma int_wrap_id x : int_min <= x <= int_max -> int_wrap x = x.
Proof.
  unfold int_min, int_max, int_wrap. intros H.
  rewrite Z.mod_small; lia.
Qed.

(** C5: across consecutive worker cycles of one instance the retry counter
    never decreases (as long as the Go [int] does not overflow): after any
    number of cycles the instance is still the one cached under the key and
    its counter is at least what it was, and at most one more per cycle.
    No cycle resets the counter, not even a successful one. *)
Theorem Run_retryAttempts_monotone envs clusterid a instance i :
  instanceStorage a !! clusterid = Some (ObjInstance instance) ->
  heap a !! instance = Some i ->
  int_min <= retryAttempts i ->
  retryAttempts i + Z.of_nat (length envs) <= int_max ->
  exists a' i',
    exec (Run_cycles envs clusterid) a = Some a' /\
    instanceStorage a' !! clusterid = Some (ObjInstance instance) /\
    heap a' !! instance = Some i' /\
    retryAttempts i <= retryAttempts i' <= retryAttempts i + Z.of_nat (length envs).
Proof.
  revert a i. induction envs as [|env envs IH]; intros a i Hk Hi Hlo Hhi.
  - exists a, i. simpl. repeat split; auto; lia.
  - destruct (Run_cycle_instance env clusterid a instance i Hk Hi)
      as (a1 & i1 & Hrun & Hk1 & Hi1 & _ & Hr & _).
    assert (retryAttempts i <= retryAttempts i1 <= retryAttempts i + 1) as Hstep.
    { destruct Hr as [-> | ->]; [lia|].
      rewrite int_wrap_id; [lia|]. simpl length in Hhi. lia. }
    destruct (IH a1 i1 Hk1 Hi1) as (a' & i' & Hrun' & Hk' & Hi' & Hr').
    { lia. }
    { simpl length in Hhi. lia. }
    exists a', i'. repeat split; auto; try (simpl length; lia).
    simpl. unfold exec, bind in *.
    destruct (Run_cycle env clusterid a) as [[[] a1']|]; [|done].
    injection Hrun as ->. exact Hrun'.
Qed.

(** ** Self-throttling *)

(** What a hypothesis on the outcome of the fetch says of [getMetrics]. *)
Ltac fetch_inv Hfetch Hi :=
  let a1 := fresh "a1" in
  let r := fresh "r" in
  let cs := fresh "cs" in
  let Hgm := fresh "Hgm" in
  destruct Hfetch as [a1 Hfetch];
  match type of Hfetch with
  | getMetrics ?e ?p ?c ?a = _ =>
      destruct (getMetrics_frame e p c a _ Hi) as (r & cs & Hgm)
  end;
  rewrite Hgm in Hfetch; injection Hfetch as Hfetch ?; subst r a1.



Lemma Run_cycle_skips env clusterid a instance i :
  instanceStorage a !! clusterid = Some (ObjInstance instance) ->
  heap a !! instance = Some i ->
  retryBackoff i = true ->
  exists a' i',
    exec (Run_cycle env clusterid) a = Some a' /\
    instanceStorage a' !! clusterid = Some (ObjInstance instance) /\
    heap a' !! instance = Some i' /\
    retryBackoff i' = false /\
    retryAttempts i' = retryAttempts i /\
    calls a' = calls a.
Proof.
  intros Hk Hi Hbo.
  mrun; repeat (mcase; repeat mstep).
  all: eexists _, _; split; [reflexivity|]; record_simpl.
  all: split; [store_lookup|].
  all: split; [apply lookup_insert_eq|].
  all: simpl; auto.
Qed.




(** ** Cluster intake *)

Lemma fresh_not_stored a key p :
  store_closed a ->
  instanceStorage a !! key = Some (ObjInstance p) ->
  fresh (dom (heap a)) <> p.
Proof.
  intros Hclosed Hk Heq. apply Hclosed in Hk.
  apply elem_of_dom in Hk. rewrite <- Heq in Hk.
  by apply is_fresh in Hk.
Qed.

Ltac munfold_intake :=
  unfold clusterHandler_receive, new_Instance;
  munfold.

(** A non-deleted notification for a technical id that already has a cached
    instance, when it is persisted (the client is built, and the event-hub
    resource group is known, found, or the cluster is trial), replaces the
    entry by a rebuilt instance that carries forward the last event and the
    event-hub resource group name of the old one, with a zero retry counter
    and a clear back-off flag. *)
Lemma clusterHandler_receive_rebuilds env cl a p i c :
  store_closed a ->
  instanceStorage a !! TechnicalID cl = Some (ObjInstance p) ->
  heap a !! p = Some i ->
  Deleted cl = false ->
  newClient env cl = inl c ->
  (eventHubResourceGroupName i <> "" \/ Trial cl = true \/
   exists rg, GetResourceGroup env c "" (resourceGroupFilter cl) = inl rg) ->
  exists a' p' i',
    exec (clusterHandler_receive env cl) a = Some a' /\
    instanceStorage a' !! TechnicalID cl = Some (ObjInstance p') /\
    heap a' !! p' = Some i' /\
    p' <> p /\
    cluster i' = cl /\
    client i' = Some c /\
    lastEvent i' = lastEvent i /\
    eventHubResourceGroupName i' =
      (if String.eqb (eventHubResourceGroupName i) "" then
         match GetResourceGroup env c "" (resourceGroupFilter cl) with
         | inl rg => rg
         | inr _ => ""
         end
       else eventHubResourceGroupName i) /\
    retryAttempts i' = 0 /\
    retryBackoff i' = false.
Proof.
  intros Hclosed Hk Hi Hdel Hnew Hpersist.
  pose proof (fresh_not_stored a _ p Hclosed Hk) as Hfresh.
  munfold_intake. repeat mstep.
  destruct (String.eqb (eventHubResourceGroupName i) "") eqn:Hrg; repeat mstep.
  - apply String.eqb_eq in Hrg.
    destruct (GetResourceGroup env c "" (resourceGroupFilter cl)) as [rg|err] eqn:Hget;
      repeat mstep.
    + repeat (mcase; repeat mstep).
      all: eexists _, _, _; split; [reflexivity|]; record_simpl.
      all: split; [apply lookup_insert_eq|].
      all: split; [apply lookup_insert_eq|].
      all: simpl; repeat split; auto.
    + destruct Hpersist as [Hne | [Htrial | [rg Hrg']]]; [done| |done].
      repeat mstep. repeat (mcase; repeat mstep).
      all: eexists _, _, _; split; [reflexivity|]; record_simpl.
      all: split; [apply lookup_insert_eq|].
      all: split; [apply lookup_insert_eq|].
      all: simpl; repeat split; auto.
  - repeat (mcase; repeat mstep).
    all: eexists _, _, _; split; [reflexivity|]; record_simpl.
    all: split; [apply lookup_insert_eq|].
    all: split; [apply lookup_insert_eq|].
    all: simpl; repeat split; auto.
Qed.

(** The instance a notification would carry forward from, with its pointer
    known not to be the next fresh one. *)
Lemma stored_cases a key :
  store_closed a ->
  (exists p i, instanceStorage a !! key = Some (ObjInstance p) /\
               heap a !! p = Some i /\ fresh (dom (heap a)) <> p) \/
  (forall p, instanceStorage a !! key <> Some (ObjInstance p)).
Proof.
  intros Hclosed. destruct (instanceStorage a !! key) as [[p| |]|] eqn:Hk.
  - left. destruct (Hclosed _ _ Hk) as [i Hi]. exists p, i.
    repeat split; auto. by eapply fresh_not_stored.
  - right. done.
  - right. done.
  - right. done.
Qed.

Ltac no_instance Hno :=
  match goal with
  | |- context [instanceStorage ?a !! ?k] =>
      let Hk := fresh "Hk" in
      destruct (instanceStorage a !! k) as [[?| |]|] eqn:Hk;
      [by destruct (Hno _ eq_refl)| | |]
  end.

(** C8: a non-deleted notification whose instance has no known event-hub
    resource group name and whose resource-group lookup fails.  For a
    non-trial cluster the same notification is scheduled for re-delivery one
    poll interval later, the instance storage and the instances it holds are
    left as they were, and the queue is not touched.  For a trial cluster
    the instance is persisted with an empty event-hub resource group name
    and the technical id is added to the queue. *)
Theorem clusterHandler_lookup_failure env cl a c err :
  store_closed a ->
  Deleted cl = false ->
  newClient env cl = inl c ->
  (forall i, instanceAt a (TechnicalID cl) = Some i -> eventHubResourceGroupName i = "") ->
  GetResourceGroup env c "" (resourceGroupFilter cl) = inr err ->
  (Trial cl = false ->
   exists a',
     exec (clusterHandler_receive env cl) a = Some a' /\
     timers a' = timers a ++ [(now a + PollInterval (config a), cl)] /\
     instanceStorage a' = instanceStorage a /\
     (forall key, instanceAt a' key = instanceAt a key) /\
     queue a' = queue a) /\
  (Trial cl = true ->
   exists a' p' i',
     exec (clusterHandler_receive env cl) a = Some a' /\
     instanceStorage a' !! TechnicalID cl = Some (ObjInstance p') /\
     heap a' !! p' = Some i' /\
     cluster i' = cl /\
     eventHubResourceGroupName i' = "" /\
     queue a' = workqueue.Add (TechnicalID cl) (queue a) /\
     timers a' = timers a).
Proof.
  intros Hclosed Hdel Hnew Hunknown Hget.
  assert (forall key, instanceStorage a !! key <> Some (ObjInstance (fresh (dom (heap a)))))
    as Hnotfresh.
  { intros key Hk. by apply (fresh_not_stored a _ _ Hclosed Hk). }
  destruct (stored_cases a (TechnicalID cl) Hclosed) as [(p & i & Hk & Hi & Hfresh)|Hno].
  - assert (eventHubResourceGroupName i = "") as Hrg.
    { apply Hunknown. unfold instanceAt. by rewrite Hk. }
    split; intros Htrial.
    + munfold_intake. repeat mstep.
      eexists; split; [reflexivity|]; record_simpl. repeat split; auto.
      intros key. unfold instanceAt; record_simpl.
      destruct (instanceStorage a !! key) as [[q| |]|] eqn:Hq; auto.
      rewrite !lookup_insert_ne; auto; intros Heq; by apply (Hnotfresh key); rewrite Hq, Heq.
    + munfold_intake. repeat mstep. repeat (mcase; repeat mstep).
      all: eexists _, _, _; split; [reflexivity|]; record_simpl.
      all: split; [apply lookup_insert_eq|].
      all: split; [apply lookup_insert_eq|].
      all: simpl; repeat split; auto.
  - split; intros Htrial.
    + munfold_intake. repeat mstep. no_instance Hno; repeat mstep.
      all: eexists; split; [reflexivity|]; record_simpl.
      all: repeat split; auto.
      all: intros key; unfold instanceAt; record_simpl.
      all: destruct (instanceStorage a !! key) as [[q| |]|] eqn:Hq; auto.
      all: rewrite !lookup_insert_ne; auto; intros Heq; by apply (Hnotfresh key); rewrite Hq, Heq.
    + munfold_intake. repeat mstep. no_instance Hno; repeat mstep.
      all: repeat (mcase; repeat mstep).
      all: eexists _, _, _; split; [reflexivity|]; record_simpl.
      all: split; [apply lookup_insert_eq|].
      all: split; [apply lookup_insert_eq|].
      all: simpl; repeat split; auto.
Qed.

(** ** What a cycle and a notification change *)

(** The work of a cycle on a typed instance: the instance is updated in
    place and written back under its own technical id; nothing else of the
    provider changes but the events sent and the calls made. *)
Lemma processInstance_effect env instance a i :
  heap a !! instance = Some i ->
  exists a' i',
    processInstance env instance a = Some (tt, a') /\
    heap a' = <[instance := i']> (heap a) /\
    instanceStorage a' =
      <[TechnicalID (cluster i) := ObjInstance instance]> (instanceStorage a) /\
    cluster i' = cluster i /\
    (lastEvent i' = lastEvent i \/
     exists e raw, lastEvent i' = Some e /\ jsonMarshal e = inl raw) /\
    queue a' = queue a /\
    vmCapsStorage a' = vmCapsStorage a /\
    timers a' = timers a /\
    now a' = now a /\
    config a' = config a.
Proof.
  intros Hi.
  destruct (getMetrics_frame env instance
              (capsOf (vmCapsStorage a !! Region (cluster i))) a i Hi) as (r & cs & Hgm).
  destruct (retryBackoff i) eqn:Hbo; [|destruct r as [ed|[code orig|msg]]];
    mrun; repeat (mcase; repeat mstep).
  all: eexists _, _; split; [reflexivity|]; record_simpl.
  all: rewrite ?insert_insert_eq, ?insert_delete_eq.
  all: split; [first [reflexivity | symmetry; apply insert_id; eassumption]|].
  all: split; [reflexivity|].
  all: simpl; repeat split; eauto.
Qed.

(** A notification either deletes the entry of its technical id, or
    allocates one instance for its cluster, which it may store under the
    technical id; it never panics on a closed store. *)
Lemma clusterHandler_receive_effect env cl a :
  store_closed a ->
  exists a',
    clusterHandler_receive env cl a = Some (tt, a') /\
    (queue a' = queue a \/ queue a' = workqueue.Add (TechnicalID cl) (queue a)) /\
    now a' = now a /\
    config a' = config a /\
    ((heap a' = heap a /\
      instanceStorage a' = delete (TechnicalID cl) (instanceStorage a)) \/
     exists i',
       heap a' = <[fresh (dom (heap a)) := i']> (heap a) /\
       cluster i' = cl /\
       (lastEvent i' = None \/
        exists p i, heap a !! p = Some i /\ lastEvent i' = lastEvent i) /\
       (instanceStorage a' = instanceStorage a \/
        instanceStorage a' = delete (TechnicalID cl) (instanceStorage a) \/
        instanceStorage a' =
          <[TechnicalID cl := ObjInstance (fresh (dom (heap a)))]> (instanceStorage a))).
Proof.
  intros Hclosed.
  destruct (Deleted cl) eqn:Hdel.
  { munfold_intake. repeat mstep. eexists; split; [reflexivity|]; record_simpl.
    repeat split; auto. }
  destruct (stored_cases a (TechnicalID cl) Hclosed) as [(p & i & Hk & Hi & Hfresh)|Hno].
  - munfold_intake. repeat mstep. repeat (mcase; repeat mstep).
    all: eexists; split; [reflexivity|]; record_simpl.
    all: rewrite ?insert_insert_eq.
    all: repeat split; auto.
    all: right; eexists; split; [reflexivity|]; simpl; repeat split; eauto 10.
  - munfold_intake. repeat mstep. no_instance Hno; repeat mstep.
    all: repeat (mcase; repeat mstep).
    all: eexists; split; [reflexivity|]; record_simpl.
    all: rewrite ?insert_insert_eq.
    all: repeat split; auto.
    all: right; eexists; split; [reflexivity|]; simpl; repeat split; eauto 10.
Qed.

(** ** Invariants of the stores *)

Lemma stores_ok_start c : stores_ok (NewAzureProvider c).
Proof.
  unfold stores_ok, store_closed, store_keyed, lastEvents_marshal; simpl.
  repeat split; intros *; by rewrite lookup_empty.
Qed.

Lemma stores_ok_same a a' :
  stores_ok a ->
  heap a' = heap a -> instanceStorage a' = instanceStorage a ->
  stores_ok a'.
Proof.
  unfold stores_ok, store_closed, store_keyed, lastEvents_marshal.
  intros (Hc & Hk & Hm) -> ->. auto.
Qed.

Lemma stores_ok_delete a a' key :
  stores_ok a ->
  heap a' = heap a -> instanceStorage a' = delete key (instanceStorage a) ->
  stores_ok a'.
Proof.
  unfold stores_ok, store_closed, store_keyed, lastEvents_marshal.
  intros (Hc & Hk & Hm) -> ->. repeat split.
  - intros k p Hlook. apply lookup_delete_Some in Hlook as [_ Hlook]. eauto.
  - intros k p i Hlook Hi. apply lookup_delete_Some in Hlook as [_ Hlook]. eauto.
  - auto.
Qed.

Lemma stores_ok_update a a' key p i i' :
  stores_ok a ->
  instanceStorage a !! key = Some (ObjInstance p) ->
  heap a !! p = Some i ->
  heap a' = <[p := i']> (heap a) ->
  instanceStorage a' = <[TechnicalID (cluster i) := ObjInstance p]> (instanceStorage a) ->
  cluster i' = cluster i ->
  (lastEvent i' = lastEvent i \/
   exists e raw, lastEvent i' = Some e /\ jsonMarshal e = inl raw) ->
  stores_ok a'.
Proof.
  unfold stores_ok, store_closed, store_keyed, lastEvents_marshal.
  intros (Hc & Hk & Hm) Hkey Hi -> -> Hcl Hlast.
  pose proof (Hk _ _ _ Hkey Hi) as Htid. rewrite Htid.
  repeat split.
  - intros k q Hlook. destruct (decide (p = q)) as [->|Hne].
    + rewrite lookup_insert_eq. eauto.
    + rewrite lookup_insert_ne by done.
      apply lookup_insert_Some in Hlook as [[_ [= <-]]|[_ Hlook]]; [done|eauto].
  - intros k q j Hlook Hj.
    apply lookup_insert_Some in Hlook as [[<- [= <-]]|[Hne Hlook]].
    + rewrite lookup_insert_eq in Hj. injection Hj as <-. congruence.
    + destruct (decide (p = q)) as [->|Hpq].
      * destruct Hne. symmetry. by rewrite <- (Hk _ _ _ Hlook Hi).
      * rewrite lookup_insert_ne in Hj by done. eauto.
  - intros q j e Hj He. destruct (decide (p = q)) as [->|Hpq].
    + rewrite lookup_insert_eq in Hj. injection Hj as <-.
      destruct Hlast as [Hsame|(e' & raw & He' & Hraw)].
      * rewrite Hsame in He. eauto.
      * rewrite He' in He. injection He as <-. eauto.
    + rewrite lookup_insert_ne in Hj by done. eauto.
Qed.

Lemma stores_ok_alloc a a' key i' :
  stores_ok a ->
  heap a' = <[fresh (dom (heap a)) := i']> (heap a) ->
  TechnicalID (cluster i') = key ->
  (lastEvent i' = None \/ exists p i, heap a !! p = Some i /\ lastEvent i' = lastEvent i) ->
  (instanceStorage a' = instanceStorage a \/
   instanceStorage a' = delete key (instanceStorage a) \/
   instanceStorage a' = <[key := ObjInstance (fresh (dom (heap a)))]> (instanceStorage a)) ->
  stores_ok a'.
Proof.
  unfold stores_ok, store_keyed, lastEvents_marshal.
  intros (Hc & Hk & Hm) Hheap Htid Hlast Hstore.
  assert (forall k q, instanceStorage a !! k = Some (ObjInstance q) ->
                      fresh (dom (heap a)) <> q) as Hfresh.
  { intros k q Hlook. by eapply fresh_not_stored. }
  assert (forall k q, instanceStorage a' !! k = Some (ObjInstance q) ->
            (k = key /\ q = fresh (dom (heap a))) \/
            instanceStorage a !! k = Some (ObjInstance q)) as Hstored.
  { intros k q Hlook. destruct Hstore as [Hs|[Hs|Hs]]; rewrite Hs in Hlook.
    - by right.
    - apply lookup_delete_Some in Hlook as [_ Hlook]. by right.
    - apply lookup_insert_Some in Hlook as [[<- [= <-]]|[_ Hlook]]; [by left|by right]. }
  repeat split.
  - intros k q Hlook. rewrite Hheap.
    destruct (Hstored _ _ Hlook) as [[_ ->]|Hold].
    + rewrite lookup_insert_eq. eauto.
    + rewrite lookup_insert_ne by eauto. eauto.
  - intros k q j Hlook Hj. rewrite Hheap in Hj.
    destruct (Hstored _ _ Hlook) as [[-> ->]|Hold].
    + rewrite lookup_insert_eq in Hj. by injection Hj as <-.
    + rewrite lookup_insert_ne in Hj by eauto. eauto.
  - intros q j e Hj He. rewrite Hheap in Hj.
    destruct (decide (fresh (dom (heap a)) = q)) as [<-|Hne].
    + rewrite lookup_insert_eq in Hj. injection Hj as <-.
      destruct Hlast as [Hnone|(p & i & Hi & Hsame)].
      * congruence.
      * rewrite Hsame in He. eauto.
    + rewrite lookup_insert_ne in Hj by done. eauto.
Qed.

Lemma Run_work_effect env clusterid a again a' :
  Run_work env clusterid a = Some (again, a') ->
  queue a' = queue a /\ now a' = now a /\ config a' = config a /\
  (stores_ok a -> stores_ok a').
Proof.
  unfold Run_work, instanceStorage_Get, gets.
  unfold bind at 1.
  destruct (instanceStorage a !! clusterid) as [[p| |]|] eqn:Hk.
  - destruct (heap a !! p) as [i|] eqn:Hi.
    + destruct (processInstance_effect env p a i Hi)
        as (a1 & i' & Hrun & Hheap & Hstore & Hcl & Hlast & Hq & _ & _ & Hnow & Hcfg).
      rewrite (bind_Some _ _ _ _ _ Hrun). unfold ret. intros [= <- <-].
      refine (conj _ (conj _ (conj _ _))); auto.
      intros Hok. by eapply stores_ok_update.
    + unfold processInstance, load, bind. rewrite Hi. done.
  - munfold. record_simpl. intros [= <- <-].
    refine (conj _ (conj _ (conj _ _))); auto.
    intros Hok. by eapply stores_ok_delete.
  - munfold. record_simpl. intros [= <- <-].
    refine (conj _ (conj _ (conj _ _))); auto.
    intros Hok. by eapply stores_ok_delete.
  - unfold ret. intros [= <- <-]. auto.
Qed.

Lemma clusterHandler_receive_ok env cl a :
  stores_ok a ->
  exists a',
    clusterHandler_receive env cl a = Some (tt, a') /\
    (queue a' = queue a \/ queue a' = workqueue.Add (TechnicalID cl) (queue a)) /\
    now a' = now a /\
    config a' = config a /\
    stores_ok a'.
Proof.
  intros Hok.
  destruct (clusterHandler_receive_effect env cl a (proj1 Hok))
    as (a' & Hrun & Hq & Hnow & Hcfg & Hcases).
  exists a'. refine (conj _ (conj _ (conj _ (conj _ _)))); auto.
  destruct Hcases as [[Hheap Hstore]|(i' & Hheap & Hcl & Hlast & Hstore)].
  - eapply stores_ok_delete; eauto.
  - eapply stores_ok_alloc; eauto. by rewrite Hcl.
Qed.

(** ** Invariants of the work queue *)

Lemma queue_ok_empty : queue_ok workqueue.empty.
Proof.
  split; simpl.
  - constructor.
  - intros k Hk. by apply elem_of_nil in Hk.
Qed.

Lemma Add_processing item q :
  workqueue.processing (workqueue.Add item q) = workqueue.processing q.
Proof. unfold workqueue.Add. by repeat case_match. Qed.

Lemma Add_ok item q : queue_ok q -> queue_ok (workqueue.Add item q).
Proof.
  intros [Hnd Hitems]. unfold workqueue.Add.
  destruct (workqueue.shuttingDown q); [done|].
  destruct (decide (item ∈ workqueue.dirty q)) as [Hd|Hd]; [done|].
  destruct (decide (item ∈ workqueue.processing q)) as [Hp|Hp]; split; simpl.
  - done.
  - intros k Hk. destruct (Hitems k Hk). split; [|done].
    apply elem_of_union. by right.
  - apply NoDup_app. repeat split; [done| |apply NoDup_singleton].
    intros k Hk Hk'. apply list_elem_of_singleton in Hk' as ->.
    destruct (Hitems _ Hk). done.
  - intros k Hk. apply elem_of_app in Hk as [Hk|Hk].
    + destruct (Hitems k Hk). split; [|done]. apply elem_of_union. by right.
    + apply list_elem_of_singleton in Hk as ->. split; [|done].
      apply elem_of_union. left. by apply elem_of_singleton.
Qed.

Lemma AddAfter_processing item d t q :
  workqueue.processing (workqueue.AddAfter item d t q) = workqueue.processing q.
Proof.
  unfold workqueue.AddAfter. repeat case_match; try done. apply Add_processing.
Qed.

Lemma AddAfter_ok item d t q : queue_ok q -> queue_ok (workqueue.AddAfter item d t q).
Proof.
  intros Hok. unfold workqueue.AddAfter. repeat case_match; try done.
  by apply Add_ok.
Qed.

Lemma fold_Add_processing (l : list (string * Z)) q :
  workqueue.processing (fold_left (fun q' (e : string * Z) => workqueue.Add e.1 q') l q)
  = workqueue.processing q.
Proof.
  revert q. induction l as [|e l IH]; intros q; simpl; [done|].
  rewrite IH. apply Add_processing.
Qed.

Lemma fold_Add_ok (l : list (string * Z)) q :
  queue_ok q ->
  queue_ok (fold_left (fun q' (e : string * Z) => workqueue.Add e.1 q') l q).
Proof.
  revert q. induction l as [|e l IH]; intros q Hok; simpl; [done|].
  apply IH. by apply Add_ok.
Qed.

Lemma advance_processing t q :
  workqueue.processing (workqueue.advance t q) = workqueue.processing q.
Proof. unfold workqueue.advance. by rewrite fold_Add_processing. Qed.

Lemma advance_ok t q : queue_ok q -> queue_ok (workqueue.advance t q).
Proof. intros Hok. unfold workqueue.advance. by apply fold_Add_ok. Qed.

Lemma Get_ok q item q' :
  workqueue.Get q = workqueue.GetItem item q' ->
  queue_ok q ->
  queue_ok q' /\
  workqueue.processing q' = {[item]} ∪ workqueue.processing q /\
  item ∉ workqueue.processing q.
Proof.
  unfold workqueue.Get. intros Hget [Hnd Hitems].
  destruct (workqueue.items q) as [|k rest] eqn:Hq.
  { by destruct (workqueue.shuttingDown q). }
  injection Hget as -> <-. simpl.
  apply NoDup_cons in Hnd as [Hnotin Hnd].
  split; [split; simpl|split].
  - done.
  - intros k Hk. destruct (Hitems k) as [Hd Hp].
    { apply elem_of_cons. by right. }
    split.
    + apply elem_of_difference. split; [done|].
      intros Heq. apply elem_of_singleton in Heq as ->. done.
    + intros Hin. apply elem_of_union in Hin as [Hin|Hin]; [|done].
      apply elem_of_singleton in Hin as ->. done.
  - done.
  - apply (Hitems item). apply elem_of_cons. by left.
Qed.

Lemma Done_ok q item :
  queue_ok q ->
  item ∈ workqueue.processing q ->
  queue_ok (workqueue.Done item q) /\
  workqueue.processing (workqueue.Done item q) = workqueue.processing q ∖ {[item]}.
Proof.
  intros [Hnd Hitems] Hin. unfold workqueue.Done.
  assert (item ∉ workqueue.items q) as Hnotin.
  { intros Hk. by destruct (Hitems _ Hk). }
  destruct (decide (item ∈ workqueue.dirty q)) as [Hd|Hd]; simpl; (split; [split; simpl|done]).
  - apply NoDup_app. repeat split; [done| |apply NoDup_singleton].
    intros k Hk Hk'. by apply list_elem_of_singleton in Hk' as ->.
  - intros k Hk. apply elem_of_app in Hk as [Hk|Hk].
    + destruct (Hitems k Hk). split; [done|].
      intros Hp. apply elem_of_difference in Hp as [Hp _]. done.
    + apply list_elem_of_singleton in Hk as ->. split; [done|].
      intros Hp. apply elem_of_difference in Hp as [_ Hp].
      apply Hp. by apply elem_of_singleton.
  - done.
  - intros k Hk. destruct (Hitems k Hk). split; [done|].
    intros Hp. apply elem_of_difference in Hp as [Hp _]. done.
Qed.

(** ** Who owns what *)

Lemma lookup_worker_update (ws : list Worker) w old x w' wk' :
  ws !! w = Some old ->
  <[w := x]> ws !! w' = Some wk' <->
  (w' = w /\ wk' = x) \/ (w' <> w /\ ws !! w' = Some wk').
Proof.
  intros Hold. rewrite list_lookup_insert_Some. split.
  - intros [(<- & <- & _)|[Hne Hl]]; [by left|right; split; [congruence|done]].
  - intros [[-> ->]|[Hne Hl]].
    + left. repeat split. by eapply lookup_lt_Some.
    + right. split; [congruence|done].
Qed.

Lemma owners_keep ws proc w old x :
  owners_ok ws proc ->
  ws !! w = Some old ->
  inflight x = inflight old ->
  owners_ok (<[w := x]> ws) proc.
Proof.
  intros [Hproc Huniq] Hold Hsame. split.
  - intros k. rewrite Hproc. split.
    + intros (w' & wk' & Hw' & Hk). destruct (decide (w' = w)) as [->|Hne].
      * exists w, x. split; [by apply (lookup_worker_update _ _ _ _ _ _ Hold); left|].
        rewrite Hold in Hw'. injection Hw' as <-. congruence.
      * exists w', wk'. split; [by apply (lookup_worker_update _ _ _ _ _ _ Hold); right|done].
    + intros (w' & wk' & Hw' & Hk).
      apply (lookup_worker_update _ _ _ _ _ _ Hold) in Hw' as [[-> ->]|[Hne Hw']]; [|eauto].
      exists w, old. split; [done|congruence].
  - intros w1 w2 wk1 wk2 k Hw1 Hw2 Hk1 Hk2.
    apply (lookup_worker_update _ _ _ _ _ _ Hold) in Hw1 as [[-> ->]|[Hne1 Hw1]];
      apply (lookup_worker_update _ _ _ _ _ _ Hold) in Hw2 as [[-> ->]|[Hne2 Hw2]]; try done.
    + rewrite Hsame in Hk1. eauto.
    + rewrite Hsame in Hk2. eauto.
    + eauto.
Qed.

Lemma owners_take ws proc w old k :
  owners_ok ws proc ->
  ws !! w = Some old ->
  inflight old = None ->
  k ∉ proc ->
  owners_ok (<[w := Working k]> ws) ({[k]} ∪ proc).
Proof.
  intros [Hproc Huniq] Hold Hnone Hfree. split.
  - intros k'. rewrite elem_of_union, elem_of_singleton, Hproc. split.
    + intros [->|(w' & wk' & Hw' & Hk)].
      * exists w, (Working k). split; [by apply (lookup_worker_update _ _ _ _ _ _ Hold); left|done].
      * destruct (decide (w' = w)) as [->|Hne]; [congruence|].
        exists w', wk'. split; [by apply (lookup_worker_update _ _ _ _ _ _ Hold); right|done].
    + intros (w' & wk' & Hw' & Hk).
      apply (lookup_worker_update _ _ _ _ _ _ Hold) in Hw' as [[-> ->]|[Hne Hw']].
      * left. simpl in Hk. congruence.
      * right. eauto.
  - intros w1 w2 wk1 wk2 k' Hw1 Hw2 Hk1 Hk2.
    apply (lookup_worker_update _ _ _ _ _ _ Hold) in Hw1 as [[-> ->]|[Hne1 Hw1]];
      apply (lookup_worker_update _ _ _ _ _ _ Hold) in Hw2 as [[-> ->]|[Hne2 Hw2]]; try done.
    + simpl in Hk1. injection Hk1 as <-. destruct Hfree. apply Hproc. eauto.
    + simpl in Hk2. injection Hk2 as <-. destruct Hfree. apply Hproc. eauto.
    + eauto.
Qed.

Lemma owners_release ws proc w old x k :
  owners_ok ws proc ->
  ws !! w = Some old ->
  inflight old = Some k ->
  inflight x = None ->
  owners_ok (<[w := x]> ws) (proc ∖ {[k]}).
Proof.
  intros [Hproc Huniq] Hold Hk Hnone. split.
  - intros k'. rewrite elem_of_difference, elem_of_singleton, Hproc. split.
    + intros [(w' & wk' & Hw' & Hk') Hne].
      destruct (decide (w' = w)) as [->|Hw]; [congruence|].
      exists w', wk'. split; [by apply (lookup_worker_update _ _ _ _ _ _ Hold); right|done].
    + intros (w' & wk' & Hw' & Hk').
      apply (lookup_worker_update _ _ _ _ _ _ Hold) in Hw' as [[-> ->]|[Hne Hw']]; [congruence|].
      split; [eauto|]. intros ->. apply Hne. eauto.
  - intros w1 w2 wk1 wk2 k' Hw1 Hw2 Hk1 Hk2.
    apply (lookup_worker_update _ _ _ _ _ _ Hold) in Hw1 as [[-> ->]|[Hne1 Hw1]]; [congruence|].
    apply (lookup_worker_update _ _ _ _ _ _ Hold) in Hw2 as [[-> ->]|[Hne2 Hw2]]; [congruence|].
    eauto.
Qed.

(** ** Invariants of the running provider *)

Lemma system_ok_start c : system_ok (start c).
Proof.
  split; [apply stores_ok_start|]. split; [apply queue_ok_empty|].
  split; simpl.
  - intros k. split.
    + intros Hk. by apply not_elem_of_empty in Hk.
    + intros (w & wk & Hw & Hk). apply lookup_replicate in Hw as [-> _]. done.
  - intros w1 w2 wk1 wk2 k Hw1 _ Hk1. apply lookup_replicate in Hw1 as [-> _]. done.
Qed.

Lemma exec_inv {A} (m : M A) a a' :
  exec m a = Some a' -> exists x, m a = Some (x, a').
Proof.
  unfold exec. destruct (m a) as [[x a1]|]; [|done]. intros [= <-]. eauto.
Qed.

Lemma step_preserves s s' : step s s' -> system_ok s -> system_ok s'.
Proof.
  intros Hstep (Hst & Hq & Hown).
  destruct Hstep as
    [env cl a' Hh Hrun | n t cl env a' Hh Hn Ht Hrun | a' Hh Hrun
    | w k q' Hw Hget | w Hw Hget | w k env again a' Hw Hrun
    | w k again a' Hw Hrun | w k a' Hw Hrun | t Ht]; unfold system_ok; simpl.
  - destruct (clusterHandler_receive_ok env cl (provider s) Hst)
      as (a1 & Hrec & Hqueue & _ & _ & Hst1).
    unfold exec in Hrun. rewrite Hrec in Hrun. injection Hrun as Heq. subst a'.
    split; [done|]. destruct Hqueue as [->| ->]; [done|].
    rewrite Add_processing. split; [by apply Add_ok|done].
  - assert (stores_ok (set_timers (delete n) (provider s))) as Hst0.
    { by eapply stores_ok_same. }
    destruct (clusterHandler_receive_ok env cl _ Hst0)
      as (a1 & Hrec & Hqueue & _ & _ & Hst1).
    unfold exec in Hrun. rewrite Hrec in Hrun. injection Hrun as Heq. subst a'.
    split; [done|]. destruct Hqueue as [->| ->]; [done|].
    rewrite Add_processing. split; [by apply Add_ok|done].
  - injection Hrun as <-. split; [by eapply stores_ok_same|]. done.
  - destruct (Get_ok _ _ _ Hget Hq) as (Hq' & Hproc & Hfree).
    split; [by eapply stores_ok_same|]. split; [done|]. simpl.
    rewrite Hproc. by eapply owners_take.
  - split; [done|]. split; [done|]. by eapply owners_keep.
  - destruct (Run_work_effect _ _ _ _ _ Hrun) as (Hqueue & _ & _ & Hst').
    split; [by apply Hst'|]. rewrite Hqueue. split; [done|]. by eapply owners_keep.
  - injection Hrun as <-.
    assert (k ∈ workqueue.processing (queue (provider s))) as Hin.
    { apply Hown. by exists w, (Acking k again). }
    destruct (Done_ok _ k Hq Hin) as [Hq' Hproc].
    split; [by eapply stores_ok_same|]. split; [done|]. simpl.
    rewrite Hproc. eapply owners_release; eauto. by destruct again.
  - assert (stores_ok a' /\ queue_ok (queue a') /\
            workqueue.processing (queue a') = workqueue.processing (queue (provider s)))
      as (Hst' & Hq' & Hproc).
    { revert Hrun. munfold. record_simpl.
      destruct (negb _); intros [= <-]; [|done].
      split; [by eapply stores_ok_same|]. simpl.
      split; [by apply AddAfter_ok|apply AddAfter_processing]. }
    split; [done|]. split; [done|]. rewrite Hproc. by eapply owners_keep.
  - split; [by eapply stores_ok_same|].
    rewrite advance_processing. split; [by apply advance_ok|done].
Qed.

Lemma reachable_ok c s : reachable c s -> system_ok s.
Proof.
  unfold reachable. revert s. apply rtc_ind_r.
  - apply system_ok_start.
  - intros s1 s2 _ Hstep IH. by eapply step_preserves.
Qed.

(** ** One owner per key *)

(** C9: however the intake, the timers and any number of workers
    interleave, two workers never have the same technical id in flight
    (between [Get] and [Done]), and the instances cached under the keys of
    two workers are different objects, so the read-modify-write of one
    worker never touches the counter another worker is updating. *)
Theorem workers_never_share_a_key c s w1 w2 wk1 wk2 k1 k2 :
  reachable c s ->
  w1 <> w2 ->
  workers s !! w1 = Some wk1 -> inflight wk1 = Some k1 ->
  workers s !! w2 = Some wk2 -> inflight wk2 = Some k2 ->
  k1 <> k2 /\
  forall p1 p2,
    instanceStorage (provider s) !! k1 = Some (ObjInstance p1) ->
    instanceStorage (provider s) !! k2 = Some (ObjInstance p2) ->
    p1 <> p2.
Proof.
  intros Hreach Hne Hw1 Hk1 Hw2 Hk2.
  destruct (reachable_ok _ _ Hreach) as ((Hclosed & Hkeyed & _) & _ & [_ Huniq]).
  assert (k1 <> k2) as Hkeys.
  { intros <-. apply Hne. by eapply Huniq. }
  split; [done|].
  intros p1 p2 Hp1 Hp2 <-.
  destruct (Hclosed _ _ Hp1) as [i Hi].
  apply Hkeys. by rewrite <- (Hkeyed _ _ _ Hp1 Hi), <- (Hkeyed _ _ _ Hp2 Hi).
Qed.

(** ** What a notification leaves under its key *)

Lemma instanceAt_other_alloc a a' i' key :
  store_closed a ->
  heap a' = <[fresh (dom (heap a)) := i']> (heap a) ->
  instanceStorage a' !! key = instanceStorage a !! key ->
  instanceAt a' key = instanceAt a key.
Proof.
  intros Hclosed Hheap Hstore. unfold instanceAt. rewrite Hstore, Hheap.
  destruct (instanceStorage a !! key) as [[q| |]|] eqn:Hq; auto.
  rewrite lookup_insert_ne; [done|]. by eapply fresh_not_stored.
Qed.

Ltac at_key :=
  unfold instanceAt; record_simpl;
  rewrite ?lookup_insert_eq, ?lookup_delete_eq; record_simpl;
  repeat first
    [ rewrite lookup_insert_eq
    | rewrite lookup_insert_ne by done
    | match goal with
      | H : instanceStorage ?a !! ?k = _ |- context [instanceStorage ?a !! ?k] => rewrite H
      | H : heap ?a !! ?p = _ |- context [heap ?a !! ?p] => rewrite H
      | H : (?x =? ?y)%string = _ |- context [(?x =? ?y)%string] => rewrite H
      end ];
  record_simpl; try reflexivity.

Ltac at_other_key :=
  let key := fresh "key" in
  let Hkey := fresh "Hkey" in
  intros key Hkey;
  first
    [ reflexivity
    | eapply instanceAt_other_alloc;
      [ eassumption
      | record_simpl; rewrite ?insert_insert_eq; reflexivity
      | record_simpl; rewrite ?lookup_insert_ne, ?lookup_delete_ne by done; reflexivity ]
    | unfold instanceAt; record_simpl; rewrite ?lookup_delete_ne by done; reflexivity ].

Lemma clusterHandler_receive_instanceAt env cl a :
  store_closed a ->
  exists a',
    clusterHandler_receive env cl a = Some (tt, a') /\
    instanceAt a' (TechnicalID cl) = intakeOutcome env cl (instanceAt a (TechnicalID cl)) /\
    (forall key, key <> TechnicalID cl -> instanceAt a' key = instanceAt a key) /\
    (Deleted cl = true \/ (exists err, newClient env cl = inr err) ->
     instanceStorage a' = delete (TechnicalID cl) (instanceStorage a)).
Proof.
  intros Hclosed. unfold intakeOutcome.
  destruct (Deleted cl) eqn:Hdel.
  { munfold_intake. repeat mstep. eexists; split; [reflexivity|].
    split; [at_key; done|split; [at_other_key|done]]. }
  assert (forall err c, newClient env cl = inr err -> newClient env cl = inl c -> False)
    as Hclient by congruence.
  destruct (stored_cases a (TechnicalID cl) Hclosed) as [(p & i & Hk & Hi & Hfresh)|Hno].
  - assert (instanceAt a (TechnicalID cl) = Some i) as Hat.
    { unfold instanceAt. by rewrite Hk. }
    rewrite Hat.
    munfold_intake. repeat mstep. repeat (mcase; repeat mstep).
    all: try done.
    all: eexists; split; [reflexivity|].
    all: split; [at_key|split; [at_other_key|try done; by intros [?|[? ?]]; eauto]].
    all: match goal with
         | H : (_ =? "")%string = true |- _ => apply String.eqb_eq in H; rewrite H
         end; reflexivity.
  - assert (instanceAt a (TechnicalID cl) = None) as Hat.
    { unfold instanceAt. destruct (instanceStorage a !! TechnicalID cl) as [[q| |]|] eqn:Hq;
        auto. by destruct (Hno q). }
    rewrite Hat.
    munfold_intake. repeat mstep. no_instance Hno; repeat mstep.
    all: repeat (mcase; repeat mstep).
    all: try done.
    all: eexists; split; [reflexivity|].
    all: split; [at_key|split; [at_other_key|try done; by intros [?|[? ?]]; eauto]].
Qed.

Lemma store_closed_receive env cl a a' :
  store_closed a ->
  clusterHandler_receive env cl a = Some (tt, a') ->
  store_closed a'.
Proof.
  intros Hclosed Hrun.
  destruct (clusterHandler_receive_effect env cl a Hclosed)
    as (a1 & Hrun1 & _ & _ & _ & Hcases).
  rewrite Hrun in Hrun1. injection Hrun1 as <-.
  destruct Hcases as [[Hheap Hstore]|(i' & Hheap & _ & _ & Hstore)];
    intros key q Hq; rewrite Hheap.
  - rewrite Hstore in Hq. apply lookup_delete_Some in Hq as [_ Hq]. eauto.
  - destruct (decide (fresh (dom (heap a)) = q)) as [<-|Hne].
    + rewrite lookup_insert_eq. eauto.
    + rewrite lookup_insert_ne by done.
      destruct Hstore as [Hs|[Hs|Hs]]; rewrite Hs in Hq.
      * eauto.
      * apply lookup_delete_Some in Hq as [_ Hq]. eauto.
      * apply lookup_insert_Some in Hq as [[_ [= <-]]|[_ Hq]]; [done|eauto].
Qed.

Lemma clusterHandler_run_total feed a :
  store_closed a ->
  exists a', clusterHandler_run feed a = Some (tt, a') /\ store_closed a'.
Proof.
  revert a. induction feed as [|[env cl] feed IH]; intros a Hclosed.
  - by exists a.
  - destruct (clusterHandler_receive_effect env cl a Hclosed) as (a1 & Hrun & _).
    destruct (IH a1) as (a' & Hrun' & Hclosed'); [by eapply store_closed_receive|].
    exists a'. split; [|done]. simpl. by rewrite (bind_Some _ _ _ _ _ Hrun).
Qed.

Lemma clusterHandler_run_app feed feed' a a1 :
  clusterHandler_run feed a = Some (tt, a1) ->
  clusterHandler_run (feed ++ feed') a = clusterHandler_run feed' a1.
Proof.
  revert a. induction feed as [|[env cl] feed IH]; intros a; simpl.
  - unfold ret. by intros [= ->].
  - unfold bind. destruct (clusterHandler_receive env cl a) as [[[] a2]|]; [|done].
    apply IH.
Qed.

(** Handling the same notification again, with the same answers, leaves the
    same instance. *)
Lemma intakeOutcome_idempotent env cl old :
  intakeOutcome env cl (intakeOutcome env cl old) = intakeOutcome env cl old.
Proof.
  unfold intakeOutcome.
  destruct (Deleted cl); [done|].
  destruct (newClient env cl) as [c|err]; [|done].
  destruct (GetResourceGroup env c "" (resourceGroupFilter cl)) as [rg|err];
    destruct (Trial cl); destruct old as [i|]; simpl;
    repeat (case_match; simplify_eq/=; try done); try congruence.
Qed.


(** C4 (as amended): for any sequence of notifications handled from a
    closed store, the instance cached under the technical id of the last
    notification is decided by that notification and the answers it got:
    the key is absent when the notification is a delete or when the client
    cannot be built; it holds an instance with the notification's cluster
    when the client is built and the event-hub resource group is already
    known, is found, or the cluster is trial; and it is left as the earlier
    notifications made it when the lookup fails for a non-trial cluster.
    Deleting an absent key changes nothing, and handling the last
    notification a second time with the same answers leaves the same
    instance under the key. *)
Theorem clusterHandler_last_notification_decides feed env cl a :
  store_closed a ->
  exists a0 a' a'',
    exec (clusterHandler_run feed) a = Some a0 /\
    exec (clusterHandler_run (feed ++ [(env, cl)])) a = Some a' /\
    exec (clusterHandler_run (feed ++ [(env, cl); (env, cl)])) a = Some a'' /\
    (Deleted cl = true -> instanceStorage a' !! TechnicalID cl = None) /\
    (Deleted cl = false -> (exists err, newClient env cl = inr err) ->
     instanceStorage a' !! TechnicalID cl = None) /\
    (Deleted cl = false ->
     forall c, newClient env cl = inl c ->
       ((exists i, instanceAt a0 (TechnicalID cl) = Some i /\
                   eventHubResourceGroupName i <> "") \/
        Trial cl = true \/
        (exists rg, GetResourceGroup env c "" (resourceGroupFilter cl) = inl rg)) ->
       exists i', instanceAt a' (TechnicalID cl) = Some i' /\ cluster i' = cl) /\
    (Deleted cl = false ->
     forall c err, newClient env cl = inl c ->
       (forall i, instanceAt a0 (TechnicalID cl) = Some i ->
                  eventHubResourceGroupName i = "") ->
       GetResourceGroup env c "" (resourceGroupFilter cl) = inr err ->
       Trial cl = false ->
       instanceAt a' (TechnicalID cl) = instanceAt a0 (TechnicalID cl)) /\
    (Deleted cl = true -> instanceStorage a0 !! TechnicalID cl = None ->
     instanceStorage a' = instanceStorage a0) /\
    instanceAt a'' (TechnicalID cl) = instanceAt a' (TechnicalID cl).
Proof.
  intros Hclosed.
  destruct (clusterHandler_run_total feed a Hclosed) as (a0 & Hrun0 & Hclosed0).
  destruct (clusterHandler_receive_instanceAt env cl a0 Hclosed0)
    as (a' & Hrun1 & Hat1 & _ & Hdel1).
  assert (store_closed a') as Hclosed1 by (by eapply store_closed_receive).
  destruct (clusterHandler_receive_instanceAt env cl a' Hclosed1)
    as (a'' & Hrun2 & Hat2 & _ & _).
  exists a0, a', a''.
  split; [by apply exec_Some with (x := tt)|].
  split.
  { apply exec_Some with (x := tt). rewrite (clusterHandler_run_app _ _ _ _ Hrun0).
    simpl. by rewrite (bind_Some _ _ _ _ _ Hrun1). }
  split.
  { apply exec_Some with (x := tt). rewrite (clusterHandler_run_app _ _ _ _ Hrun0).
    simpl. rewrite (bind_Some _ _ _ _ _ Hrun1). by rewrite (bind_Some _ _ _ _ _ Hrun2). }
  split; [|split; [|split; [|split; [|split]]]].
  - intros Hdel. rewrite Hdel1 by auto. apply lookup_delete_eq.
  - intros _ Hfail. rewrite Hdel1 by auto. apply lookup_delete_eq.
  - intros Hdel c Hnew Hpersist. rewrite Hat1. unfold intakeOutcome. rewrite Hdel, Hnew.
    destruct Hpersist as [(i & Hi & Hne)|[Htrial|[rg Hrg]]].
    + rewrite Hi. apply String.eqb_neq in Hne. rewrite Hne. eauto.
    + rewrite Htrial. repeat case_match; eauto.
    + rewrite Hrg. repeat case_match; eauto.
  - intros Hdel c err Hnew Hunknown Hget Htrial. rewrite Hat1.
    unfold intakeOutcome. rewrite Hdel, Hnew, Hget, Htrial.
    destruct (instanceAt a0 (TechnicalID cl)) as [i|]; [|done].
    by rewrite (Hunknown i eq_refl).
  - intros Hdel Habsent. rewrite Hdel1 by auto. by apply delete_id.
  - rewrite Hat2, Hat1. apply intakeOutcome_idempotent.
Qed.

(** ** Fallback on a failed fetch *)

Lemma Run_cycle_fallback env clusterid a instance i :
  instanceStorage a !! clusterid = Some (ObjInstance instance) ->
  heap a !! instance = Some i ->
  (forall e, lastEvent i = Some e -> exists raw, jsonMarshal e = inl raw) ->
  (retryBackoff i = true \/ exists err, fetchFails env a instance i err) ->
  exists a' i',
    exec (Run_cycle env clusterid) a = Some a' /\
    heap a' !! instance = Some i' /\
    lastEvent i' = lastEvent i /\
    match lastEvent i with
    | Some e =>
        exists raw,
          jsonMarshal e = inl raw /\
          EventsChannel a' = EventsChannel a ++ [mkEvent (SubAccountID (cluster i)) raw]
    | None => EventsChannel a' = EventsChannel a
    end.
Proof.
  intros Hk Hi Hmarshal Hfail.
  assert (match lastEvent i with
          | Some e => exists raw, jsonMarshal e = inl raw
          | None => True
          end) as Hraw.
  { destruct (lastEvent i); auto. }
  destruct (retryBackoff i) eqn:Hbo.
  - clear Hfail. destruct (lastEvent i) as [e|] eqn:Hlast; [destruct Hraw as [raw Hraw]|].
    all: mrun; repeat (mcase; repeat mstep).
    all: eexists _, _; split; [reflexivity|]; record_simpl.
    all: split; [apply lookup_insert_eq|]; simpl; eauto.
  - destruct Hfail as [Hfail|[err Hfetch]]; [done|]. fetch_inv Hfetch Hi.
    destruct (lastEvent i) as [e|] eqn:Hlast; [destruct Hraw as [raw Hraw]|].
    all: destruct err as [code orig|msg].
    all: mrun; repeat (mcase; repeat mstep).
    all: eexists _, _; split; [reflexivity|]; record_simpl.
    all: (split; [apply lookup_insert_eq || eassumption|]); simpl; eauto.
Qed.

(** A successful cycle sends its event data and records it as the last
    event: a last event is always the data of the latest cycle whose fetch
    and send both succeeded. *)
Lemma Run_cycle_success env clusterid a instance i eventData raw :
  instanceStorage a !! clusterid = Some (ObjInstance instance) ->
  heap a !! instance = Some i ->
  retryBackoff i = false ->
  fetchSucceeds env a instance i eventData ->
  jsonMarshal eventData = inl raw ->
  exists a' i',
    exec (Run_cycle env clusterid) a = Some a' /\
    heap a' !! instance = Some i' /\
    lastEvent i' = Some eventData /\
    retryAttempts i' = retryAttempts i /\
    EventsChannel a' = EventsChannel a ++ [mkEvent (SubAccountID (cluster i)) raw].
Proof.
  intros Hk Hi Hbo Hfetch Hraw. fetch_inv Hfetch Hi.
  mrun; repeat (mcase; repeat mstep).
  all: eexists _, _; split; [reflexivity|]; record_simpl.
  all: split; [apply lookup_insert_eq|]; simpl; eauto.
Qed.

(** C2: in every reachable state, a cycle whose fetch fails, whether the
    fetch was skipped by the back-off or [getMetrics] returned an error of
    any kind, emits exactly one event when the instance has a last event,
    with the serialised last event as payload and the sub-account as tenant,
    and emits nothing when it has none; the last event is left as it was. *)
Theorem Run_failure_resends_last_event c s env clusterid instance i :
  reachable c s ->
  instanceStorage (provider s) !! clusterid = Some (ObjInstance instance) ->
  heap (provider s) !! instance = Some i ->
  (retryBackoff i = true \/ exists err, fetchFails env (provider s) instance i err) ->
  exists a' i',
    exec (Run_cycle env clusterid) (provider s) = Some a' /\
    heap a' !! instance = Some i' /\
    lastEvent i' = lastEvent i /\
    match lastEvent i with
    | Some e =>
        exists raw,
          jsonMarshal e = inl raw /\
          EventsChannel a' =
            EventsChannel (provider s) ++ [mkEvent (SubAccountID (cluster i)) raw]
    | None => EventsChannel a' = EventsChannel (provider s)
    end.
Proof.
  intros Hreach Hk Hi Hfail.
  destruct (reachable_ok _ _ Hreach) as ((_ & _ & Hmarshal) & _).
  apply Run_cycle_fallback; auto.
  intros e He. by eapply Hmarshal.
Qed.

(** ** Resource group not found *)

Lemma insertWaiting_elem item t l :
  exists t', ((item, t') ∈ workqueue.insertWaiting item t l).
Proof.
  induction l as [|[k t0] l [t' IH]]; simpl.
  - exists t. by apply list_elem_of_singleton.
  - destruct (String.eqb k item) eqn:Heq.
    + apply String.eqb_eq in Heq as ->. eexists. apply elem_of_cons. by left.
    + exists t'. apply elem_of_cons. by right.
Qed.

(** What [Run] does on "resource group not found", whatever the count: the
    counter goes up by one, the instance is (again) cached under its key and
    the key is delayed for another cycle. *)
Lemma Run_cycle_notfound env clusterid a instance i Original :
  instanceStorage a !! clusterid = Some (ObjInstance instance) ->
  heap a !! instance = Some i ->
  retryBackoff i = false ->
  fetchFails env a instance i (DetailedError StatusNotFound Original) ->
  Contains Original responseErrCodeResourceGroupNotFound = true ->
  workqueue.shuttingDown (queue a) = false ->
  0 < PollInterval (config a) ->
  exists a' i' t,
    exec (Run_cycle env clusterid) a = Some a' /\
    instanceStorage a' !! clusterid = Some (ObjInstance instance) /\
    heap a' !! instance = Some i' /\
    retryAttempts i' = int_wrap (retryAttempts i + 1) /\
    (clusterid, t) ∈ workqueue.waiting (queue a').
Proof.
  intros Hk Hi Hbo Hfetch Hcont Hup Hpoll. fetch_inv Hfetch Hi.
  assert (workqueue.ShuttingDown (workqueue.Done clusterid (queue a)) = false) as Hup'.
  { unfold workqueue.ShuttingDown, workqueue.Done. by case_match. }
  assert ((PollInterval (config a) <=? 0) = false) as Hpoll' by lia.
  destruct (insertWaiting_elem clusterid (now a + PollInterval (config a))
              (workqueue.waiting (workqueue.Done clusterid (queue a)))) as [t Ht].
  mrun; repeat (mcase; repeat mstep).
  all: rewrite ?Hup'; record_simpl.
  all: eexists _, _, t; split; [reflexivity|]; record_simpl.
  all: split; [store_lookup|].
  all: split; [apply lookup_insert_eq|].
  all: split; [reflexivity|].
  all: try (rewrite Hup' in *; discriminate).
  all: unfold workqueue.ShuttingDown in Hup'; unfold workqueue.AddAfter.
  all: rewrite Hup', Hpoll'; exact Ht.
Qed.

(** ** A whole cycle on a well-formed provider *)

(** [Run_cycle] is its three phases in sequence. *)
Lemma Run_cycle_phases env clusterid a :
  Run_cycle env clusterid a
  = bind (Run_work env clusterid)
         (fun again : bool =>
            queue_Done clusterid ;;; if again then requeue clusterid else ret tt) a.
Proof.
  unfold Run_cycle, Run_work, instanceStorage_Get, gets, bind, ret.
  destruct (instanceStorage a !! clusterid) as [[p| |]|]; try reflexivity.
  destruct (processInstance env p a) as [[[] a1]|]; reflexivity.
Qed.

(** On a well-formed provider a cycle never panics, and leaves the provider
    well formed. *)
Lemma Run_cycle_ok env clusterid a :
  stores_ok a ->
  exists a', Run_cycle env clusterid a = Some (tt, a') /\ stores_ok a'.
Proof.
  intros Hok.
  assert (exists again a1, Run_work env clusterid a = Some (again, a1)) as (again & a1 & Hwork).
  { unfold Run_work, instanceStorage_Get, gets. unfold bind at 1.
    destruct (instanceStorage a !! clusterid) as [[p| |]|] eqn:Hk.
    - destruct (proj1 Hok _ _ Hk) as [i Hi].
      destruct (processInstance_effect env p a i Hi) as (a1 & _ & Hrun & _).
      exists true, a1. by rewrite (bind_Some _ _ _ _ _ Hrun).
    - eexists _, _. reflexivity.
    - eexists _, _. reflexivity.
    - eexists _, _. reflexivity. }
  destruct (Run_work_effect _ _ _ _ _ Hwork) as (_ & _ & _ & Hok1).
  rewrite Run_cycle_phases, (bind_Some _ _ _ _ _ Hwork).
  destruct again; munfold; record_simpl.
  - destruct (negb _); eexists; (split; [reflexivity|]);
      (apply (stores_ok_same a1); [by apply Hok1|reflexivity|reflexivity]).
  - eexists; split; [reflexivity|].
    apply (stores_ok_same a1); [by apply Hok1|reflexivity|reflexivity].
Qed.

(** ** Further properties of a worker cycle *)

(** X1: a worker that dequeues a technical id whose cache entry is not an
    instance removes the entry and acknowledges the item, and nothing else:
    no Provider Client call, no event, no instance touched, no requeue. *)
Theorem Run_corrupted_entry_is_removed env a clusterid q' o :
  workqueue.Get (queue a) = workqueue.GetItem clusterid q' ->
  instanceStorage a !! clusterid = Some o ->
  (forall p, o <> ObjInstance p) ->
  exists a',
    exec (Run_cycle env clusterid) (set_queue (fun _ => q') a) = Some a' /\
    instanceStorage a' = delete clusterid (instanceStorage a) /\
    heap a' = heap a /\
    calls a' = calls a /\
    EventsChannel a' = EventsChannel a /\
    vmCapsStorage a' = vmCapsStorage a /\
    timers a' = timers a /\
    (clusterid ∉ workqueue.processing (queue a')) /\
    workqueue.items (queue a') = tail (workqueue.items (queue a)) /\
    workqueue.waiting (queue a') = workqueue.waiting (queue a).
Proof.
  intros Hget Hk Hno.
  destruct (Done_after_Get _ _ _ Hget) as (Hitems & Hwait & Hproc & _).
  destruct o as [p| |]; [by destruct (Hno p)| |].
  all: munfold; record_simpl; rewrite Hk; record_simpl.
  all: eexists; split; [reflexivity|]; record_simpl.
  all: repeat split; done.
Qed.

(** X2: a cycle whose fetch succeeds and whose event data serialises sends
    exactly one event, with the sub-account as tenant and the fresh data as
    payload, records the data as the last event and changes nothing else of
    the instance, which it writes back under its technical id. *)
Theorem Run_success_sends_fresh_event env clusterid a instance i eventData raw :
  instanceStorage a !! clusterid = Some (ObjInstance instance) ->
  heap a !! instance = Some i ->
  retryBackoff i = false ->
  fetchSucceeds env a instance i eventData ->
  jsonMarshal eventData = inl raw ->
  exists a',
    exec (Run_cycle env clusterid) a = Some a' /\
    heap a' = <[instance := with_lastEvent (Some eventData) i]> (heap a) /\
    EventsChannel a' = EventsChannel a ++ [mkEvent (SubAccountID (cluster i)) raw] /\
    instanceStorage a' =
      <[TechnicalID (cluster i) := ObjInstance instance]> (instanceStorage a).
Proof.
  intros Hk Hi Hbo Hfetch Hraw. fetch_inv Hfetch Hi.
  mrun; repeat (mcase; repeat mstep).
  all: eexists; split; [reflexivity|]; record_simpl.
  all: repeat split; reflexivity.
Qed.

(** X3: when the fetch succeeds but [json.Marshal] refuses the event data,
    nothing is sent and the last event is not overwritten: no instance
    changes at all, and the instance is still written back. *)
Theorem Run_marshal_failure_drops_event env clusterid a instance i eventData err :
  instanceStorage a !! clusterid = Some (ObjInstance instance) ->
  heap a !! instance = Some i ->
  retryBackoff i = false ->
  fetchSucceeds env a instance i eventData ->
  jsonMarshal eventData = inr err ->
  exists a',
    exec (Run_cycle env clusterid) a = Some a' /\
    heap a' = heap a /\
    EventsChannel a' = EventsChannel a /\
    instanceStorage a' =
      <[TechnicalID (cluster i) := ObjInstance instance]> (instanceStorage a).
Proof.
  intros Hk Hi Hbo Hfetch Hraw. fetch_inv Hfetch Hi.
  mrun; repeat (mcase; repeat mstep).
  all: eexists; split; [reflexivity|]; record_simpl.
  all: repeat split; reflexivity.
Qed.

Lemma with_lastEvent_same i : with_lastEvent (lastEvent i) i = i.
Proof. by destruct i. Qed.

(** X4: a fetch error that is neither "resource group not found" nor a rate
    limit is transient: in a reachable state the cycle leaves the instance
    exactly as it was (counter, flag and last event included), whether or
    not it re-sends the last event. *)
Theorem Run_transient_error_changes_nothing c s env clusterid instance i err :
  reachable c s ->
  instanceStorage (provider s) !! clusterid = Some (ObjInstance instance) ->
  heap (provider s) !! instance = Some i ->
  retryBackoff i = false ->
  fetchFails env (provider s) instance i err ->
  countsAsNotFound err = false ->
  isRateLimit err = false ->
  exists a',
    exec (Run_cycle env clusterid) (provider s) = Some a' /\
    heap a' = heap (provider s) /\
    instanceStorage a' !! clusterid = Some (ObjInstance instance).
Proof.
  intros Hreach Hk Hi Hbo Hfetch Hnf Hrl.
  destruct (reachable_ok _ _ Hreach) as ((_ & _ & Hmarshal) & _).
  assert (match lastEvent i with
          | Some e => exists raw, jsonMarshal e = inl raw
          | None => True
          end) as Hraw.
  { destruct (lastEvent i) as [e|] eqn:He; [|done]. by eapply Hmarshal. }
  fetch_inv Hfetch Hi.
  assert (<[instance := i]> (heap (provider s)) = heap (provider s)) as Hid
    by (by apply insert_id).
  destruct (lastEvent i) as [e|] eqn:Hlast; [destruct Hraw as [raw Hraw]|].
  all: destruct err as [code orig|msg]; simpl in Hnf, Hrl.
  all: try (destruct (code =? StatusNotFound) eqn:Hcode; simpl in Hnf).
  all: mrun; repeat (mcase; repeat mstep).
  all: try discriminate.
  all: eexists; split; [reflexivity|]; record_simpl.
  all: split; [|try store_lookup].
  all: try reflexivity.
  all: rewrite <- Hlast, with_lastEvent_same; exact Hid.
Qed.

Lemma Done_shuttingDown item q :
  workqueue.shuttingDown (workqueue.Done item q) = workqueue.shuttingDown q.
Proof. unfold workqueue.Done. by case_match. Qed.

(** X5: a cycle that finds its instance requeues the technical id after the
    poll interval unless the queue is shutting down; then it only
    acknowledges the item, so nothing is re-admitted once shutdown is
    observed. *)
Theorem Run_requeues_unless_shutting_down env clusterid a instance i :
  instanceStorage a !! clusterid = Some (ObjInstance instance) ->
  heap a !! instance = Some i ->
  exists a',
    exec (Run_cycle env clusterid) a = Some a' /\
    queue a' =
      (if workqueue.shuttingDown (queue a)
       then workqueue.Done clusterid (queue a)
       else workqueue.AddAfter clusterid (PollInterval (config a)) (now a)
                               (workqueue.Done clusterid (queue a))).
Proof.
  intros Hk Hi.
  destruct (processInstance_effect env instance a i Hi)
    as (a1 & i' & Hrun & _ & _ & _ & _ & Hq & _ & _ & Hnow & Hcfg).
  assert (Run_work env clusterid a = Some (true, a1)) as Hwork.
  { unfold Run_work, instanceStorage_Get, gets, bind, ret. simpl.
    rewrite Hk. by rewrite Hrun. }
  unfold exec. rewrite Run_cycle_phases, (bind_Some _ _ _ _ _ Hwork).
  munfold; record_simpl. unfold workqueue.ShuttingDown.
  rewrite Done_shuttingDown, Hq.
  destruct (workqueue.shuttingDown (queue a)); simpl;
    eexists; (split; [reflexivity|]); record_simpl; by rewrite ?Hq, ?Hnow, ?Hcfg.
Qed.

Ltac exists_last_event :=
  eexists _, [_]; split; [reflexivity|]; record_simpl;
  split; [reflexivity|]; right; eexists _, _;
  split; [reflexivity|]; split; [eassumption|];
  first [ right; first [eassumption | reflexivity]
        | left; split; [first [eassumption | reflexivity]|]; eexists; eassumption ].

(** X6: whatever the fetch does, a cycle sends at most one event; its tenant
    is the sub-account of the cluster, and its payload is the serialisation
    of complete event data: the data fetched in this cycle, or the last
    event of the instance. *)
Theorem Run_sends_at_most_one_event env clusterid a instance i :
  instanceStorage a !! clusterid = Some (ObjInstance instance) ->
  heap a !! instance = Some i ->
  exists a' evs,
    exec (Run_cycle env clusterid) a = Some a' /\
    EventsChannel a' = EventsChannel a ++ evs /\
    (evs = [] \/
     exists eventData raw,
       evs = [mkEvent (SubAccountID (cluster i)) raw] /\
       jsonMarshal eventData = inl raw /\
       ((retryBackoff i = false /\ fetchSucceeds env a instance i eventData) \/
        lastEvent i = Some eventData)).
Proof.
  intros Hk Hi.
  destruct (getMetrics_frame env instance
              (capsOf (vmCapsStorage a !! Region (cluster i))) a i Hi) as (r & cs & Hgm).
  destruct (retryBackoff i) eqn:Hbo; [|destruct r as [ed|[code orig|msg]]];
    mrun; repeat (mcase; repeat mstep).
  all: try exists_last_event.
  all: try (eexists _, []; split; [reflexivity|]; record_simpl;
           split; [by rewrite app_nil_r|by left]).
Qed.

(** X7: the retry counter and the back-off flag change only by their causes:
    after a cycle the counter differs only if the fetch failed with a 404
    that carries the resource-group-not-found code, and the flag is set only
    if the fetch failed with a 429. *)
Theorem Run_counter_and_flag_have_one_cause env clusterid a instance i :
  instanceStorage a !! clusterid = Some (ObjInstance instance) ->
  heap a !! instance = Some i ->
  exists a' i',
    exec (Run_cycle env clusterid) a = Some a' /\
    heap a' !! instance = Some i' /\
    (retryAttempts i' <> retryAttempts i ->
     retryBackoff i = false /\
     exists Original,
       fetchFails env a instance i (DetailedError StatusNotFound Original) /\
       Contains Original responseErrCodeResourceGroupNotFound = true) /\
    (retryBackoff i' = true ->
     retryBackoff i = false /\
     exists Original,
       fetchFails env a instance i (DetailedError StatusTooManyRequests Original)).
Proof.
  intros Hk Hi.
  destruct (getMetrics_frame env instance
              (capsOf (vmCapsStorage a !! Region (cluster i))) a i Hi) as (r & cs & Hgm).
  destruct (retryBackoff i) eqn:Hbo; [|destruct r as [ed|[code orig|msg]]];
    mrun; repeat (mcase; repeat mstep).
  all: eexists _, _; split; [reflexivity|]; record_simpl.
  all: (split; [apply lookup_insert_eq || eassumption|]); simpl.
  all: split; intros Hchange; try done; try congruence.
  all: split; [done|].
  all: exists orig.
  all: repeat match goal with
              | H : (_ =? _) = true |- _ => apply Z.eqb_eq in H; subst
              end.
  all: try (split; [|assumption]); eexists; exact Hgm.
Qed.

(** ** A cluster that stays rate limited *)

Lemma Run_cycle_compute_throttled env clusterid a instance i Original :
  instanceStorage a !! clusterid = Some (ObjInstance instance) ->
  heap a !! instance = Some i ->
  retryBackoff i = false ->
  (forall j vmcaps,
      getComputeMetrics env j vmcaps
      = inr (DetailedError StatusTooManyRequests Original)) ->
  exists a' i',
    exec (Run_cycle env clusterid) a = Some a' /\
    instanceStorage a' !! clusterid = Some (ObjInstance instance) /\
    heap a' !! instance = Some i' /\
    retryBackoff i' = true /\
    retryAttempts i' = retryAttempts i /\
    calls a' = calls a ++ [CallComputeMetrics].
Proof.
  intros Hk Hi Hbo Hcompute.
  assert (getMetrics env instance (capsOf (vmCapsStorage a !! Region (cluster i))) a
          = Some (inr (DetailedError StatusTooManyRequests Original),
                  set_calls (fun l => l ++ [CallComputeMetrics]) a)) as Hgm.
  { unfold getMetrics. rewrite (bind_Some _ _ _ _ _ (load_Some _ _ _ Hi)).
    unfold logCall, modify, bind, ret; simpl. by rewrite Hcompute. }
  mrun; repeat (mcase; repeat mstep).
  all: eexists _, _; split; [reflexivity|]; record_simpl.
  all: split; [store_lookup|].
  all: split; [apply lookup_insert_eq|].
  all: simpl; auto.
Qed.

Lemma Run_cycles_cons env envs clusterid a a1 :
  exec (Run_cycle env clusterid) a = Some a1 ->
  exec (Run_cycles (env :: envs) clusterid) a = exec (Run_cycles envs clusterid) a1.
Proof.
  unfold exec; simpl; unfold bind.
  destruct (Run_cycle env clusterid a) as [[[] a2]|]; [|done]. by intros [= ->].
Qed.

(** X8: a cluster whose compute fetch is rate limited every time alternates
    between a call and a skip: over [2 n] consecutive cycles the Provider
    Client is called exactly [n] times (the compute fetch of every other
    cycle), the retry counter does not move, and the flag is clear again at
    the end. *)
Theorem Run_persistent_rate_limit_alternates env clusterid Original n :
  (forall j vmcaps,
      getComputeMetrics env j vmcaps
      = inr (DetailedError StatusTooManyRequests Original)) ->
  forall a instance i,
  instanceStorage a !! clusterid = Some (ObjInstance instance) ->
  heap a !! instance = Some i ->
  retryBackoff i = false ->
  exists a' i',
    exec (Run_cycles (replicate (2 * n) env) clusterid) a = Some a' /\
    instanceStorage a' !! clusterid = Some (ObjInstance instance) /\
    heap a' !! instance = Some i' /\
    retryBackoff i' = false /\
    retryAttempts i' = retryAttempts i /\
    calls a' = calls a ++ replicate n CallComputeMetrics.
Proof.
  intros Hcompute. induction n as [|n IH]; intros a instance i Hk Hi Hbo.
  - exists a, i. simpl. rewrite app_nil_r. repeat split; auto.
  - destruct (Run_cycle_compute_throttled env clusterid a instance i Original
                Hk Hi Hbo Hcompute)
      as (a1 & i1 & Hrun1 & Hk1 & Hi1 & Hbo1 & Hr1 & Hc1).
    destruct (Run_cycle_skips env clusterid a1 instance i1 Hk1 Hi1 Hbo1)
      as (a2 & i2 & Hrun2 & Hk2 & Hi2 & Hbo2 & Hr2 & Hc2).
    destruct (IH a2 instance i2 Hk2 Hi2 Hbo2)
      as (a' & i' & Hrun & Hk' & Hi' & Hbo' & Hr' & Hc').
    exists a', i'.
    replace (2 * S n)%nat with (S (S (2 * n))) by lia.
    simpl replicate.
    rewrite (Run_cycles_cons _ _ _ _ _ Hrun1), (Run_cycles_cons _ _ _ _ _ Hrun2).
    repeat split; auto; try congruence.
    rewrite Hc', Hc2, Hc1, <- app_assoc. reflexivity.
Qed.

(** ** What a cycle leaves alone *)

Lemma Run_work_other_keys env clusterid a :
  stores_ok a ->
  exists again a1,
    Run_work env clusterid a = Some (again, a1) /\
    (forall key, key <> clusterid ->
                 instanceStorage a1 !! key = instanceStorage a !! key /\
                 instanceAt a1 key = instanceAt a key) /\
    vmCapsStorage a1 = vmCapsStorage a /\
    timers a1 = timers a /\
    config a1 = config a.
Proof.
  intros (Hclosed & Hkeyed & Hmarshal).
  unfold Run_work, instanceStorage_Get, gets, bind, ret. simpl.
  destruct (instanceStorage a !! clusterid) as [[p| |]|] eqn:Hk.
  - destruct (Hclosed _ _ Hk) as [i Hi].
    destruct (processInstance_effect env p a i Hi)
      as (a1 & i' & Hrun & Hheap & Hstore & _ & _ & _ & Hvm & Htimers & _ & Hcfg).
    rewrite Hrun. exists true, a1. split; [done|]. split; [|done].
    pose proof (Hkeyed _ _ _ Hk Hi) as Htid.
    intros key Hne. unfold instanceAt. rewrite Hstore, Hheap, Htid.
    rewrite lookup_insert_ne by done. split; [done|].
    destruct (instanceStorage a !! key) as [[q| |]|] eqn:Hq; auto.
    rewrite lookup_insert_ne; [done|]. intros <-.
    apply Hne. by rewrite <- (Hkeyed _ _ _ Hq Hi).
  - exists false. eexists. split; [reflexivity|]. unfold instanceAt. record_simpl.
    split; [|done]. intros key Hne. by rewrite lookup_delete_ne.
  - exists false. eexists. split; [reflexivity|]. unfold instanceAt. record_simpl.
    split; [|done]. intros key Hne. by rewrite lookup_delete_ne.
  - exists false, a. done.
Qed.

(** X9: on well-formed stores a cycle for one technical id never panics and
    touches only the entry of that id: every other key keeps its cache entry
    and its instance, and the VM-capability cache, the armed re-deliveries
    and the configuration are unchanged. *)
Theorem Run_cycle_touches_only_its_key env clusterid a :
  stores_ok a ->
  exists a',
    exec (Run_cycle env clusterid) a = Some a' /\
    (forall key, key <> clusterid ->
                 instanceStorage a' !! key = instanceStorage a !! key /\
                 instanceAt a' key = instanceAt a key) /\
    vmCapsStorage a' = vmCapsStorage a /\
    timers a' = timers a /\
    config a' = config a.
Proof.
  intros Hok.
  destruct (Run_work_other_keys env clusterid a Hok)
    as (again & a1 & Hwork & Hkeys & Hvm & Htimers & Hcfg).
  unfold exec. rewrite Run_cycle_phases, (bind_Some _ _ _ _ _ Hwork).
  destruct again; munfold; record_simpl.
  - destruct (negb _); eexists; (split; [reflexivity|]); unfold instanceAt in *;
      record_simpl; done.
  - eexists; split; [reflexivity|]. unfold instanceAt in *. record_simpl. done.
Qed.

(** ** Invariants of every reachable state *)

(** X10: in every state the running provider can reach, each entry of the
    instance cache that is an instance points to an allocated instance whose
    cluster has the key as technical id, two keys never share an instance,
    and every recorded last event is one that [json.Marshal] accepts. *)
Theorem reachable_cache_is_well_formed c s :
  reachable c s ->
  (forall key p,
      instanceStorage (provider s) !! key = Some (ObjInstance p) ->
      exists i, heap (provider s) !! p = Some i /\ TechnicalID (cluster i) = key) /\
  (forall key1 key2 p,
      instanceStorage (provider s) !! key1 = Some (ObjInstance p) ->
      instanceStorage (provider s) !! key2 = Some (ObjInstance p) ->
      key1 = key2) /\
  (forall key i e,
      instanceAt (provider s) key = Some i -> lastEvent i = Some e ->
      exists raw, jsonMarshal e = inl raw).
Proof.
  intros Hreach.
  destruct (reachable_ok _ _ Hreach) as ((Hclosed & Hkeyed & Hmarshal) & _).
  split; [|split].
  - intros key p Hk. destruct (Hclosed _ _ Hk) as [i Hi]. exists i. split; [done|].
    by eapply Hkeyed.
  - intros key1 key2 p Hk1 Hk2. destruct (Hclosed _ _ Hk1) as [i Hi].
    by rewrite <- (Hkeyed _ _ _ Hk1 Hi), <- (Hkeyed _ _ _ Hk2 Hi).
  - intros key i e Hat He. unfold instanceAt in Hat.
    destruct (instanceStorage (provider s) !! key) as [[p| |]|]; try done.
    by eapply Hmarshal.
Qed.

(** ** The VM-capability cache *)

Lemma fold_insert_lookup {A B : Type} (f : A -> string) (g : A -> B) (l : list A)
    (m0 : gmap string B) (k : string) :
  fold_left (fun m x => <[f x := g x]> m) l m0 !! k
  = match last (filter (fun x => f x = k) l) with
    | Some x => Some (g x)
    | None => m0 !! k
    end.
Proof.
  revert m0. induction l as [|x l IH] using rev_ind; intros m0; [done|].
  rewrite fold_left_app, filter_app. simpl.
  rewrite filter_cons, filter_nil.
  destruct (decide (f x = k)) as [<-|Hne].
  - by rewrite last_snoc, lookup_insert_eq.
  - rewrite app_nil_r, lookup_insert_ne by done. apply IH.
Qed.

Lemma skusToCaps_snoc l item :
  skusToCaps (l ++ [item]) = <[skuName item := capabilitiesOf item]> (skusToCaps l).
Proof. unfold skusToCaps. by rewrite fold_left_app. Qed.

Lemma skusToCaps_size l : (0 <? size (skusToCaps l))%nat = true <-> l <> [].
Proof.
  destruct l as [|x l _] using rev_ind.
  - split; [|done]. unfold skusToCaps. simpl. rewrite map_size_empty. done.
  - rewrite skusToCaps_snoc. split.
    + intros _ H. by destruct l.
    + intros _. apply Nat.ltb_lt.
      assert (size (<[skuName x := capabilitiesOf x]> (skusToCaps l)) <> 0%nat); [|lia].
      intros H. apply map_size_empty_iff in H. by apply insert_non_empty in H.
Qed.

(** X11: the capabilities map built from a SKU list has exactly the names of
    the list; under a name it holds the capabilities of the last SKU of that
    name, and under a capability name the value of its last occurrence in
    that SKU.  It is empty only for the empty list. *)
Theorem skusToCaps_last_occurrence_wins skuList :
  (forall name,
      skusToCaps skuList !! name
      = capabilitiesOf <$> last (filter (fun item => skuName item = name) skuList)) /\
  (forall item cap,
      capabilitiesOf item !! cap
      = snd <$> last (filter (fun v => v.1 = cap) (skuCapabilities item))) /\
  (forall name, is_Some (skusToCaps skuList !! name) <-> name ∈ skuName <$> skuList) /\
  (skusToCaps skuList = ∅ <-> skuList = []).
Proof.
  assert (forall name,
      skusToCaps skuList !! name
      = capabilitiesOf <$> last (filter (fun item => skuName item = name) skuList))
    as Hlookup.
  { intros name. unfold skusToCaps.
    rewrite (fold_insert_lookup skuName capabilitiesOf). rewrite lookup_empty.
    by destruct (last _). }
  split; [done|]. split; [|split].
  - intros item cap. unfold capabilitiesOf.
    rewrite (fold_insert_lookup fst snd). rewrite lookup_empty.
    by destruct (last _).
  - intros name. rewrite Hlookup, list_elem_of_fmap. split.
    + intros [caps Hcaps]. destruct (last _) as [item|] eqn:Hlast; [|done].
      apply last_Some_elem_of, list_elem_of_filter in Hlast as [Hname Hin].
      by exists item.
    + intros (item & -> & Hin).
      assert (item ∈ filter (fun item' => skuName item' = skuName item) skuList) as Hf.
      { by apply list_elem_of_filter. }
      destruct (filter _ skuList) as [|y l'] using rev_ind.
      * by apply not_elem_of_nil in Hf.
      * rewrite last_snoc. by eexists.
  - split.
    + intros Hempty. destruct skuList as [|x l _] using rev_ind; [done|].
      rewrite skusToCaps_snoc in Hempty. by apply insert_non_empty in Hempty.
    + by intros ->.
Qed.

(** ** What a notification does besides the upsert *)

(** The event-hub resource group name a notification starts from: the one of
    the cached instance, or none. *)
Lemma carried_name a key p i :
  instanceStorage a !! key = Some (ObjInstance p) -> heap a !! p = Some i ->
  instanceAt a key = Some i.
Proof. intros Hk Hi. unfold instanceAt. by rewrite Hk. Qed.

(** X12: a notification writes the VM-capability cache at most once, and only
    for a region that has no entry: the entry is the map built from the SKU
    list the client returned, and an error or an empty list leaves the
    region without an entry. *)
Theorem clusterHandler_primes_uncached_region env cl a :
  store_closed a ->
  exists a',
    exec (clusterHandler_receive env cl) a = Some a' /\
    (vmCapsStorage a' = vmCapsStorage a \/
     exists client skuList,
       vmCapsStorage a !! Region cl = None /\
       newClient env cl = inl client /\
       GetVMResourceSkus env client (locationFilter cl) = inl skuList /\
       skuList <> [] /\
       instanceStorage a' !! TechnicalID cl
       = Some (ObjInstance (fresh (dom (heap a)))) /\
       vmCapsStorage a'
       = <[Region cl := ObjVMCaps (skusToCaps skuList)]> (vmCapsStorage a)).
Proof.
  intros Hclosed. unfold exec.
  destruct (Deleted cl) eqn:Hdel.
  { munfold_intake. repeat mstep. eexists; split; [reflexivity|]; record_simpl.
    by left. }
  assert (forall l, (0 <? size (skusToCaps l))%nat = true -> l <> []) as Hsize.
  { intros l. apply skusToCaps_size. }
  destruct (stored_cases a (TechnicalID cl) Hclosed) as [(p & i & Hk & Hi & Hfresh)|Hno].
  - munfold_intake. repeat mstep. repeat (mcase; repeat mstep).
    all: eexists; split; [reflexivity|]; record_simpl.
    all: try (by left).
    all: right; eexists _, _; repeat split; eauto; apply lookup_insert_eq.
  - munfold_intake. repeat mstep. no_instance Hno; repeat mstep.
    all: repeat (mcase; repeat mstep).
    all: eexists; split; [reflexivity|]; record_simpl.
    all: try (by left).
    all: right; eexists _, _; repeat split; eauto; apply lookup_insert_eq.
Qed.

Lemma clusterHandler_receive_vmCaps env cl a a' :
  store_closed a ->
  exec (clusterHandler_receive env cl) a = Some a' ->
  vmCapsStorage a ⊆ vmCapsStorage a' /\ (vmCaps_ok a -> vmCaps_ok a').
Proof.
  intros Hclosed. unfold exec.
  assert (forall l (m : gmap string obj) region,
             m !! region = None -> (0 <? size (skusToCaps l))%nat = true ->
             (forall r o, m !! r = Some o ->
                          exists caps : vmCapabilities, o = ObjVMCaps caps /\ caps <> ∅) ->
             forall r o, <[region := ObjVMCaps (skusToCaps l)]> m !! r = Some o ->
                         exists caps : vmCapabilities, o = ObjVMCaps caps /\ caps <> ∅)
    as Hput.
  { intros l m region Hnone Hsize Hok r o.
    destruct (decide (region = r)) as [->|Hne].
    - rewrite lookup_insert_eq. intros [= <-]. eexists; split; [done|].
      intros Hempty. rewrite Hempty, map_size_empty in Hsize. done.
    - rewrite lookup_insert_ne by done. apply Hok. }
  destruct (Deleted cl) eqn:Hdel.
  { munfold_intake. repeat mstep. record_simpl. intros [= <-]. done. }
  destruct (stored_cases a (TechnicalID cl) Hclosed) as [(p & i & Hk & Hi & Hfresh)|Hno].
  - munfold_intake. repeat mstep. repeat (mcase; repeat mstep).
    all: intros [= <-]; record_simpl.
    all: try done.
    all: split; [by apply insert_subseteq|]; unfold vmCaps_ok; record_simpl; eauto.
  - munfold_intake. repeat mstep. no_instance Hno; repeat mstep.
    all: repeat (mcase; repeat mstep).
    all: intros [= <-]; record_simpl.
    all: try done.
    all: split; [by apply insert_subseteq|]; unfold vmCaps_ok; record_simpl; eauto.
Qed.

Lemma Run_work_vmCaps env clusterid a again a' :
  Run_work env clusterid a = Some (again, a') -> vmCapsStorage a' = vmCapsStorage a.
Proof.
  unfold Run_work, instanceStorage_Get, gets.
  unfold bind at 1.
  destruct (instanceStorage a !! clusterid) as [[p| |]|] eqn:Hk.
  - destruct (heap a !! p) as [i|] eqn:Hi.
    + destruct (processInstance_effect env p a i Hi)
        as (a1 & i' & Hrun & _ & _ & _ & _ & _ & Hvm & _).
      rewrite (bind_Some _ _ _ _ _ Hrun). unfold ret. by intros [= <- <-].
    + unfold processInstance, load, bind. rewrite Hi. done.
  - munfold. record_simpl. by intros [= <- <-].
  - munfold. record_simpl. by intros [= <- <-].
  - unfold ret. by intros [= <- <-].
Qed.

Lemma step_vmCaps s s' :
  system_ok s -> step s s' ->
  vmCapsStorage (provider s) ⊆ vmCapsStorage (provider s') /\
  (vmCaps_ok (provider s) -> vmCaps_ok (provider s')).
Proof.
  intros ((Hclosed & _) & _) Hstep.
  destruct Hstep as
    [env cl a' Hh Hrun | n t cl env a' Hh Hn Ht Hrun | a' Hh Hrun
    | w k q' Hw Hget | w Hw Hget | w k env again a' Hw Hrun
    | w k again a' Hw Hrun | w k a' Hw Hrun | t Ht]; simpl.
  - by eapply clusterHandler_receive_vmCaps.
  - by apply (clusterHandler_receive_vmCaps env cl (set_timers (delete n) (provider s))).
  - revert Hrun. unfold exec, clusterHandler_done. munfold. by intros [= <-].
  - done.
  - done.
  - apply Run_work_vmCaps in Hrun. unfold vmCaps_ok. by rewrite Hrun.
  - revert Hrun. unfold exec. munfold. by intros [= <-].
  - revert Hrun. unfold exec, requeue. munfold.
    destruct (negb _); munfold; by intros [= <-].
  - done.
Qed.

(** X13: in every state the running provider can reach, every entry of the
    VM-capability cache is a capabilities map, and a non-empty one: a region
    is never cached with no capabilities. *)
Theorem reachable_vm_cache_is_never_empty c s :
  reachable c s -> vmCaps_ok (provider s).
Proof.
  intros Hreach.
  enough (system_ok s /\ vmCaps_ok (provider s)) as [_ H] by exact H.
  revert s Hreach. unfold reachable. apply rtc_ind_r.
  - split; [apply system_ok_start|]. intros region o. simpl.
    by rewrite lookup_empty.
  - intros s1 s2 _ Hstep [Hok Hvm]. split; [by eapply step_preserves|].
    by apply (step_vmCaps s1 s2 Hok Hstep).
Qed.

(** X14: the VM-capability cache only grows: whatever the handler and the
    workers do afterwards, and whatever the client answers, a region that is
    cached keeps the entry it has.  The capabilities of a region are fetched
    once for the life of the provider. *)
Theorem reachable_vm_cache_entries_are_final c s s' :
  reachable c s -> rtc step s s' ->
  vmCapsStorage (provider s) ⊆ vmCapsStorage (provider s').
Proof.
  intros Hreach Hsteps.
  enough (system_ok s' /\ vmCapsStorage (provider s) ⊆ vmCapsStorage (provider s'))
    as [_ H] by exact H.
  revert s' Hsteps. apply rtc_ind_r.
  - split; [by eapply reachable_ok|done].
  - intros s1 s2 _ Hstep [Hok Hsub]. split; [by eapply step_preserves|].
    etrans; [exact Hsub|]. by apply (step_vmCaps s1 s2 Hok Hstep).
Qed.

Ltac no_cached_name :=
  let i0 := fresh "i" in
  let H0 := fresh "H" in
  intros i0 H0;
  first
    [ match goal with
      | Hat : instanceAt _ _ = Some _ |- _ =>
          rewrite Hat in H0; injection H0 as <-; by apply String.eqb_eq
      end
    | unfold instanceAt in H0;
      match goal with
      | Hk : instanceStorage _ !! _ = _ |- _ => rewrite Hk in H0; discriminate H0
      end ].

Ltac intake_calls :=
  first
    [ eexists _, [], []; split; [reflexivity|]; record_simpl;
      split; [by rewrite ?app_nil_r|]; split; by left
    | eexists _, [_], []; split; [reflexivity|]; record_simpl;
      split; [reflexivity|]; split; [right|by left];
      (split; [reflexivity|]); (split; [done|]); (split; [by eexists|]);
      no_cached_name
    | eexists _, [], [_]; split; [reflexivity|]; record_simpl;
      split; [reflexivity|]; split; [by left|right];
      (split; [reflexivity|]); split; [done|apply lookup_insert_eq]
    | eexists _, [_], [_]; split; [reflexivity|]; record_simpl;
      split; [by rewrite <- app_assoc|]; split; right;
      [ (split; [reflexivity|]); (split; [done|]); (split; [by eexists|]);
        no_cached_name
      | (split; [reflexivity|]); split; [done|apply lookup_insert_eq] ] ].

(** X15: a notification calls the Provider Client at most twice, the
    resource-group lookup before the SKU listing.  The lookup is only made
    for a live notification whose client was built and whose cached
    instance, if any, has no event-hub resource group name; the SKU listing
    only when the region has no cached capabilities and the instance has
    just been stored. *)
Theorem clusterHandler_calls_client_at_most_twice env cl a :
  store_closed a ->
  exists a' rg skus,
    exec (clusterHandler_receive env cl) a = Some a' /\
    calls a' = calls a ++ rg ++ skus /\
    (rg = [] \/
     rg = [CallGetResourceGroup (resourceGroupFilter cl)] /\
     Deleted cl = false /\
     (exists client, newClient env cl = inl client) /\
     (forall i, instanceAt a (TechnicalID cl) = Some i ->
                eventHubResourceGroupName i = EmptyString)) /\
    (skus = [] \/
     skus = [CallGetVMResourceSkus (locationFilter cl)] /\
     vmCapsStorage a !! Region cl = None /\
     instanceStorage a' !! TechnicalID cl
     = Some (ObjInstance (fresh (dom (heap a))))).
Proof.
  intros Hclosed. unfold exec.
  destruct (Deleted cl) eqn:Hdel.
  { munfold_intake. repeat mstep. intake_calls. }
  destruct (stored_cases a (TechnicalID cl) Hclosed) as [(p & i & Hk & Hi & Hfresh)|Hno].
  - pose proof (carried_name _ _ _ _ Hk Hi) as Hat.
    munfold_intake. repeat mstep. repeat (mcase; repeat mstep).
    all: intake_calls.
  - munfold_intake. repeat mstep. no_instance Hno; repeat mstep.
    all: repeat (mcase; repeat mstep).
    all: intake_calls.
Qed.

(** X16: a notification that is refused (flagged deleted, or the client
    cannot be built) only deletes the cache entry of its technical id: the
    queue, the armed re-deliveries, the VM-capability cache, the call log and
    the event channel are unchanged and no allocated instance is modified.
    In particular a key that is queued stays queued. *)
Theorem clusterHandler_refusal_only_deletes env cl a :
  store_closed a ->
  Deleted cl = true \/ (exists err, newClient env cl = inr err) ->
  exists a',
    exec (clusterHandler_receive env cl) a = Some a' /\
    instanceStorage a' = delete (TechnicalID cl) (instanceStorage a) /\
    (forall p i, heap a !! p = Some i -> heap a' !! p = Some i) /\
    queue a' = queue a /\
    timers a' = timers a /\
    vmCapsStorage a' = vmCapsStorage a /\
    calls a' = calls a /\
    EventsChannel a' = EventsChannel a.
Proof.
  intros Hclosed Hrefused. unfold exec.
  assert (forall i' p i, heap a !! p = Some i ->
                         <[fresh (dom (heap a)) := i']> (heap a) !! p = Some i) as Hold.
  { intros i' p i Hp. rewrite lookup_insert_ne; [done|]. intros <-.
    assert (fresh (dom (heap a)) ∈ dom (heap a)) as Hin by (apply elem_of_dom; eauto).
    by apply is_fresh in Hin. }
  destruct (Deleted cl) eqn:Hdel.
  { munfold_intake. repeat mstep. eexists; split; [reflexivity|]; record_simpl. done. }
  destruct Hrefused as [|[err Herr]]; [done|].
  destruct (stored_cases a (TechnicalID cl) Hclosed) as [(p & i & Hk & Hi & Hfresh)|Hno].
  - munfold_intake. rewrite Herr. repeat mstep.
    eexists; split; [reflexivity|]; record_simpl.
    rewrite ?insert_insert_eq. repeat split; auto.
  - munfold_intake. rewrite Herr. repeat mstep. no_instance Hno; repeat mstep.
    all: eexists; split; [reflexivity|]; record_simpl.
    all: rewrite ?insert_insert_eq; repeat split; auto.
Qed.

(** X17: a notification has one of three outcomes.  Stored: the entry of its
    technical id is the rebuilt instance and the key is added to the queue.
    Dropped: the entry is deleted.  Postponed: the storage is untouched and
    one re-delivery of the same notification is armed a poll interval from
    now.  Only a stored notification touches the queue or the VM-capability
    cache, and only a postponed one arms a timer. *)
Theorem clusterHandler_enqueues_exactly_what_it_stores env cl a :
  store_closed a ->
  exists a',
    exec (clusterHandler_receive env cl) a = Some a' /\
    ((instanceStorage a'
      = <[TechnicalID cl := ObjInstance (fresh (dom (heap a)))]> (instanceStorage a) /\
      queue a' = workqueue.Add (TechnicalID cl) (queue a) /\
      timers a' = timers a) \/
     (instanceStorage a' = delete (TechnicalID cl) (instanceStorage a) /\
      queue a' = queue a /\
      vmCapsStorage a' = vmCapsStorage a /\
      timers a' = timers a) \/
     (instanceStorage a' = instanceStorage a /\
      queue a' = queue a /\
      vmCapsStorage a' = vmCapsStorage a /\
      timers a' = timers a ++ [(now a + PollInterval (config a), cl)])).
Proof.
  intros Hclosed. unfold exec.
  destruct (Deleted cl) eqn:Hdel.
  { munfold_intake. repeat mstep. eexists; split; [reflexivity|]; record_simpl.
    right; left. done. }
  destruct (stored_cases a (TechnicalID cl) Hclosed) as [(p & i & Hk & Hi & Hfresh)|Hno].
  - munfold_intake. repeat mstep. repeat (mcase; repeat mstep).
    all: eexists; split; [reflexivity|]; record_simpl.
    all: first [by left | by right; left | by right; right].
  - munfold_intake. repeat mstep. no_instance Hno; repeat mstep.
    all: repeat (mcase; repeat mstep).
    all: eexists; split; [reflexivity|]; record_simpl.
    all: first [by left | by right; left | by right; right].
Qed.

(** ** A re-delivery outlives a deletion *)

Lemma clusterHandler_receive_postpones env cl a client err :
  store_closed a ->
  Deleted cl = false -> Trial cl = false ->
  (forall i, instanceAt a (TechnicalID cl) = Some i ->
             eventHubResourceGroupName i = EmptyString) ->
  newClient env cl = inl client ->
  GetResourceGroup env client "" (resourceGroupFilter cl) = inr err ->
  exists a',
    clusterHandler_receive env cl a = Some (tt, a') /\
    timers a' = timers a ++ [(now a + PollInterval (config a), cl)] /\
    instanceStorage a' = instanceStorage a /\
    queue a' = queue a.
Proof.
  intros Hclosed Hdel Htrial Hname Hclient Hrg.
  destruct (stored_cases a (TechnicalID cl) Hclosed) as [(p & i & Hk & Hi & Hfresh)|Hno].
  - pose proof (Hname i (carried_name _ _ _ _ Hk Hi)) as Hempty.
    apply String.eqb_eq in Hempty.
    munfold_intake. repeat mstep. repeat (mcase; repeat mstep).
    all: try congruence.
    all: eexists; split; [reflexivity|]; record_simpl; done.
  - munfold_intake. repeat mstep.
    no_instance Hno; repeat mstep.
    all: repeat (mcase; repeat mstep).
    all: try congruence.
    all: eexists; split; [reflexivity|]; record_simpl; done.
Qed.

Lemma clusterHandler_receive_stores env cl a client rgName :
  store_closed a ->
  Deleted cl = false ->
  instanceStorage a !! TechnicalID cl = None ->
  newClient env cl = inl client ->
  GetResourceGroup env client "" (resourceGroupFilter cl) = inl rgName ->
  exists a' i',
    clusterHandler_receive env cl a = Some (tt, a') /\
    instanceAt a' (TechnicalID cl) = Some i' /\
    cluster i' = cl /\
    eventHubResourceGroupName i' = rgName /\
    lastEvent i' = None /\
    queue a' = workqueue.Add (TechnicalID cl) (queue a).
Proof.
  intros Hclosed Hdel Hnone Hclient Hrg.
  munfold_intake. repeat mstep. repeat (mcase; repeat mstep).
  all: try congruence.
  all: eexists _, _; split; [reflexivity|]; unfold instanceAt; record_simpl.
  all: rewrite lookup_insert_eq, lookup_insert_eq.
  all: repeat split; congruence.
Qed.

(** X18: deleting a cluster does not cancel a re-delivery armed for it.  If a
    live notification of a non-trial cluster is postponed because its
    resource group is not found yet, and the cluster is then flagged
    deleted, its entry is gone but the timer is still armed; when it fires
    and the lookup now succeeds, the cluster is cached and queued again. *)
Theorem clusterHandler_redelivery_outlives_deletion
    env1 env2 env3 cl gone a client1 err client3 rgName :
  store_closed a ->
  Deleted cl = false -> Trial cl = false ->
  (forall i, instanceAt a (TechnicalID cl) = Some i ->
             eventHubResourceGroupName i = EmptyString) ->
  newClient env1 cl = inl client1 ->
  GetResourceGroup env1 client1 "" (resourceGroupFilter cl) = inr err ->
  Deleted gone = true -> TechnicalID gone = TechnicalID cl ->
  newClient env3 cl = inl client3 ->
  GetResourceGroup env3 client3 "" (resourceGroupFilter cl) = inl rgName ->
  exists a1 a2 a3 n i',
    exec (clusterHandler_receive env1 cl) a = Some a1 /\
    exec (clusterHandler_receive env2 gone) a1 = Some a2 /\
    instanceStorage a2 !! TechnicalID cl = None /\
    timers a2 !! n = Some (now a + PollInterval (config a), cl) /\
    exec (clusterHandler_receive env3 cl) (set_timers (delete n) a2) = Some a3 /\
    instanceAt a3 (TechnicalID cl) = Some i' /\
    cluster i' = cl /\
    eventHubResourceGroupName i' = rgName /\
    queue a3 = workqueue.Add (TechnicalID cl) (queue a).
Proof.
  intros Hclosed Hdel Htrial Hname Hclient1 Hrg1 Hgone Htid Hclient3 Hrg3.
  destruct (clusterHandler_receive_postpones env1 cl a client1 err
              Hclosed Hdel Htrial Hname Hclient1 Hrg1)
    as (a1 & Hrun1 & Htimers1 & Hstore1 & Hq1).
  pose proof (store_closed_receive _ _ _ _ Hclosed Hrun1) as Hclosed1.
  pose (a2 := set_instanceStorage (delete (TechnicalID cl)) a1).
  assert (clusterHandler_receive env2 gone a1 = Some (tt, a2)) as Hrun2.
  { unfold clusterHandler_receive. rewrite Hgone, Htid. reflexivity. }
  pose proof (store_closed_receive _ _ _ _ Hclosed1 Hrun2) as Hclosed2.
  assert (instanceStorage a2 !! TechnicalID cl = None) as Hnone.
  { unfold a2. record_simpl. apply lookup_delete_eq. }
  destruct (clusterHandler_receive_stores env3 cl
              (set_timers (delete (length (timers a))) a2) client3 rgName)
    as (a3 & i' & Hrun3 & Hat & Hcl & Hrg & _ & Hq3); auto.
  exists a1, a2, a3, (length (timers a)), i'. unfold exec.
  rewrite Hrun1, Hrun2, Hrun3. repeat split; auto.
  - unfold a2. record_simpl. rewrite Htimers1.
    by rewrite lookup_app_r, Nat.sub_diag by lia.
  - rewrite Hq3. unfold a2. record_simpl. by rewrite Hq1.
Qed.

(** ** Shutdown *)

Lemma Add_shuttingDown item q :
  workqueue.shuttingDown (workqueue.Add item q) = workqueue.shuttingDown q.
Proof. unfold workqueue.Add. by repeat case_match. Qed.

Lemma AddAfter_shuttingDown item d t q :
  workqueue.shuttingDown (workqueue.AddAfter item d t q) = workqueue.shuttingDown q.
Proof.
  unfold workqueue.AddAfter. repeat case_match; try done.
  by rewrite Add_shuttingDown.
Qed.

Lemma advance_shuttingDown t q :
  workqueue.shuttingDown (workqueue.advance t q) = workqueue.shuttingDown q.
Proof.
  unfold workqueue.advance.
  generalize (filter (fun e : string * Z => e.2 <= t) (workqueue.waiting q)).
  generalize (filter (fun e : string * Z => ¬ e.2 <= t) (workqueue.waiting q)).
  intros l1 l2.
  change (workqueue.shuttingDown q)
    with (workqueue.shuttingDown
            (workqueue.mkQueue (workqueue.items q) (workqueue.dirty q)
               (workqueue.processing q) l1 (workqueue.shuttingDown q))) at 2.
  generalize (workqueue.mkQueue (workqueue.items q) (workqueue.dirty q)
                (workqueue.processing q) l1 (workqueue.shuttingDown q)).
  induction l2 as [|e l2 IH]; intros q0; simpl; [done|].
  by rewrite IH, Add_shuttingDown.
Qed.

Lemma clusterHandler_receive_shuttingDown env cl a a' :
  store_closed a ->
  exec (clusterHandler_receive env cl) a = Some a' ->
  workqueue.shuttingDown (queue a') = workqueue.shuttingDown (queue a).
Proof.
  intros Hclosed Hrun.
  destruct (clusterHandler_receive_effect env cl a Hclosed) as (a1 & Hrun1 & Hq & _).
  unfold exec in Hrun. rewrite Hrun1 in Hrun. injection Hrun as <-.
  destruct Hq as [->| ->]; [done|apply Add_shuttingDown].
Qed.

Lemma stopped_insert (ws : list Worker) w w' x :
  x <> Stopped ->
  <[w := x]> ws !! w' = Some Stopped -> ws !! w' = Some Stopped.
Proof.
  intros Hx Hw'. destruct (decide (w = w')) as [->|Hne].
  - apply list_lookup_insert_Some in Hw' as [(_ & Heq & _)|[Hne Hw']]; [|done].
    by subst.
  - by rewrite list_lookup_insert_ne in Hw'.
Qed.

Lemma step_shutdown s s' :
  system_ok s -> step s s' ->
  (handling s = negb (workqueue.shuttingDown (queue (provider s))) /\
   forall w, workers s !! w = Some Stopped -> handling s = false) ->
  handling s' = negb (workqueue.shuttingDown (queue (provider s'))) /\
  forall w, workers s' !! w = Some Stopped -> handling s' = false.
Proof.
  intros ((Hclosed & _) & _) Hstep [Hflag Hstopped].
  destruct Hstep as
    [env cl a' Hh Hrun | n t cl env a' Hh Hn Ht Hrun | a' Hh Hrun
    | w k q' Hw Hget | w Hw Hget | w k env again a' Hw Hrun
    | w k again a' Hw Hrun | w k a' Hw Hrun | t Ht]; split; simpl.
  - rewrite (clusterHandler_receive_shuttingDown _ _ _ _ Hclosed Hrun).
    by rewrite <- Hflag.
  - intros w Hw. rewrite <- Hh. by eapply Hstopped.
  - rewrite (clusterHandler_receive_shuttingDown env cl
               (set_timers (delete n) (provider s)) a' Hclosed Hrun).
    simpl. by rewrite <- Hflag.
  - intros w Hw. rewrite <- Hh. by eapply Hstopped.
  - revert Hrun. unfold exec, clusterHandler_done. munfold. by intros [= <-].
  - done.
  - rewrite Hflag. unfold workqueue.Get in Hget.
    destruct (workqueue.items (queue (provider s))); [by case_match|].
    by injection Hget as _ <-.
  - intros w' Hw'. apply stopped_insert in Hw'; [|done]. by eapply Hstopped.
  - done.
  - intros w' Hw'. rewrite Hflag. unfold workqueue.Get in Hget.
    destruct (workqueue.items (queue (provider s))); [|done].
    by destruct (workqueue.shuttingDown (queue (provider s))).
  - destruct (Run_work_effect _ _ _ _ _ Hrun) as (-> & _). done.
  - intros w' Hw'. apply stopped_insert in Hw'; [|done]. by eapply Hstopped.
  - revert Hrun. unfold exec. munfold. intros [= <-]. record_simpl.
    by rewrite Done_shuttingDown.
  - intros w' Hw'. apply stopped_insert in Hw'; [|by destruct again].
    by eapply Hstopped.
  - revert Hrun. unfold exec, requeue. munfold. unfold workqueue.ShuttingDown.
    destruct (workqueue.shuttingDown (queue (provider s))) eqn:Hsd; simpl;
      intros [= <-]; record_simpl; rewrite ?AddAfter_shuttingDown, Hflag, ?Hsd;
      done.
  - intros w' Hw'. apply stopped_insert in Hw'; [|done]. by eapply Hstopped.
  - by rewrite advance_shuttingDown.
  - done.
Qed.

(** X19: in every state the running provider can reach, the work queue is
    shut down exactly when the cluster handler has returned (only its
    cancellation branch calls [ShutDown], and it returns right after), and a
    worker has left its loop only after that: while the handler runs, no
    worker has stopped. *)
Theorem reachable_workers_stop_after_handler c s :
  reachable c s ->
  handling s = negb (workqueue.shuttingDown (queue (provider s))) /\
  forall w, workers s !! w = Some Stopped -> handling s = false.
Proof.
  intros Hreach.
  enough (system_ok s /\
          (handling s = negb (workqueue.shuttingDown (queue (provider s))) /\
           forall w, workers s !! w = Some Stopped -> handling s = false))
    as [_ H] by exact H.
  revert s Hreach. unfold reachable. apply rtc_ind_r.
  - split; [apply system_ok_start|]. split; [done|].
    intros w Hw. simpl in Hw. apply lookup_replicate in Hw as [Hw _]. done.
  - intros s1 s2 _ Hstep [Hok Hsd]. split; [by eapply step_preserves|].
    by eapply step_shutdown.
Qed.

(** ** The fields a worker writes *)

Lemma processInstance_fields env instance a i :
  heap a !! instance = Some i ->
  exists a' i',
    processInstance env instance a = Some (tt, a') /\
    heap a' = <[instance := i']> (heap a) /\
    cluster i' = cluster i /\
    client i' = client i /\
    eventHubResourceGroupName i' = eventHubResourceGroupName i.
Proof.
  intros Hi.
  destruct (getMetrics_frame env instance
              (capsOf (vmCapsStorage a !! Region (cluster i))) a i Hi) as (r & cs & Hgm).
  destruct (retryBackoff i) eqn:Hbo; [|destruct r as [ed|[code orig|msg]]];
    mrun; repeat (mcase; repeat mstep).
  all: eexists _, _; split; [reflexivity|]; record_simpl.
  all: rewrite ?insert_insert_eq, ?insert_delete_eq.
  all: split; [first [reflexivity | symmetry; apply insert_id; eassumption]|].
  all: simpl; repeat split; eauto.
Qed.

(** X20: a worker writes three fields of the instance it processes and
    nothing else on the heap: the cluster snapshot, the client and the
    event-hub resource group name of the instance are those it started with
    (only [lastEvent], [retryAttempts] and [retryBackoff] can differ), and
    every other allocated instance is untouched. *)
Theorem Run_keeps_cluster_client_and_group env clusterid a instance i :
  instanceStorage a !! clusterid = Some (ObjInstance instance) ->
  heap a !! instance = Some i ->
  exists a' i',
    exec (Run_cycle env clusterid) a = Some a' /\
    heap a' = <[instance := i']> (heap a) /\
    cluster i' = cluster i /\
    client i' = client i /\
    eventHubResourceGroupName i' = eventHubResourceGroupName i.
Proof.
  intros Hk Hi.
  destruct (processInstance_fields env instance a i Hi)
    as (a1 & i' & Hrun & Hheap & Hcl & Hclient & Hname).
  assert (Run_work env clusterid a = Some (true, a1)) as Hwork.
  { unfold Run_work, instanceStorage_Get, gets, bind, ret. simpl.
    by rewrite Hk, Hrun. }
  exists (match exec (Run_cycle env clusterid) a with Some a' => a' | None => a end), i'.
  unfold exec. rewrite Run_cycle_phases, (bind_Some _ _ _ _ _ Hwork).
  munfold. record_simpl.
  destruct (negb _); record_simpl; done.
Qed.

(** ** Every cached instance has a client *)

Lemma clients_after_work env clusterid a again a1 :
  stores_ok a ->
  Run_work env clusterid a = Some (again, a1) ->
  (forall key i, instanceAt a key = Some i -> is_Some (client i)) ->
  forall key i, instanceAt a1 key = Some i -> is_Some (client i).
Proof.
  intros Hok Hrun Hclients key i1 Hat.
  destruct (Run_work_other_keys env clusterid a Hok)
    as (again' & a1' & Hwork & Hkeys & _).
  rewrite Hrun in Hwork. injection Hwork as <- <-.
  destruct (decide (key = clusterid)) as [->|Hne].
  - destruct Hok as (Hclosed & Hkeyed & _).
    revert Hrun Hat.
    unfold Run_work, instanceStorage_Get, gets, bind, ret. simpl.
    destruct (instanceStorage a !! clusterid) as [[p| |]|] eqn:Hk.
    + destruct (Hclosed _ _ Hk) as [i Hi].
      destruct (processInstance_fields env p a i Hi)
        as (a2 & i' & Hrun & Hheap & Hcl & Hclient & _).
      destruct (processInstance_effect env p a i Hi)
        as (a3 & i3 & Hrun3 & _ & Hstore & _).
      rewrite Hrun in Hrun3. injection Hrun3 as <-.
      rewrite Hrun. intros [= <- <-]. unfold instanceAt.
      rewrite Hstore, (Hkeyed _ _ _ Hk Hi), lookup_insert_eq, Hheap, lookup_insert_eq.
      intros [= <-]. rewrite Hclient. apply (Hclients clusterid).
      unfold instanceAt. by rewrite Hk.
    + munfold. intros [= <- <-]. unfold instanceAt. record_simpl.
      by rewrite lookup_delete_eq.
    + munfold. intros [= <- <-]. unfold instanceAt. record_simpl.
      by rewrite lookup_delete_eq.
    + intros [= <- <-]. unfold instanceAt. by rewrite Hk.
  - destruct (Hkeys key Hne) as [_ Hsame]. rewrite Hsame in Hat. by eapply Hclients.
Qed.

Lemma clients_after_receive env cl a a' :
  store_closed a ->
  exec (clusterHandler_receive env cl) a = Some a' ->
  (forall key i, instanceAt a key = Some i -> is_Some (client i)) ->
  forall key i, instanceAt a' key = Some i -> is_Some (client i).
Proof.
  intros Hclosed Hrun Hclients key i1 Hat.
  destruct (clusterHandler_receive_instanceAt env cl a Hclosed)
    as (a1 & Hrun1 & Hown & Hother & _).
  unfold exec in Hrun. rewrite Hrun1 in Hrun. injection Hrun as <-.
  destruct (decide (key = TechnicalID cl)) as [->|Hne].
  - rewrite Hown in Hat. revert Hat. unfold intakeOutcome.
    repeat case_match; try done; try (by intros [= <-]).
    intros [= ->]. by eapply Hclients.
  - rewrite (Hother key Hne) in Hat. by eapply Hclients.
Qed.

(** X21: in every state the running provider can reach, every cached
    instance has a client: the handler stores an instance only after it has
    built its client, and no worker ever writes that field; so [getMetrics]
    never runs on an instance without one. *)
Theorem reachable_cached_instances_have_client c s key i :
  reachable c s ->
  instanceAt (provider s) key = Some i ->
  is_Some (client i).
Proof.
  intros Hreach. revert key i.
  enough (system_ok s /\
          forall key i, instanceAt (provider s) key = Some i -> is_Some (client i))
    as [_ H] by exact H.
  revert s Hreach. unfold reachable. apply rtc_ind_r.
  - split; [apply system_ok_start|]. intros key i. unfold instanceAt. simpl.
    by rewrite lookup_empty.
  - intros s1 s2 _ Hstep [Hok Hclients]. split; [by eapply step_preserves|].
    destruct Hok as ((Hclosed & Hkeyed & Hmarshal) & _).
    destruct Hstep as
      [env cl a' Hh Hrun | n t cl env a' Hh Hn Ht Hrun | a' Hh Hrun
      | w k q' Hw Hget | w Hw Hget | w k env again a' Hw Hrun
      | w k again a' Hw Hrun | w k a' Hw Hrun | t Ht]; simpl.
    + by eapply clients_after_receive.
    + by apply (clients_after_receive env cl (set_timers (delete n) (provider s1)) a').
    + revert Hrun. unfold exec, clusterHandler_done. munfold. by intros [= <-].
    + done.
    + done.
    + by eapply clients_after_work.
    + revert Hrun. unfold exec. munfold. by intros [= <-].
    + revert Hrun. unfold exec, requeue. munfold.
      destruct (negb _); munfold; by intros [= <-].
    + done.
Qed.

(** ** What a notification for a cached cluster does to the retry state *)

Lemma clusterHandler_receive_keeps_postponed env cl a p i c err :
  store_closed a ->
  instanceStorage a !! TechnicalID cl = Some (ObjInstance p) ->
  heap a !! p = Some i ->
  Deleted cl = false ->
  newClient env cl = inl c ->
  eventHubResourceGroupName i = EmptyString ->
  Trial cl = false ->
  GetResourceGroup env c "" (resourceGroupFilter cl) = inr err ->
  exists a',
    clusterHandler_receive env cl a = Some (tt, a') /\
    instanceStorage a' !! TechnicalID cl = Some (ObjInstance p) /\
    heap a' !! p = Some i /\
    timers a' = timers a ++ [(now a + PollInterval (config a), cl)] /\
    queue a' = queue a.
Proof.
  intros Hclosed Hk Hi Hdel Hclient Hempty Htrial Hrg.
  pose proof (fresh_not_stored a _ p Hclosed Hk) as Hfresh.
  apply String.eqb_eq in Hempty.
  munfold_intake. repeat mstep. repeat (mcase; repeat mstep).
  all: try congruence.
  all: eexists; split; [reflexivity|]; record_simpl.
  all: rewrite ?lookup_insert_ne by done; done.
Qed.

(** C10: a non-deleted notification for a technical id that already has a
    cached instance has one of three outcomes.  When it is persisted (the
    client is built, and the event-hub resource group name is known, found,
    or the cluster is trial), the entry is replaced by a rebuilt instance
    that carries forward the last event and the event-hub resource group
    name of the old one, and nothing else: its retry counter is zero and its
    back-off flag is cleared.  When the name is unknown and the lookup fails
    for a non-trial cluster, the old instance stays cached exactly as it
    was, retry counter and back-off flag included, and a re-delivery is
    armed.  When the client cannot be built, the entry is deleted. *)
Theorem clusterHandler_rebuild_resets_retry env cl a p i :
  store_closed a ->
  instanceStorage a !! TechnicalID cl = Some (ObjInstance p) ->
  heap a !! p = Some i ->
  Deleted cl = false ->
  exists a',
    exec (clusterHandler_receive env cl) a = Some a' /\
    (forall c,
        newClient env cl = inl c ->
        (eventHubResourceGroupName i <> "" \/ Trial cl = true \/
         exists rg, GetResourceGroup env c "" (resourceGroupFilter cl) = inl rg) ->
        exists p' i',
          instanceStorage a' !! TechnicalID cl = Some (ObjInstance p') /\
          heap a' !! p' = Some i' /\
          p' <> p /\
          cluster i' = cl /\
          client i' = Some c /\
          lastEvent i' = lastEvent i /\
          eventHubResourceGroupName i' =
            (if String.eqb (eventHubResourceGroupName i) "" then
               match GetResourceGroup env c "" (resourceGroupFilter cl) with
               | inl rg => rg
               | inr _ => ""
               end
             else eventHubResourceGroupName i) /\
          retryAttempts i' = 0 /\
          retryBackoff i' = false) /\
    (forall c err,
        newClient env cl = inl c ->
        eventHubResourceGroupName i = "" ->
        Trial cl = false ->
        GetResourceGroup env c "" (resourceGroupFilter cl) = inr err ->
        instanceStorage a' !! TechnicalID cl = Some (ObjInstance p) /\
        heap a' !! p = Some i /\
        timers a' = timers a ++ [(now a + PollInterval (config a), cl)]) /\
    (forall err,
        newClient env cl = inr err ->
        instanceStorage a' !! TechnicalID cl = None).
Proof.
  intros Hclosed Hk Hi Hdel.
  destruct (clusterHandler_receive_instanceAt env cl a Hclosed)
    as (a' & Hrun & _ & _ & Hrefused).
  exists a'. unfold exec. rewrite Hrun. split; [reflexivity|].
  split; [|split].
  - intros c Hclient Hpersist.
    destruct (clusterHandler_receive_rebuilds env cl a p i c
                Hclosed Hk Hi Hdel Hclient Hpersist)
      as (a1 & p' & i' & Hrun1 & Hrest).
    unfold exec in Hrun1. rewrite Hrun in Hrun1. injection Hrun1 as <-.
    by exists p', i'.
  - intros c err Hclient Hempty Htrial Hrg.
    destruct (clusterHandler_receive_keeps_postponed env cl a p i c err
                Hclosed Hk Hi Hdel Hclient Hempty Htrial Hrg)
      as (a1 & Hrun1 & Hk1 & Hi1 & Htimers & _).
    rewrite Hrun in Hrun1. injection Hrun1 as <-. done.
  - intros err Hclient. rewrite Hrefused by eauto. apply lookup_delete_eq.
Qed.

End MetrisProofs.

(** * The claims on the concrete provider *)

Section Claims.

#[local] Existing Instance demoTypes.
#[local] Existing Instance demoPackage.

Abbreviation demoReachable := (reachable demoConfig).

Lemma demoSys1_reachable : demoReachable demoSys1.
Proof.
  eapply rtc_r; [apply rtc_refl|].
  apply (step_feed (start demoConfig) envHealthy cluster1 demoKnown);
    vm_compute; reflexivity.
Qed.

Lemma demoSys2_reachable : demoReachable demoSys2.
Proof.
  eapply rtc_r; [apply demoSys1_reachable|].
  eapply (step_get demoSys1 0%nat "c1"); vm_compute; reflexivity.
Qed.

Lemma demoSys3_reachable : demoReachable demoSys3.
Proof.
  eapply rtc_r; [apply demoSys2_reachable|].
  apply (step_work demoSys2 0%nat "c1" envHealthy true); vm_compute; reflexivity.
Qed.

Lemma demoPair3_reachable : demoReachable demoPair3.
Proof.
  eapply rtc_r; [eapply rtc_r; [eapply rtc_r; [apply demoSys1_reachable|]|]|].
  - apply (step_feed demoSys1 envHealthy cluster2 demoBoth);
      vm_compute; reflexivity.
  - eapply (step_get demoPair1 0%nat "c1"); vm_compute; reflexivity.
  - eapply (step_get demoPair2 1%nat "c2"); vm_compute; reflexivity.
Qed.

Lemma demoStart_closed : store_closed demoStart.
Proof. apply (stores_ok_start demoConfig). Qed.

Lemma demoKnown_closed : store_closed demoKnown.
Proof. apply (reachable_ok _ _ demoSys1_reachable). Qed.

(** C1: [Run] on "resource group not found" at the maximum.  [cluster1] is
    received and a worker runs three iterations, each answered "resource
    group not found", with [maxRetryAttempts = 3].  The third iteration
    brings the counter to the maximum and deletes the instance, but the
    write-back at the end of the iteration stores it again and the key is
    delayed for one more poll interval: the instance is still cached with
    three attempts, the key waits in the queue, and when its delay has
    passed a fourth iteration calls the Provider Client again. *)
Theorem Run_notfound_at_max_is_requeued :
  exists a i a' i',
    exec demoThreeNotFound demoStart = Some a /\
    instanceAt a "c1" = Some i /\
    retryAttempts i = maxRetryAttempts /\
    workqueue.waiting (queue a) = [("c1", 900)] /\
    exec (tick 900 ;;; demoIteration envNotFound) a = Some a' /\
    instanceAt a' "c1" = Some i' /\
    retryAttempts i' = maxRetryAttempts + 1 /\
    calls a' = calls a ++ [CallComputeMetrics].
Proof.
  eexists _, _, _, _.
  split; [vm_compute; reflexivity|].
  split; [vm_compute; reflexivity|].
  split; [reflexivity|].
  split; [reflexivity|].
  split; [vm_compute; reflexivity|].
  split; [vm_compute; reflexivity|].
  split; reflexivity.
Qed.

(** C2, at a concrete cycle: worker 0 has sent the event of a healthy cycle
    of [cluster1]; a cycle answered "not found" then sends that same
    payload once more. *)
Lemma Run_failure_resends_last_event_witness :
  demoReachable demoSys3 /\
  heap (provider demoSys3) !! 1%positive
  = Some (with_lastEvent (Some demoEventData) demoInstance) /\
  exists a' raw,
    exec (demoCycle envNotFound "c1") (provider demoSys3) = Some a' /\
    demoMarshal demoEventData = inl raw /\
    EventsChannel (provider demoSys3) = [mkEvent "sub1" raw] /\
    EventsChannel a' = [mkEvent "sub1" raw; mkEvent "sub1" raw].
Proof.
  split; [apply demoSys3_reachable|].
  split; [vm_compute; reflexivity|].
  destruct (Run_failure_resends_last_event demoConfig demoSys3 envNotFound "c1" 1%positive
              (with_lastEvent (Some demoEventData) demoInstance))
    as (a' & i' & Hrun & _ & _ & raw & Hraw & Hev).
  - apply demoSys3_reachable.
  - vm_compute; reflexivity.
  - vm_compute; reflexivity.
  - right. eexists. eexists. vm_compute. reflexivity.
  - exists a', raw. split; [exact Hrun|]. split; [exact Hraw|].
    assert (raw = String.list_byte_of_string "c1,rg-eventhub") as ->.
    { vm_compute in Hraw. by injection Hraw as <-. }
    split; [vm_compute; reflexivity|]. rewrite Hev. vm_compute. reflexivity.
Defined.


(** C4, as first stated, fails: the last notification for [cluster1] is not
    a delete, yet the key is absent, because the client could not be
    built. *)
Lemma intake_live_notification_leaves_no_instance :
  Deleted cluster1 = false /\
  exists a',
    exec (clusterHandler_run [(envHealthy, cluster1); (envNoClient, cluster1)])
         demoStart = Some a' /\
    instanceStorage a' !! TechnicalID cluster1 = None.
Proof.
  split; [reflexivity|]. eexists. split; vm_compute; reflexivity.
Qed.

(** C4 as amended, at a concrete feed. *)
Lemma clusterHandler_last_notification_decides_witness :
  store_closed demoStart /\
  exists a',
    exec (clusterHandler_run [(envNoClient, cluster1); (envHealthy, cluster1)])
         demoStart = Some a' /\
    exists i', instanceAt a' "c1" = Some i' /\ cluster i' = cluster1.
Proof.
  split; [apply demoStart_closed|].
  destruct (clusterHandler_last_notification_decides
              [(envNoClient, cluster1)] envHealthy cluster1 demoStart demoStart_closed)
    as (a0 & a' & a'' & _ & Hrun & _ & _ & _ & Hlive & _).
  exists a'. split; [exact Hrun|].
  apply (Hlive eq_refl "subscription" eq_refl).
  right. right. by exists "rg-eventhub".
Defined.

(** C5, at a concrete run of three cycles. *)
Lemma Run_retryAttempts_monotone_witness :
  exists a' i',
    exec (Run_cycles
                     [envNotFound; envHealthy; envNotFound] "c1") demoKnown = Some a' /\
    heap a' !! 1%positive = Some i' /\
    0 <= retryAttempts i' <= 3.
Proof.
  destruct (Run_retryAttempts_monotone
              [envNotFound; envHealthy; envNotFound] "c1" demoKnown 1%positive demoInstance)
    as (a' & i' & Hrun & _ & Hi' & Hmono).
  - vm_compute; reflexivity.
  - vm_compute; reflexivity.
  - vm_compute. discriminate.
  - vm_compute. discriminate.
  - exists a', i'. repeat split; try assumption; apply Hmono.
Defined.

(** C6, at a concrete iteration: [cluster1] was deleted while its key was
    queued. *)
Lemma Run_absent_instance_is_inert_witness :
  exists a',
    exec (demoCycle envHealthy "c1")
         (dequeued (after (demoReceive envHealthy (mkCluster "c1" "account" "sub1" "eu1" false true))
                          demoKnown)) = Some a' /\
    calls a' = calls demoKnown /\
    EventsChannel a' = [] /\
    workqueue.items (queue a') = [] /\
    workqueue.waiting (queue a') = [].
Proof.
  pose (gone := after (demoReceive envHealthy (mkCluster "c1" "account" "sub1" "eu1" false true))
                      demoKnown).
  destruct (Run_absent_instance_is_inert envHealthy gone "c1"
              (queue (dequeued gone)))
    as (a' & Hrun & Hcalls & Hev & _ & _ & _ & _ & _ & Hitems & Hwait).
  - vm_compute; reflexivity.
  - vm_compute; reflexivity.
  - exists a'. split; [exact Hrun|]. rewrite Hcalls, Hev, Hitems, Hwait.
    repeat split; vm_compute; reflexivity.
Defined.

(** C7, at a concrete fetch: the network sub-fetch is rate limited. *)
Lemma getMetrics_fail_fast_witness :
  exists a1,
    getMetrics envThrottled 1%positive ∅ demoKnown
    = Some (inr (DetailedError 429 "too many requests"), a1) /\
    calls a1 = calls demoKnown ++ [CallComputeMetrics; CallNetworkMetrics].
Proof.
  destruct (getMetrics_fail_fast envThrottled 1%positive ∅ demoKnown demoInstance)
    as (r & cs & Hrun & _ & _ & _ & Hnet & _).
  - vm_compute; reflexivity.
  - destruct (Hnet 4 (DetailedError 429 "too many requests") eq_refl eq_refl) as [-> ->].
    eexists. split; [exact Hrun|]. reflexivity.
Defined.

(** C8, at two concrete notifications with no resource group for the event
    hub: [cluster1], which is not a trial cluster, and [cluster2], which
    is. *)
Lemma clusterHandler_lookup_failure_witness :
  (exists a',
      exec (demoReceive envNoGroup cluster1) demoStart = Some a' /\
      timers a' = [(300, cluster1)] /\
      instanceStorage a' = instanceStorage demoStart /\
      queue a' = queue demoStart) /\
  (exists a' i',
      exec (demoReceive envNoGroup cluster2) demoStart = Some a' /\
      instanceAt a' "c2" = Some i' /\
      eventHubResourceGroupName i' = "" /\
      workqueue.items (queue a') = ["c2"] /\
      timers a' = []).
Proof.
  split.
  - destruct (clusterHandler_lookup_failure envNoGroup cluster1 demoStart
                "subscription" (PlainError "no resource group")) as [Hnontrial _].
    + apply demoStart_closed.
    + reflexivity.
    + reflexivity.
    + intros i Hi. vm_compute in Hi. discriminate.
    + reflexivity.
    + destruct (Hnontrial eq_refl) as (a' & Hrun & Htimers & Hstore & _ & Hqueue).
      exists a'. repeat split; assumption.
  - destruct (clusterHandler_lookup_failure envNoGroup cluster2 demoStart
                "subscription" (PlainError "no resource group")) as [_ Htrial].
    + apply demoStart_closed.
    + reflexivity.
    + reflexivity.
    + intros i Hi. vm_compute in Hi. discriminate.
    + reflexivity.
    + destruct (Htrial eq_refl)
        as (a' & p' & i' & Hrun & Hk' & Hi' & _ & Hname & Hqueue & Htimers).
      exists a', i'. split; [exact Hrun|].
      split; [unfold instanceAt; change (TechnicalID cluster2) with "c2" in Hk';
              by rewrite Hk'|].
      split; [exact Hname|]. rewrite Hqueue, Htimers. split; reflexivity.
Defined.

(** C9, at a concrete state: each of the two workers has dequeued one of the
    two clusters. *)
Lemma workers_never_share_a_key_witness :
  demoReachable demoPair3 /\
  workers demoPair3 = [Working "c1"; Working "c2"] /\
  forall p1 p2,
    instanceStorage (provider demoPair3) !! "c1" = Some (ObjInstance p1) ->
    instanceStorage (provider demoPair3) !! "c2" = Some (ObjInstance p2) ->
    p1 <> p2.
Proof.
  split; [apply demoPair3_reachable|]. split; [reflexivity|].
  apply (workers_never_share_a_key demoConfig
           demoPair3 0%nat 1%nat (Working "c1") (Working "c2") "c1" "c2").
  - apply demoPair3_reachable.
  - discriminate.
  - reflexivity.
  - reflexivity.
  - reflexivity.
  - reflexivity.
Defined.

Lemma after_cycle_ok env clusterid a :
  stores_ok a -> stores_ok (after (demoCycle env clusterid) a).
Proof.
  intros Hok.
  destruct (Run_cycle_ok env clusterid a Hok)
    as (a' & Hrun & Hok').
  unfold after, exec, demoCycle. by rewrite Hrun.
Qed.

Lemma demoDegraded_closed : store_closed demoDegraded.
Proof.
  apply after_cycle_ok, after_cycle_ok, after_cycle_ok.
  apply (reachable_ok _ _ demoSys1_reachable).
Qed.

(** C10, as first stated, fails: [cluster2] is cached with one attempt
    counted and the back-off flag set; a notification for the same technical
    id that is not flagged deleted is handled, its resource-group lookup
    fails and the cluster is no longer trial, so the cached instance keeps
    its counter and its flag. *)
Lemma intake_postponed_notification_keeps_retry_state :
  Deleted cluster2Regular = false /\
  exists i a' i',
    instanceAt demoTrialDegraded "c2" = Some i /\
    retryAttempts i = 1 /\
    retryBackoff i = true /\
    exec (demoReceive envNoGroup cluster2Regular) demoTrialDegraded = Some a' /\
    instanceAt a' "c2" = Some i' /\
    retryAttempts i' = 1 /\
    retryBackoff i' = true.
Proof.
  split; [reflexivity|]. eexists _, _, _.
  split; [vm_compute; reflexivity|].
  split; [reflexivity|].
  split; [reflexivity|].
  split; [vm_compute; reflexivity|].
  split; [vm_compute; reflexivity|].
  split; reflexivity.
Qed.

(** C10 as amended, at a concrete notification: [cluster1] is received again
    after a rate-limited cycle and a "not found" cycle, and is persisted. *)
Lemma clusterHandler_rebuild_resets_retry_witness :
  exists i a' i',
    instanceAt demoDegraded "c1" = Some i /\
    retryAttempts i = 1 /\
    exec (demoReceive envHealthy cluster1) demoDegraded = Some a' /\
    instanceAt a' "c1" = Some i' /\
    lastEvent i' = lastEvent i /\
    retryAttempts i' = 0 /\ retryBackoff i' = false.
Proof.
  pose (i := mkInstance cluster1 (Some "subscription") None "rg-eventhub" 1 false
             : Instance).
  destruct (clusterHandler_rebuild_resets_retry envHealthy cluster1 demoDegraded
              1%positive i)
    as (a' & Hrun & Hpersisted & _ & _).
  - exact demoDegraded_closed.
  - vm_compute; reflexivity.
  - vm_compute; reflexivity.
  - reflexivity.
  - destruct (Hpersisted "subscription" eq_refl)
      as (p' & i' & Hk' & Hi' & _ & _ & _ & Hlast & _ & Hretry & Hbackoff).
    { left. discriminate. }
    exists i, a', i'. split; [vm_compute; reflexivity|]. split; [reflexivity|].
    split; [exact Hrun|]. split; [|by repeat split].
    unfold instanceAt. change (TechnicalID cluster1) with "c1" in Hk'. by rewrite Hk'.
Defined.

(** * Further properties on the concrete provider *)

Lemma demoPair1_reachable : demoReachable demoPair1.
Proof.
  eapply rtc_r; [apply demoSys1_reachable|].
  apply (step_feed demoSys1 envHealthy cluster2 demoBoth); vm_compute; reflexivity.
Qed.

Lemma demoSys1_to_demoSys3 : rtc step demoSys1 demoSys3.
Proof.
  eapply rtc_l; [|eapply rtc_l; [|apply rtc_refl]].
  - eapply (step_get demoSys1 0%nat "c1"); vm_compute; reflexivity.
  - apply (step_work demoSys2 0%nat "c1" envHealthy true); vm_compute; reflexivity.
Qed.

(** X1, at a concrete iteration: the entry of [cluster1] is not an
    instance. *)
Lemma Run_corrupted_entry_is_removed_witness :
  exists a',
    exec (demoCycle envHealthy "c1") (dequeued demoCorrupted) = Some a' /\
    instanceStorage a' = delete "c1" (instanceStorage demoCorrupted) /\
    calls a' = calls demoCorrupted /\
    workqueue.items (queue a') = [].
Proof.
  destruct (Run_corrupted_entry_is_removed envHealthy demoCorrupted "c1"
              (queue (dequeued demoCorrupted)) ObjOther)
    as (a' & Hrun & Hstore & _ & Hcalls & _ & _ & _ & _ & Hitems & _).
  - vm_compute; reflexivity.
  - vm_compute; reflexivity.
  - discriminate.
  - exists a'. split; [exact Hrun|]. split; [exact Hstore|]. split; [exact Hcalls|].
    rewrite Hitems. vm_compute. reflexivity.
Defined.

(** X2, at a healthy cycle of [cluster1]. *)
Lemma Run_success_sends_fresh_event_witness :
  exists a',
    exec (demoCycle envHealthy "c1") demoKnown = Some a' /\
    heap a' = <[1%positive := with_lastEvent (Some demoEventData) demoInstance]>
                (heap demoKnown) /\
    EventsChannel a'
    = [mkEvent "sub1" (String.list_byte_of_string "c1,rg-eventhub")].
Proof.
  destruct (Run_success_sends_fresh_event envHealthy "c1" demoKnown 1%positive
              demoInstance demoEventData (String.list_byte_of_string "c1,rg-eventhub"))
    as (a' & Hrun & Hheap & Hev & _).
  - vm_compute; reflexivity.
  - vm_compute; reflexivity.
  - reflexivity.
  - eexists. vm_compute. reflexivity.
  - vm_compute; reflexivity.
  - exists a'. split; [exact Hrun|]. split; [exact Hheap|]. rewrite Hev. reflexivity.
Defined.

(** X3, at a cycle of [cluster1] whose event data cannot be serialised. *)
Lemma Run_marshal_failure_drops_event_witness :
  exists a',
    exec (demoCycle envBadValue "c1") demoKnown = Some a' /\
    heap a' = heap demoKnown /\
    EventsChannel a' = [].
Proof.
  destruct (Run_marshal_failure_drops_event envBadValue "c1" demoKnown 1%positive
              demoInstance
              (@mkEventData demoTypes ["c1"; "rg-eventhub"] (-1) 2
                 (mkEventHub 1 10 100 100 50 500 500))
              (PlainError "json: unsupported value"))
    as (a' & Hrun & Hheap & Hev & _).
  - vm_compute; reflexivity.
  - vm_compute; reflexivity.
  - reflexivity.
  - eexists. vm_compute. reflexivity.
  - vm_compute; reflexivity.
  - exists a'. split; [exact Hrun|]. split; [exact Hheap|]. rewrite Hev. reflexivity.
Defined.

(** X4, at a cycle of [cluster1] answered by a server error. *)
Lemma Run_transient_error_changes_nothing_witness :
  exists a',
    exec (demoCycle envServerError "c1") (provider demoSys1) = Some a' /\
    heap a' = heap (provider demoSys1) /\
    instanceStorage a' !! "c1" = Some (ObjInstance 1%positive).
Proof.
  apply (Run_transient_error_changes_nothing demoConfig demoSys1 envServerError "c1"
           1%positive demoInstance (DetailedError 500 "internal server error")).
  - apply demoSys1_reachable.
  - vm_compute; reflexivity.
  - vm_compute; reflexivity.
  - reflexivity.
  - eexists. vm_compute. reflexivity.
  - vm_compute; reflexivity.
  - vm_compute; reflexivity.
Defined.

(** X5, at a cycle of [cluster1] while the queue is open. *)
Lemma Run_requeues_unless_shutting_down_witness :
  exists a',
    exec (demoCycle envHealthy "c1") demoKnown = Some a' /\
    workqueue.waiting (queue a') = [("c1", 300)].
Proof.
  destruct (Run_requeues_unless_shutting_down envHealthy "c1" demoKnown 1%positive
              demoInstance)
    as (a' & Hrun & Hq).
  - vm_compute; reflexivity.
  - vm_compute; reflexivity.
  - exists a'. split; [exact Hrun|]. rewrite Hq. vm_compute. reflexivity.
Defined.

(** X6, at a cycle of [cluster1] answered "not found" before any event was
    sent: nothing is sent. *)
Lemma Run_sends_at_most_one_event_witness :
  exists a' evs,
    exec (demoCycle envNotFound "c1") demoKnown = Some a' /\
    EventsChannel a' = EventsChannel demoKnown ++ evs /\
    (length evs <= 1)%nat.
Proof.
  destruct (Run_sends_at_most_one_event envNotFound "c1" demoKnown 1%positive
              demoInstance)
    as (a' & evs & Hrun & Hev & Hevs).
  - vm_compute; reflexivity.
  - vm_compute; reflexivity.
  - exists a', evs. split; [exact Hrun|]. split; [exact Hev|].
    destruct Hevs as [->|(e & raw & -> & _)]; simpl; lia.
Defined.

(** X7, at a healthy cycle of [cluster1]: the counter and the flag stay as
    they are. *)
Lemma Run_counter_and_flag_have_one_cause_witness :
  exists a' i',
    exec (demoCycle envHealthy "c1") demoKnown = Some a' /\
    heap a' !! 1%positive = Some i' /\
    retryAttempts i' = 0 /\
    retryBackoff i' = false.
Proof.
  destruct (Run_counter_and_flag_have_one_cause envHealthy "c1" demoKnown 1%positive
              demoInstance)
    as (a' & i' & Hrun & Hi' & Hcount & Hflag).
  - vm_compute; reflexivity.
  - vm_compute; reflexivity.
  - exists a', i'. split; [exact Hrun|]. split; [exact Hi'|]. split.
    + destruct (decide (retryAttempts i' = retryAttempts demoInstance)) as [->|Hne];
        [reflexivity|].
      destruct (Hcount Hne) as (_ & orig & [a1 Hfetch] & _).
      vm_compute in Hfetch. discriminate Hfetch.
    + destruct (retryBackoff i'); [|reflexivity].
      destruct (Hflag eq_refl) as (_ & orig & [a1 Hfetch]).
      vm_compute in Hfetch. discriminate Hfetch.
Defined.

(** X8, at four cycles of [cluster1] under a persistent rate limit. *)
Lemma Run_persistent_rate_limit_alternates_witness :
  exists a' i',
    exec (Run_cycles (replicate 4 envComputeThrottled) "c1") demoKnown = Some a' /\
    heap a' !! 1%positive = Some i' /\
    retryBackoff i' = false /\
    calls a' = calls demoKnown ++ [CallComputeMetrics; CallComputeMetrics].
Proof.
  destruct (Run_persistent_rate_limit_alternates envComputeThrottled "c1"
              "too many requests" 2 (fun _ _ => eq_refl) demoKnown 1%positive demoInstance)
    as (a' & i' & Hrun & _ & Hi' & Hbo & _ & Hcalls).
  - vm_compute; reflexivity.
  - vm_compute; reflexivity.
  - reflexivity.
  - exists a', i'. split; [exact Hrun|]. split; [exact Hi'|]. split; [exact Hbo|].
    exact Hcalls.
Defined.

(** X9, at a cycle of [cluster1] while [cluster2] is cached too. *)
Lemma Run_cycle_touches_only_its_key_witness :
  exists a',
    exec (demoCycle envNotFound "c1") demoBoth = Some a' /\
    instanceAt a' "c2" = instanceAt demoBoth "c2" /\
    vmCapsStorage a' = vmCapsStorage demoBoth.
Proof.
  destruct (Run_cycle_touches_only_its_key envNotFound "c1" demoBoth)
    as (a' & Hrun & Hkeys & Hvm & _).
  - apply (reachable_ok _ _ demoPair1_reachable).
  - exists a'. split; [exact Hrun|]. split; [|exact Hvm].
    apply (Hkeys "c2"). discriminate.
Defined.

(** X10, at the run of [demoSys3]. *)
Lemma reachable_cache_is_well_formed_witness :
  exists i,
    heap (provider demoSys3) !! 1%positive = Some i /\ TechnicalID (cluster i) = "c1".
Proof.
  destruct (reachable_cache_is_well_formed demoConfig demoSys3 demoSys3_reachable)
    as (Hkeyed & _ & _).
  apply (Hkeyed "c1" 1%positive). vm_compute. reflexivity.
Defined.

(** X12, at the first notification of a region. *)
Lemma clusterHandler_primes_uncached_region_witness :
  exists a',
    exec (demoReceive envHealthy cluster1) demoStart = Some a' /\
    vmCapsStorage a' !! "eu1" = Some (ObjVMCaps (skusToCaps demoSkus)).
Proof.
  destruct (clusterHandler_primes_uncached_region envHealthy cluster1 demoStart
              demoStart_closed)
    as (a' & Hrun & [Hsame|(client & skuList & _ & _ & Hskus & _ & _ & Hvm)]).
  - exfalso. vm_compute in Hrun. injection Hrun as <-. vm_compute in Hsame.
    discriminate Hsame.
  - exists a'. split; [exact Hrun|]. rewrite Hvm.
    injection Hskus as <-. apply lookup_insert_eq.
Defined.

(** X13, at the run of [demoSys1]. *)
Lemma reachable_vm_cache_is_never_empty_witness :
  exists caps : vmCapabilities,
    vmCapsStorage (provider demoSys1) !! "eu1" = Some (ObjVMCaps caps) /\ caps <> ∅.
Proof.
  destruct (reachable_vm_cache_is_never_empty demoConfig demoSys1 demoSys1_reachable
              "eu1" (ObjVMCaps (skusToCaps demoSkus)))
    as (caps & Heq & Hne).
  - vm_compute. reflexivity.
  - exists caps. split; [|exact Hne]. rewrite <- Heq. vm_compute. reflexivity.
Defined.

(** X14, from [demoSys1] to [demoSys3]. *)
Lemma reachable_vm_cache_entries_are_final_witness :
  vmCapsStorage (provider demoSys1) ⊆ vmCapsStorage (provider demoSys3).
Proof.
  apply (reachable_vm_cache_entries_are_final demoConfig demoSys1 demoSys3
           demoSys1_reachable demoSys1_to_demoSys3).
Defined.

(** X15, at the first notification of [cluster1]: both calls are made. *)
Lemma clusterHandler_calls_client_at_most_twice_witness :
  exists a' rg skus,
    exec (demoReceive envHealthy cluster1) demoStart = Some a' /\
    calls a' = calls demoStart ++ rg ++ skus /\
    (length rg <= 1)%nat /\ (length skus <= 1)%nat.
Proof.
  destruct (clusterHandler_calls_client_at_most_twice envHealthy cluster1 demoStart
              demoStart_closed)
    as (a' & rg & skus & Hrun & Hcalls & Hrg & Hskus).
  exists a', rg, skus. split; [exact Hrun|]. split; [exact Hcalls|]. split.
  - destruct Hrg as [->|[-> _]]; simpl; lia.
  - destruct Hskus as [->|[-> _]]; simpl; lia.
Defined.

(** X16, at the deletion of [cluster1] while its key is queued. *)
Lemma clusterHandler_refusal_only_deletes_witness :
  exists a',
    exec (demoReceive envHealthy cluster1Deleted) demoKnown = Some a' /\
    instanceStorage a' = delete "c1" (instanceStorage demoKnown) /\
    workqueue.items (queue a') = ["c1"].
Proof.
  destruct (clusterHandler_refusal_only_deletes envHealthy cluster1Deleted demoKnown
              demoKnown_closed (or_introl eq_refl))
    as (a' & Hrun & Hstore & _ & Hq & _).
  exists a'. split; [exact Hrun|]. split; [exact Hstore|]. rewrite Hq.
  vm_compute. reflexivity.
Defined.

(** X17, at a notification of [cluster1] whose resource group is not found:
    it is postponed. *)
Lemma clusterHandler_enqueues_exactly_what_it_stores_witness :
  exists a',
    exec (demoReceive envNoGroup cluster1) demoStart = Some a' /\
    instanceStorage a' = instanceStorage demoStart /\
    queue a' = queue demoStart /\
    timers a' = [(300, cluster1)].
Proof.
  destruct (clusterHandler_enqueues_exactly_what_it_stores envNoGroup cluster1 demoStart
              demoStart_closed)
    as (a' & Hrun & [(Hstore & _)|[(_ & _ & _ & Htimers)|(Hstore & Hq & _ & Htimers)]]).
  - exfalso. vm_compute in Hrun. injection Hrun as <-. vm_compute in Hstore.
    discriminate Hstore.
  - exfalso. vm_compute in Hrun. injection Hrun as <-. vm_compute in Htimers.
    discriminate Htimers.
  - exists a'. split; [exact Hrun|]. split; [exact Hstore|]. split; [exact Hq|].
    rewrite Htimers. reflexivity.
Defined.

(** X18, for [cluster1]: postponed, deleted, then re-delivered. *)
Lemma clusterHandler_redelivery_outlives_deletion_witness :
  exists a1 a2 a3 n i',
    exec (demoReceive envNoGroup cluster1) demoStart = Some a1 /\
    exec (demoReceive envHealthy cluster1Deleted) a1 = Some a2 /\
    instanceStorage a2 !! "c1" = None /\
    timers a2 !! n = Some (300, cluster1) /\
    exec (demoReceive envHealthy cluster1) (set_timers (delete n) a2) = Some a3 /\
    instanceAt a3 "c1" = Some i' /\
    cluster i' = cluster1.
Proof.
  destruct (clusterHandler_redelivery_outlives_deletion
              envNoGroup envHealthy envHealthy cluster1 cluster1Deleted demoStart
              "subscription" (PlainError "no resource group") "subscription" "rg-eventhub"
              demoStart_closed eq_refl eq_refl)
    as (a1 & a2 & a3 & n & i' & H1 & H2 & Hnone & Htimer & H3 & Hat & Hcl & _).
  - intros i Hi. vm_compute in Hi. discriminate Hi.
  - reflexivity.
  - reflexivity.
  - reflexivity.
  - reflexivity.
  - reflexivity.
  - reflexivity.
  - exists a1, a2, a3, n, i'. repeat split; assumption.
Defined.

(** X19, at the run of [demoSys3]: the handler runs and no worker has
    stopped. *)
Lemma reachable_workers_stop_after_handler_witness :
  workqueue.shuttingDown (queue (provider demoSys3)) = false /\
  forall w, workers demoSys3 !! w <> Some Stopped.
Proof.
  destruct (reachable_workers_stop_after_handler demoConfig demoSys3 demoSys3_reachable)
    as [Hflag Hstopped].
  split.
  - apply negb_true_iff. symmetry. exact Hflag.
  - intros w Hw. discriminate (Hstopped w Hw).
Defined.

(** X20, at a cycle of [cluster1] answered "not found". *)
Lemma Run_keeps_cluster_client_and_group_witness :
  exists a' i',
    exec (demoCycle envNotFound "c1") demoKnown = Some a' /\
    heap a' = <[1%positive := i']> (heap demoKnown) /\
    cluster i' = cluster1 /\
    client i' = Some "subscription" /\
    eventHubResourceGroupName i' = "rg-eventhub".
Proof.
  apply (Run_keeps_cluster_client_and_group envNotFound "c1" demoKnown 1%positive
           demoInstance); vm_compute; reflexivity.
Defined.

(** X21, at the run of [demoSys3]. *)
Lemma reachable_cached_instances_have_client_witness :
  is_Some (client (with_lastEvent (Some demoEventData) demoInstance)).
Proof.
  apply (reachable_cached_instances_have_client demoConfig demoSys3 "c1").
  - apply demoSys3_reachable.
  - vm_compute. reflexivity.
Defined.

End Claims.
